(** * lyftr-backend: the webhook receiver, its store and its read endpoints

    A shallow embedding of [app/main.py] and [app/storage.py].

    - A Python [str] is a Rocq [string] whose characters are the code
      points U+0000..U+00FF (the range Starlette decodes header bytes
      into); [bytes] is a [string] of octets.  A JSON body can carry
      any code point, a lone surrogate included, which [sqlite3] refuses
      to bind: module [Wide] has the write path over all code points,
      and agrees with [Main.webhook] below U+0100.
    - A Python [int] is a [Z]; SQLite integers are 64-bit and the
      [sqlite3] module refuses to bind anything wider.
    - The table [messages] is the list of its rows in rowid order.
    - ORDER BY is the contract SQLite documents: the rows, rearranged
      so that the key never decreases, rows of equal key in an order of
      the engine's choosing.  Where the key tells all rows apart the
      answer is the sort.  [Main.stats] holds of every answer the
      contract allows, [Main.stats_run] is the answer SQLite gives.
    - A handler returns its HTTP response; [webhook] also returns the
      store it leaves behind.  The clock read by [insert_message] is an
      explicit argument.
    - LIKE refuses a pattern of more than 50 000 octets, the default
      the code never changes.  SQLITE_LIMIT_LENGTH (a thousand million
      octets for one value) is left out. *)

From Stdlib Require Import List String Ascii ZArith NArith Bool Lia.
From Stdlib Require Import Permutation Sorted.
Import ListNotations.

Local Open Scope string_scope.

(** ** Python built-ins on [str] *)

Module Py.

Definition str := string.
Definition bytes := string.

(** Truth value of a [str]: only the empty string is falsy. *)
Definition truthy (s : str) : bool := negb (s =? "").

Definition ord (c : ascii) : N := N_of_ascii c.

Definition len (s : str) : Z := Z.of_nat (String.length s).

(** [s.startswith(p)] *)
Definition startswith (s p : str) : bool := String.prefix p s.

Fixpoint rev_string (acc s : string) : string :=
  match s with
  | EmptyString => acc
  | String c s' => rev_string (String c acc) s'
  end.

(** [s.endswith(p)] *)
Definition endswith (s p : str) : bool :=
  String.prefix (rev_string "" p) (rev_string "" s).

(** [s[1:]] *)
Definition slice_from_1 (s : str) : str :=
  match s with
  | EmptyString => EmptyString
  | String _ s' => s'
  end.

(** The characters of U+0000..U+00FF whose Unicode Numeric_Type is
    Decimal or Digit: the ASCII digits and the superscripts
    U+00B2, U+00B3 and U+00B9. *)
Definition isdigit_char (c : ascii) : bool :=
  let n := ord c in
  ((48 <=? n) && (n <=? 57) || (n =? 178) || (n =? 179) || (n =? 185))%N.

Fixpoint all_chars (p : ascii -> bool) (s : string) : bool :=
  match s with
  | EmptyString => true
  | String c s' => p c && all_chars p s'
  end.

(** [s.isdigit()]: at least one character, and every character a digit. *)
Definition isdigit (s : str) : bool :=
  truthy s && all_chars isdigit_char s.

Definition isascii_char (c : ascii) : bool := (ord c <? 128)%N.

(** [s.isascii()] *)
Definition isascii (s : str) : bool := all_chars isascii_char s.

(** [s.encode()]: UTF-8; a code point from U+0080 up takes two octets. *)
Fixpoint encode (s : str) : bytes :=
  match s with
  | EmptyString => EmptyString
  | String c s' =>
      let n := ord c in
      if (n <? 128)%N then String c (encode s')
      else String (ascii_of_N (N.lor 192 (N.shiftr n 6)))
             (String (ascii_of_N (N.lor 128 (N.land n 63))) (encode s'))
  end.

(** The exceptions that reach a handler uncaught. *)
Inductive exception :=
| TypeError
| OverflowError
| UnicodeEncodeError      (* a lone surrogate on its way to UTF-8 *)
| OperationalError.       (* [sqlite3.OperationalError] *)

(** Truth value of an [Optional[str]]: [None] and the empty string
    are falsy. *)
Definition truthy_opt (o : option str) : bool :=
  match o with
  | None => false
  | Some s => truthy s
  end.

(** [s.replace(old, new)] for a non-empty [old]: occurrences are taken
    from the left and do not overlap.  [skip] counts the characters of
    an occurrence still to be dropped. *)
Fixpoint replace_from (old new : str) (skip : nat) (s : str) : str :=
  match s with
  | EmptyString => EmptyString
  | String c s' =>
      match skip with
      | S k => replace_from old new k s'
      | O =>
          if String.prefix old s
          then (new ++ replace_from old new (String.length old - 1) s')%string
          else String c (replace_from old new 0 s')
      end
  end.

(** With an empty [old], [new] goes before every character and at the
    end. *)
Fixpoint replace_empty (new : str) (s : str) : str :=
  match s with
  | EmptyString => new
  | String c s' => (new ++ String c (replace_empty new s'))%string
  end.

(** [s.replace(old, new)] *)
Definition replace (s old new : str) : str :=
  if (old =? "")%string then replace_empty new s else replace_from old new 0 s.

(** [os.path.join(a, b)] on POSIX. *)
Definition path_join (a b : str) : str :=
  if startswith b "/" then b
  else if negb (truthy a) || endswith a "/" then (a ++ b)%string
  else (a ++ "/" ++ b)%string.

End Py.

(** ** [hashlib.sha256] and [hmac] (FIPS 180-4, RFC 2104) *)

Module Sha256.

Local Open Scope N_scope.

Definition word := N.
Definition modulus : N := 2 ^ 32.

Definition add32 (x y : word) : word := (x + y) mod modulus.
Definition rotr (n : N) (x : word) : word :=
  N.lor (N.shiftr x n) (N.shiftl x (32 - n) mod modulus).
Definition not32 (x : word) : word := N.lxor x (modulus - 1).

Definition Ch (x y z : word) : word :=
  N.lxor (N.land x y) (N.land (not32 x) z).
Definition Maj (x y z : word) : word :=
  N.lxor (N.lxor (N.land x y) (N.land x z)) (N.land y z).
Definition bsig0 (x : word) : word :=
  N.lxor (N.lxor (rotr 2 x) (rotr 13 x)) (rotr 22 x).
Definition bsig1 (x : word) : word :=
  N.lxor (N.lxor (rotr 6 x) (rotr 11 x)) (rotr 25 x).
Definition ssig0 (x : word) : word :=
  N.lxor (N.lxor (rotr 7 x) (rotr 18 x)) (N.shiftr x 3).
Definition ssig1 (x : word) : word :=
  N.lxor (N.lxor (rotr 17 x) (rotr 19 x)) (N.shiftr x 10).

(** The round constants are the first 32 fractional bits of the cube
    roots of the first 64 primes, the initial state those of the square
    roots of the first 8. *)
Definition is_prime (n : N) : bool :=
  forallb (fun d => negb (n mod N.of_nat d =? 0)) (seq 2 (N.to_nat n - 2)).

Definition primes : list N :=
  filter is_prime (map N.of_nat (seq 2 310)).

Fixpoint root3_bits (k : nat) (n r : N) : N :=
  match k with
  | O => r
  | S k' =>
      let r' := N.lor r (N.shiftl 1 (N.of_nat k')) in
      root3_bits k' n (if r' * r' * r' <=? n then r' else r)
  end.

Definition root3 (n : N) : N := root3_bits 48 n 0.

Definition K : list word := Eval vm_compute in
    map (fun p => root3 (p * 2 ^ 96) mod modulus) primes.

Definition H0 : list word := Eval vm_compute in
    map (fun p => N.sqrt (p * 2 ^ 64) mod modulus) (firstn 8 primes).

(** Padding: a one bit, zeros, and the bit length on 64 bits, up to a
    multiple of 64 octets. *)
Definition be_bytes (n : nat) (x : N) : list N :=
  map (fun i => N.shiftr x (8 * N.of_nat (n - 1 - i)) mod 256) (seq 0 n).

Definition pad (msg : list N) : list N :=
  let l := List.length msg in
  (msg ++ [128] ++ repeat 0 ((64 - (l + 9) mod 64) mod 64)%nat
       ++ be_bytes 8 (8 * N.of_nat l))%list.

Fixpoint be_words (fuel : nat) (bs : list N) : list word :=
  match fuel, bs with
  | S fuel', b0 :: b1 :: b2 :: b3 :: rest =>
      (b0 * 16777216 + b1 * 65536 + b2 * 256 + b3) :: be_words fuel' rest
  | _, _ => []
  end.

Fixpoint blocks (fuel : nat) (ws : list word) : list (list word) :=
  match fuel, ws with
  | S fuel', _ :: _ => firstn 16 ws :: blocks fuel' (skipn 16 ws)
  | _, _ => []
  end.

(** The message schedule, kept newest first while it is extended. *)
Fixpoint schedule (n : nat) (rev_w : list word) : list word :=
  match n with
  | O => rev rev_w
  | S n' =>
      let w := add32 (add32 (ssig1 (nth 1 rev_w 0)) (nth 6 rev_w 0))
                     (add32 (ssig0 (nth 14 rev_w 0)) (nth 15 rev_w 0)) in
      schedule n' (w :: rev_w)
  end.

Record state := State { sa : word; sb : word; sc : word; sd : word;
                        se : word; sf : word; sg : word; sh : word }.

Definition round (s : state) (kw : word * word) : state :=
  let '(k, w) := kw in
  let t1 := add32 (add32 (add32 (sh s) (bsig1 (se s)))
                         (add32 (Ch (se s) (sf s) (sg s)) k)) w in
  let t2 := add32 (bsig0 (sa s)) (Maj (sa s) (sb s) (sc s)) in
  State (add32 t1 t2) (sa s) (sb s) (sc s)
        (add32 (sd s) t1) (se s) (sf s) (sg s).

Definition compress (s : state) (block : list word) : state :=
  let w := schedule 48 (rev block) in
  let s' := fold_left round (combine K w) s in
  State (add32 (sa s) (sa s')) (add32 (sb s) (sb s'))
        (add32 (sc s) (sc s')) (add32 (sd s) (sd s'))
        (add32 (se s) (se s')) (add32 (sf s) (sf s'))
        (add32 (sg s) (sg s')) (add32 (sh s) (sh s')).

Definition init : state :=
  State (nth 0 H0 0) (nth 1 H0 0) (nth 2 H0 0) (nth 3 H0 0)
        (nth 4 H0 0) (nth 5 H0 0) (nth 6 H0 0) (nth 7 H0 0).

Definition state_words (s : state) : list word :=
  [sa s; sb s; sc s; sd s; se s; sf s; sg s; sh s].

(** The 32 octets of the digest. *)
Definition digest (msg : list N) : list N :=
  let p := pad msg in
  let ws := be_words (List.length p) p in
  flat_map (be_bytes 4)
    (state_words (fold_left compress (blocks (List.length ws) ws) init)).

End Sha256.

Module Hmac.

Local Open Scope N_scope.

Definition octets (b : Py.bytes) : list N :=
  map N_of_ascii (list_ascii_of_string b).

Definition block_size : nat := 64.

Definition block_key (key : list N) : list N :=
  let k := if (block_size <? List.length key)%nat
           then Sha256.digest key else key in
  k ++ repeat 0 (block_size - List.length k).

(** [hmac.new(key, msg, hashlib.sha256).digest()] *)
Definition hmac_sha256 (key msg : Py.bytes) : list N :=
  let k := block_key (octets key) in
  Sha256.digest (map (N.lxor 92) k
                 ++ Sha256.digest (map (N.lxor 54) k ++ octets msg)).

Definition hex_digits : list ascii :=
  list_ascii_of_string "0123456789abcdef".

Definition hex_digit (d : N) : ascii := nth (N.to_nat d) hex_digits "0"%char.

Fixpoint hex (bs : list N) : Py.str :=
  match bs with
  | [] => EmptyString
  | b :: bs' => String (hex_digit (b / 16)) (String (hex_digit (b mod 16)) (hex bs'))
  end.

(** [hmac.new(key, msg, hashlib.sha256).hexdigest()] *)
Definition hexdigest (key msg : Py.bytes) : Py.str := hex (hmac_sha256 key msg).

(** [hmac.compare_digest(a, b)] on two [str]: equality, and a
    [TypeError] when either holds a character outside ASCII. *)
Definition compare_digest (a b : Py.str) : Py.exception + bool :=
  if Py.isascii a && Py.isascii b then inr (a =? b)%string
  else inl Py.TypeError.

End Hmac.

(** ** The SQLite engine, as far as the queries of the application use it *)

Module Sqlite.

(** TEXT values compare under the BINARY collation: [memcmp] on the
    UTF-8 encodings, which orders strings as their code points do. *)
Definition text_eq (a b : Py.str) : bool := (a =? b)%string.
Definition text_le (a b : Py.str) : bool := (a <=? b)%string.
Definition text_ge (a b : Py.str) : bool := text_le b a.

(** The built-in LIKE works on NUL-terminated strings. *)
Fixpoint c_string (s : string) : string :=
  match s with
  | EmptyString => EmptyString
  | String c s' => if (Py.ord c =? 0)%N then EmptyString else String c (c_string s')
  end.

(** LIKE folds the case of the 26 ASCII letters only. *)
Definition tolower (c : ascii) : ascii :=
  let n := Py.ord c in
  if ((65 <=? n) && (n <=? 90))%N then ascii_of_N (n + 32) else c.

(** A [%] of the pattern: the rest of the pattern matches here or
    further to the right. *)
Fixpoint any_run (rest : string -> bool) (s : string) : bool :=
  rest s
  || match s with
     | EmptyString => false
     | String _ s' => any_run rest s'
     end.

(** [patternCompare]: [%] stands for any run of characters, [_] for
    exactly one; no escape character is in force. *)
Fixpoint pattern_compare (p s : string) : bool :=
  match p with
  | EmptyString => (s =? "")%string
  | String c p' =>
      if (c =? "%")%char then any_run (pattern_compare p') s
      else
        match s with
        | EmptyString => false
        | String d s' =>
            ((c =? "_")%char || (tolower c =? tolower d)%char)
            && pattern_compare p' s'
        end
  end.

(** [text LIKE pattern]; NULL on the left gives NULL, which a WHERE
    clause treats as false. *)
Definition like (text : option Py.str) (pattern : Py.str) : bool :=
  match text with
  | None => false
  | Some t => pattern_compare (c_string pattern) (c_string t)
  end.

(** SQLITE_LIMIT_LIKE_PATTERN_LENGTH, 50 000 by default: LIKE raises
    "LIKE or GLOB pattern too complex" on a pattern with more octets,
    whatever is on its left. *)
Definition too_complex (pattern : Py.str) : bool :=
  (50000 <? N.of_nat (String.length (Py.encode pattern)))%N.

(** Binding a Python [int] to a statement parameter. *)
Definition bind_int (v : Z) : Py.exception + Z :=
  if ((- 2 ^ 63 <=? v) && (v <? 2 ^ 63))%Z then inr v
  else inl Py.OverflowError.

(** [LIMIT l OFFSET o]: a negative limit is no limit, a negative
    offset is none. *)
Definition limit_offset {A : Type} (l o : Z) (rows : list A) : list A :=
  let rest := skipn (Z.to_nat o) rows in
  if (l <? 0)%Z then rest else firstn (Z.to_nat l) rest.

Section OrderBy.

Context {A : Type} (leb : A -> A -> bool).

(** What ORDER BY promises: the rows, rearranged so that the sort
    key never decreases.  Rows with equal keys come in an order of
    the engine's choosing. *)
Definition le_of (a b : A) : Prop := leb a b = true.

Definition ordered_by (rows out : list A) : Prop :=
  Permutation rows out /\ Sorted le_of out.

(** One such rearrangement: a stable insertion sort. *)
Fixpoint insert (x : A) (l : list A) : list A :=
  match l with
  | [] => [x]
  | y :: l' => if leb x y then x :: l else y :: insert x l'
  end.

Definition sort (l : list A) : list A := fold_right insert [] l.

End OrderBy.

End Sqlite.

(** ** [app/storage.py] *)

Module Storage.

(** A row of the table [messages]; [text] is the only nullable column. *)
Record row := Row {
  message_id : Py.str;
  from_msisdn : Py.str;
  to_msisdn : Py.str;
  ts : Py.str;
  text : option Py.str;
  created_at : Py.str
}.

Definition table := list row.

(** The dict that [payload.dict(by_alias=True)] hands to
    [insert_message], and the dict a result row is turned into. *)
Record message := Message {
  m_message_id : Py.str;
  m_from : Py.str;
  m_to : Py.str;
  m_ts : Py.str;
  m_text : option Py.str
}.

(** [message_id TEXT PRIMARY KEY]: does a row with this id exist? *)
Definition has_id (id : Py.str) (db : table) : bool :=
  existsb (fun r => Sqlite.text_eq (message_id r) id) db.

(** [insert_message(message)]: the INSERT either appends the row and
    the function returns [True], or hits the primary key, raises
    [sqlite3.IntegrityError] and the function returns [False].
    [utcnow] is [datetime.utcnow().isoformat()]. *)
Definition insert_message (db : table) (utcnow : Py.str) (message : message)
  : bool * table :=
  if has_id (m_message_id message) db then (false, db)
  else (true,
        (db ++ [Row (m_message_id message) (m_from message) (m_to message)
                    (m_ts message) (m_text message) (utcnow ++ "Z")%string])%list).

End Storage.

(** ** [app/main.py] *)

Module Main.

(** [app/config.py]; the module refuses to load without a secret. *)
Record Config := { WEBHOOK_SECRET : Py.str }.

(** *** Responses *)

Inductive error_item :=
| ValueError (msg : Py.str)     (* raised by a validator of the model *)
| TypeFailure (msg : Py.str)    (* pydantic's own check of presence and type *)
| NotGe (bound : Z)             (* [Query(ge=bound)] *)
| NotLe (bound : Z).            (* [Query(le=bound)] *)

(** A [ValidationError]: the failing locations, in field order. *)
Definition ValidationError := list (Py.str * error_item).

Inductive detail :=
| Text (s : Py.str)
| Errors (e : ValidationError).

(** What the client gets: the returned dict with status 200, an
    [HTTPException] (or FastAPI's rejection of a parameter) as
    [{"detail": ...}] with its status, or 500 for an exception no
    one catches. *)
Inductive response (A : Type) :=
| OK (content : A)
| HTTPException (status : Z) (d : detail)
| Uncaught (e : Py.exception).

Arguments OK {A} content.
Arguments HTTPException {A} status d.
Arguments Uncaught {A} e.

Definition status_code {A : Type} (r : response A) : Z :=
  match r with
  | OK _ => 200
  | HTTPException c _ => c
  | Uncaught _ => 500
  end.

(** *** Models *)

Record WebhookMessage := {
  message_id : Py.str;
  from_ : Py.str;
  to : Py.str;
  ts : Py.str;
  text : option Py.str
}.

(** A validator returns the value or raises [ValueError]. *)
Definition id_not_empty (v : Py.str) : Py.str + Py.str :=
  if negb (Py.truthy v) then inl "message_id must be non-empty" else inr v.

Definition validate_e164 (v : Py.str) : Py.str + Py.str :=
  if negb (Py.startswith v "+") || negb (Py.isdigit (Py.slice_from_1 v))
  then inl "must be E.164-like (+digits)"
  else inr v.

Definition validate_ts (v : Py.str) : Py.str + Py.str :=
  if negb (Py.endswith v "Z") then inl "ts must end with Z" else inr v.

Definition validate_text (v : option Py.str) : Py.str + option Py.str :=
  match v with
  | Some s => if (4096 <? Py.len s)%Z then inl "text too long" else inr v
  | None => inr v
  end.

(** What pydantic makes of one field before the validators of the
    class see it: a value of the declared type, or a failure (the
    field is missing, or its value cannot be taken as that type). *)
Inductive typed (A : Type) :=
| Typed (v : A)
| Untyped (msg : Py.str).

Arguments Typed {A} v.
Arguments Untyped {A} msg.

Record raw_fields := {
  raw_message_id : typed Py.str;
  raw_from : typed Py.str;           (* the alias [from] *)
  raw_to : typed Py.str;
  raw_ts : typed Py.str;
  raw_text : typed (option Py.str)   (* absent or null: [None] *)
}.

Inductive decoded :=
| NotAnObject (msg : Py.str)
| Object (f : raw_fields).

(** The JSON reader and pydantic's type coercion belong to libraries
    whose versions the repository does not pin; the handlers are
    stated over any such decoder. *)
Class Decoder := decode : Py.bytes -> decoded.

(** A validator of the class runs on a field that passed the type
    check; either failure is recorded under the field's name. *)
Definition validated {A : Type} (loc : Py.str) (validator : A -> Py.str + A)
           (x : typed A) : ValidationError + A :=
  match x with
  | Untyped msg => inl [(loc, TypeFailure msg)]
  | Typed v =>
      match validator v with
      | inl msg => inl [(loc, ValueError msg)]
      | inr v' => inr v'
      end
  end.

Definition errors_of {A : Type} (r : ValidationError + A) : ValidationError :=
  match r with
  | inl e => e
  | inr _ => []
  end.

(** [WebhookMessage.parse_raw(raw_body)] *)
Definition parse_raw `{Decoder} (raw_body : Py.bytes)
  : ValidationError + WebhookMessage :=
  match decode raw_body with
  | NotAnObject msg => inl [("__root__", TypeFailure msg)]
  | Object f =>
      let r1 := validated "message_id" id_not_empty (raw_message_id f) in
      let r2 := validated "from" validate_e164 (raw_from f) in
      let r3 := validated "to" validate_e164 (raw_to f) in
      let r4 := validated "ts" validate_ts (raw_ts f) in
      let r5 := validated "text" validate_text (raw_text f) in
      match r1, r2, r3, r4, r5 with
      | inr v1, inr v2, inr v3, inr v4, inr v5 =>
          inr {| message_id := v1; from_ := v2; to := v3; ts := v4; text := v5 |}
      | _, _, _, _, _ =>
          inl (errors_of r1 ++ errors_of r2 ++ errors_of r3
               ++ errors_of r4 ++ errors_of r5)%list
      end
  end.

(** [payload.dict(by_alias=True)] *)
Definition dict (payload : WebhookMessage) : Storage.message :=
  Storage.Message (message_id payload) (from_ payload) (to payload)
                  (ts payload) (text payload).

(** *** Webhook *)

Record Request := {
  body : Py.bytes;
  X_Signature : option Py.str    (* [request.headers.get("X-Signature")] *)
}.

Record WebhookResult := { status : Py.str; result : Py.str }.

Definition invalid_signature {A : Type} : response A :=
  HTTPException 401 (Text "invalid signature").

(** The hex HMAC-SHA256 of the raw body under the shared secret. *)
Definition computed (cfg : Config) (raw_body : Py.bytes) : Py.str :=
  Hmac.hexdigest (Py.encode (WEBHOOK_SECRET cfg)) raw_body.

(** [webhook(request)] on the store [db], the clock reading [utcnow].
    The detail of the 422, [str(e)], is kept as the errors it prints. *)
Definition webhook `{Decoder} (cfg : Config) (db : Storage.table)
           (utcnow : Py.str) (request : Request)
  : response WebhookResult * Storage.table :=
  let raw_body := body request in
  match X_Signature request with
  | None => (invalid_signature, db)
  | Some signature =>
      if negb (Py.truthy signature) then (invalid_signature, db)
      else
        let computed := computed cfg raw_body in
        match Hmac.compare_digest signature computed with
        | inl e => (Uncaught e, db)
        | inr false => (invalid_signature, db)
        | inr true =>
            match parse_raw raw_body with
            | inl e => (HTTPException 422 (Errors e), db)
            | inr payload =>
                let (inserted, db') :=
                  Storage.insert_message db utcnow (dict payload) in
                (OK {| status := "ok";
                       result := if inserted then "created" else "duplicate" |},
                 db')
            end
        end
  end.

(** *** Messages *)

(** [Query(default, ge=..., le=...)] on an integer parameter that is
    absent ([None]) or was read as an integer. *)
Definition Query (default : Z) (ge : Z) (le : option Z) (v : option Z)
  : error_item + Z :=
  match v with
  | None => inr default
  | Some n =>
      if (n <? ge)%Z then inl (NotGe ge)
      else match le with
           | Some m => if (m <? n)%Z then inl (NotLe m) else inr n
           | None => inr n
           end
  end.

(** One entry of [conditions] with its entry of [params]. *)
Inductive condition :=
| From_eq (param : Py.str)      (* [from_msisdn = ?] *)
| Ts_ge (param : Py.str)        (* [ts >= ?] *)
| Text_like (param : Py.str).   (* [text LIKE ?] *)

Definition holds (c : condition) (r : Storage.row) : bool :=
  match c with
  | From_eq p => Sqlite.text_eq (Storage.from_msisdn r) p
  | Ts_ge p => Sqlite.text_ge (Storage.ts r) p
  | Text_like p => Sqlite.like (Storage.text r) p
  end.

(** [WHERE c1 AND ... AND cn], and no WHERE clause for no condition. *)
Definition where_ (conditions : list condition) (r : Storage.row) : bool :=
  forallb (fun c => holds c r) conditions.

(** What can go wrong while the engine evaluates the WHERE clause on a
    row: it takes the terms of the AND from the left and stops at the
    first that is false, and a LIKE it gets to raises when its pattern
    is beyond the limit. *)
Definition raises (c : condition) : bool :=
  match c with
  | Text_like p => Sqlite.too_complex p
  | _ => false
  end.

Fixpoint where_raises (conditions : list condition) (r : Storage.row) : bool :=
  match conditions with
  | [] => false
  | c :: rest => raises c || (holds c r && where_raises rest r)
  end.

Definition when_truthy (v : option Py.str) (c : Py.str -> condition)
  : list condition :=
  match v with
  | Some s => if Py.truthy s then [c s] else []
  | None => []
  end.

Definition conditions_of (from_ since q : option Py.str) : list condition :=
  (when_truthy from_ From_eq
   ++ when_truthy since Ts_ge
   ++ when_truthy q (fun q => Text_like ("%" ++ q ++ "%")%string))%list.

(** [ORDER BY ts ASC, message_id ASC] *)
Definition by_ts_message_id (r1 r2 : Storage.row) : bool :=
  match (Storage.ts r1 ?= Storage.ts r2)%string with
  | Lt => true
  | Eq => Sqlite.text_le (Storage.message_id r1) (Storage.message_id r2)
  | Gt => false
  end.

(** [dict(row)] of a row of the data query. *)
Definition row_dict (r : Storage.row) : Storage.message :=
  Storage.Message (Storage.message_id r) (Storage.from_msisdn r)
                  (Storage.to_msisdn r) (Storage.ts r) (Storage.text r).

Record MessagesBody := {
  data : list Storage.message;
  total : Z;
  limit : Z;
  offset : Z
}.

(** [get_messages(limit, offset, from_, since, q)] on the store [db];
    a parameter the request leaves out is [None].  The COUNT query runs
    first and is where a LIKE pattern beyond the limit raises; [limit]
    and [offset] are bound to the data query after it.  The ORDER BY of
    the data query is the sort: under the primary key no two rows share
    the pair (ts, message_id). *)
Definition get_messages (db : Storage.table) (limit offset : option Z)
           (from_ since q : option Py.str) : response MessagesBody :=
  match Query 50 1 (Some 100%Z) limit, Query 0 0 None offset with
  | inr limit, inr offset =>
      let conditions := conditions_of from_ since q in
      if existsb (where_raises conditions) db
      then Uncaught Py.OperationalError
      else
        let matching := filter (where_ conditions) db in
        let total := Z.of_nat (List.length matching) in
        match Sqlite.bind_int limit, Sqlite.bind_int offset with
        | inr l, inr o =>
            let rows :=
              Sqlite.limit_offset l o (Sqlite.sort by_ts_message_id matching) in
            OK {| data := map row_dict rows; total := total;
                  limit := limit; offset := offset |}
        | inl e, _ => Uncaught e
        | _, inl e => Uncaught e
        end
  | r1, r2 =>
      HTTPException 422
        (Errors (match r1 with inl e => [("limit", e)] | inr _ => [] end
                 ++ match r2 with inl e => [("offset", e)] | inr _ => [] end)%list)
  end.

(** What FastAPI found in the query string for a parameter declared
    [int]: nothing, an integer, or a value it cannot read as one. *)
Inductive int_param :=
| Missing
| Integer (n : Z)
| NotInteger.

Definition given_int (p : int_param) : option Z :=
  match p with
  | Integer n => Some n
  | _ => None
  end.

(** The errors of one parameter: of its type, or of its bounds. *)
Definition param_errors (name : Py.str) (default ge : Z) (le : option Z)
           (p : int_param) : ValidationError :=
  match p with
  | NotInteger => [(name, TypeFailure "value is not a valid integer")]
  | _ => match Query default ge le (given_int p) with
         | inl e => [(name, e)]
         | inr _ => []
         end
  end.

(** [GET /messages] as FastAPI serves it: the declared parameters are
    read and checked, all their errors reported together, before
    [get_messages] is called. *)
Definition messages_route (db : Storage.table) (limit offset : int_param)
           (from_ since q : option Py.str) : response MessagesBody :=
  match limit, offset with
  | NotInteger, _ | _, NotInteger =>
      HTTPException 422
        (Errors (param_errors "limit" 50 1 (Some 100%Z) limit
                 ++ param_errors "offset" 0 0 None offset)%list)
  | _, _ => get_messages db (given_int limit) (given_int offset) from_ since q
  end.

(** *** Stats *)

Record StatsBody := {
  total_messages : Z;
  senders_count : Z;
  messages_per_sender : list (Py.str * Z);   (* [{"from": ..., "count": ...}] *)
  first_message_ts : option Py.str;
  last_message_ts : option Py.str
}.

(** The distinct values of [from_msisdn]. *)
Definition senders (db : Storage.table) : list Py.str :=
  nodup string_dec (map Storage.from_msisdn db).

Definition count_from (sender : Py.str) (db : Storage.table) : Z :=
  Z.of_nat (List.length
              (filter (fun r => Sqlite.text_eq (Storage.from_msisdn r) sender) db)).

(** [SELECT from_msisdn, COUNT( * ) ... GROUP BY from_msisdn] *)
Definition group_by_sender (db : Storage.table) : list (Py.str * Z) :=
  map (fun sender => (sender, count_from sender db)) (senders db).

(** [ORDER BY count DESC] *)
Definition by_count_desc (g1 g2 : Py.str * Z) : bool := (snd g2 <=? snd g1)%Z.

(** The order in which the GROUP BY hands over its groups: the engine
    sorts the rows on [from_msisdn] to group them, and with one GROUP BY
    term and one ORDER BY term it gives that sort the direction of the
    ORDER BY term, here DESC. *)
Definition by_sender_desc (g1 g2 : Py.str * Z) : bool :=
  Sqlite.text_le (fst g2) (fst g1).

(** [ORDER BY ts ASC] and [ORDER BY ts DESC] *)
Definition by_ts_asc (r1 r2 : Storage.row) : bool :=
  Sqlite.text_le (Storage.ts r1) (Storage.ts r2).
Definition by_ts_desc (r1 r2 : Storage.row) : bool :=
  Sqlite.text_le (Storage.ts r2) (Storage.ts r1).

(** [cursor.fetchone()] followed by [row["ts"] if row else None] *)
Definition fetchone_ts (rows : list Storage.row) : option Py.str :=
  option_map Storage.ts (hd_error rows).

(** The body built from the rows the three ordered queries returned. *)
Definition stats_body (db : Storage.table) (per_sender : list (Py.str * Z))
           (earliest latest : list Storage.row) : StatsBody :=
  {| total_messages := Z.of_nat (List.length db);
     senders_count := Z.of_nat (List.length (senders db));
     messages_per_sender := Sqlite.limit_offset 10 0 per_sender;
     first_message_ts := fetchone_ts (Sqlite.limit_offset 1 0 earliest);
     last_message_ts := fetchone_ts (Sqlite.limit_offset 1 0 latest) |}.

(** [stats db r]: [r] is a response [GET /stats] may give on [db].
    Each ORDER BY leaves rows of equal key to the engine. *)
Definition stats (db : Storage.table) (r : response StatsBody) : Prop :=
  exists per_sender earliest latest,
    Sqlite.ordered_by by_count_desc (group_by_sender db) per_sender
    /\ Sqlite.ordered_by by_ts_asc db earliest
    /\ Sqlite.ordered_by by_ts_desc db latest
    /\ r = OK (stats_body db per_sender earliest latest).

(** The answer of SQLite (3.40): the groups arrive in descending order
    of sender, and an ORDER BY with a LIMIT keeps rows of equal key in
    the order of their arrival, so senders of equal count are listed in
    descending order.  The two timestamps do not depend on how rows of
    equal [ts] are ordered. *)
Definition stats_run (db : Storage.table) : response StatsBody :=
  OK (stats_body db
        (Sqlite.sort by_count_desc
           (Sqlite.sort by_sender_desc (group_by_sender db)))
        (Sqlite.sort by_ts_asc db) (Sqlite.sort by_ts_desc db)).

(** *** Health *)

Record HealthBody := { health_status : Py.str }.

(** [live()] *)
Definition live : response HealthBody := OK {| health_status := "alive" |}.

(** [ready()]: [probe] tells whether [get_connection()], [SELECT 1] and
    [close()] all went through.  Every exception in the [try], the
    [RuntimeError] for an empty secret included, ends in the same 503. *)
Definition ready (cfg : Config) (probe : bool) : response HealthBody :=
  if probe then
    if negb (Py.truthy (WEBHOOK_SECRET cfg))
    then HTTPException 503 (Text "not ready")
    else OK {| health_status := "ready" |}
  else HTTPException 503 (Text "not ready").

End Main.

(** ** The write path over all code points *)

Module Wide.

(** A [str] as the list of its code points; [Py.str] is the part of it
    below U+0100. *)
Definition str := list N.

Definition of_str (s : Py.str) : str := map Py.ord (list_ascii_of_string s).

Fixpoint eqb (a b : str) : bool :=
  match a, b with
  | [], [] => true
  | x :: a', y :: b' => (x =? y)%N && eqb a' b'
  | _, _ => false
  end.

Definition truthy (s : str) : bool :=
  match s with
  | [] => false
  | _ :: _ => true
  end.

Definition len (s : str) : Z := Z.of_nat (List.length s).

Fixpoint startswith (s p : str) : bool :=
  match p, s with
  | [], _ => true
  | x :: p', y :: s' => (x =? y)%N && startswith s' p'
  | _ :: _, [] => false
  end.

Definition endswith (s p : str) : bool := startswith (rev s) (rev p).

(** [s[1:]] *)
Definition slice_from_1 (s : str) : str := tl s.

(** [str.isdigit] on a character: below U+0100 as [Py.isdigit_char]
    has it; above, what the Unicode database of the interpreter says,
    which changes from one version of it to the next. *)
Class Unicode := digit_above_latin1 : N -> bool.

Definition isdigit_char `{Unicode} (c : N) : bool :=
  if (c <? 256)%N then Py.isdigit_char (ascii_of_N c)
  else digit_above_latin1 c.

Definition isdigit `{Unicode} (s : str) : bool :=
  truthy s && forallb isdigit_char s.

(** U+D800..U+DFFF.  [json.loads] turns the escape of one, when it is
    not half of a pair, into a [str] that holds it. *)
Definition surrogate (c : N) : bool := ((55296 <=? c) && (c <=? 57343))%N.

(** Whether the [str] can be encoded as UTF-8, as [sqlite3] does with
    a parameter it binds. *)
Definition encodable (s : str) : bool :=
  forallb (fun c => negb (surrogate c)) s.

(** *** [app/storage.py] *)

Module Storage.

Record row := Row {
  message_id : str;
  from_msisdn : str;
  to_msisdn : str;
  ts : str;
  text : option str;
  created_at : str
}.

Definition table := list row.

Record message := Message {
  m_message_id : str;
  m_from : str;
  m_to : str;
  m_ts : str;
  m_text : option str
}.

Definition has_id (id : str) (db : table) : bool :=
  existsb (fun r => eqb (message_id r) id) db.

(** The five values of the message that [cursor.execute] binds; the
    sixth, the clock reading, is ASCII. *)
Definition binds (message : message) : bool :=
  encodable (m_message_id message) && encodable (m_from message)
  && encodable (m_to message) && encodable (m_ts message)
  && match m_text message with
     | Some t => encodable t
     | None => true
     end.

(** [insert_message(message)]: [execute] binds its parameters before
    the statement runs, and raises [UnicodeEncodeError] on one it cannot
    encode; [except sqlite3.IntegrityError] does not catch that, and
    [finally] only closes the connection.  Otherwise the INSERT appends
    the row, or hits the primary key. *)
Definition insert_message (db : table) (utcnow : Py.str) (message : message)
  : Py.exception + bool * table :=
  if negb (binds message) then inl Py.UnicodeEncodeError
  else if has_id (m_message_id message) db then inr (false, db)
  else inr (true,
            (db ++ [Row (m_message_id message) (m_from message) (m_to message)
                        (m_ts message) (m_text message)
                        (of_str (utcnow ++ "Z")%string)])%list).

End Storage.

(** *** [app/main.py]: the model and the webhook *)

Record WebhookMessage := {
  message_id : str;
  from_ : str;
  to : str;
  ts : str;
  text : option str
}.

Definition id_not_empty (v : str) : Py.str + str :=
  if negb (truthy v) then inl "message_id must be non-empty" else inr v.

Definition validate_e164 `{Unicode} (v : str) : Py.str + str :=
  if negb (startswith v (of_str "+")) || negb (isdigit (slice_from_1 v))
  then inl "must be E.164-like (+digits)"
  else inr v.

Definition validate_ts (v : str) : Py.str + str :=
  if negb (endswith v (of_str "Z")) then inl "ts must end with Z" else inr v.

Definition validate_text (v : option str) : Py.str + option str :=
  match v with
  | Some s => if (4096 <? len s)%Z then inl "text too long" else inr v
  | None => inr v
  end.

Record raw_fields := {
  raw_message_id : Main.typed str;
  raw_from : Main.typed str;
  raw_to : Main.typed str;
  raw_ts : Main.typed str;
  raw_text : Main.typed (option str)
}.

Inductive decoded :=
| NotAnObject (msg : Py.str)
| Object (f : raw_fields).

(** The JSON reader and the type check of pydantic, as [Main.Decoder]
    but with every code point JSON can spell. *)
Class Decoder := decode : Py.bytes -> decoded.

(** [WebhookMessage.parse_raw(raw_body)] *)
Definition parse_raw `{Unicode} `{Decoder} (raw_body : Py.bytes)
  : Main.ValidationError + WebhookMessage :=
  match decode raw_body with
  | NotAnObject msg => inl [("__root__", Main.TypeFailure msg)]
  | Object f =>
      let r1 := Main.validated "message_id" id_not_empty (raw_message_id f) in
      let r2 := Main.validated "from" validate_e164 (raw_from f) in
      let r3 := Main.validated "to" validate_e164 (raw_to f) in
      let r4 := Main.validated "ts" validate_ts (raw_ts f) in
      let r5 := Main.validated "text" validate_text (raw_text f) in
      match r1, r2, r3, r4, r5 with
      | inr v1, inr v2, inr v3, inr v4, inr v5 =>
          inr {| message_id := v1; from_ := v2; to := v3; ts := v4; text := v5 |}
      | _, _, _, _, _ =>
          inl (Main.errors_of r1 ++ Main.errors_of r2 ++ Main.errors_of r3
               ++ Main.errors_of r4 ++ Main.errors_of r5)%list
      end
  end.

(** [payload.dict(by_alias=True)] *)
Definition dict (payload : WebhookMessage) : Storage.message :=
  Storage.Message (message_id payload) (from_ payload) (to payload)
                  (ts payload) (text payload).

(** [webhook(request)]: the header and the secret are as in
    [Main.webhook]; what [insert_message] raises is caught by no one. *)
Definition webhook `{Unicode} `{Decoder} (cfg : Main.Config)
           (db : Storage.table) (utcnow : Py.str) (request : Main.Request)
  : Main.response Main.WebhookResult * Storage.table :=
  let raw_body := Main.body request in
  match Main.X_Signature request with
  | None => (Main.invalid_signature, db)
  | Some signature =>
      if negb (Py.truthy signature) then (Main.invalid_signature, db)
      else
        let computed := Main.computed cfg raw_body in
        match Hmac.compare_digest signature computed with
        | inl e => (Main.Uncaught e, db)
        | inr false => (Main.invalid_signature, db)
        | inr true =>
            match parse_raw raw_body with
            | inl e => (Main.HTTPException 422 (Main.Errors e), db)
            | inr payload =>
                match Storage.insert_message db utcnow (dict payload) with
                | inl e => (Main.Uncaught e, db)
                | inr (inserted, db') =>
                    (Main.OK {| Main.status := "ok";
                                Main.result := if inserted then "created"
                                               else "duplicate" |},
                     db')
                end
            end
        end
  end.

End Wide.

(** ** Start-up: [app/config.py] and the head of [app/storage.py] *)

Module Startup.

(** The environment after [load_dotenv()]: [os.getenv]. *)
Definition environ := Py.str -> option Py.str.

Record Settings := {
  WEBHOOK_SECRET : Py.str;
  DATABASE_URL : Py.str;
  LOG_LEVEL : Py.str
}.

(** [app/config.py]: the three variables, or the [RuntimeError] the
    module raises. *)
Definition config (getenv : environ) : Py.str + Settings :=
  let secret := getenv "WEBHOOK_SECRET" in
  let url := getenv "DATABASE_URL" in
  let level := match getenv "LOG_LEVEL" with Some v => v | None => "INFO" end in
  if negb (Py.truthy_opt secret) then inl "WEBHOOK_SECRET is not set"
  else if negb (Py.truthy_opt url) then inl "DATABASE_URL is not set"
  else
    match secret, url with
    | Some s, Some u =>
        inr {| WEBHOOK_SECRET := s; DATABASE_URL := u; LOG_LEVEL := level |}
    | _, _ => inl "WEBHOOK_SECRET is not set"
    end.

(** The head of [app/storage.py]: [db_path], or the [RuntimeError].
    [root] is [dirname(dirname(abspath(__file__)))]. *)
Definition db_path (root url : Py.str) : Py.str + Py.str :=
  if Py.startswith url "sqlite:///"
  then inr (Py.path_join root (Py.replace url "sqlite:///" ""))
  else inl "Only sqlite is supported".

(** What importing [app.main] runs before it reaches [init_db()]:
    [app.config] first, then the head of [app.storage]. *)
Definition startup (root : Py.str) (getenv : environ)
  : Py.str + (Settings * Py.str) :=
  match config getenv with
  | inl e => inl e
  | inr settings =>
      match db_path root (DATABASE_URL settings) with
      | inl e => inl e
      | inr path => inr (settings, path)
      end
  end.

End Startup.

(** ** The vocabulary of the specification *)

Module Spec.

(** Lexicographic order on strings. *)
Definition str_lt (a b : string) : Prop := (a ?= b)%string = Lt.
Definition str_le (a b : string) : Prop := (a ?= b)%string <> Gt.

(** Ascending by the pair (ts, message_id), on the entries of [data]. *)
Definition ts_id_le (m1 m2 : Storage.message) : Prop :=
  str_lt (Storage.m_ts m1) (Storage.m_ts m2)
  \/ (Storage.m_ts m1 = Storage.m_ts m2
      /\ str_le (Storage.m_message_id m1) (Storage.m_message_id m2)).

(** The regular expression [^\+[0-9]+$]: a plus sign, then one or more
    ASCII digits, and nothing else. *)
Definition ascii_digit (c : ascii) : bool :=
  ((48 <=? Py.ord c) && (Py.ord c <=? 57))%N.

Definition plus_digits (s : string) : bool :=
  match s with
  | String c ds =>
      (c =? "+")%char && negb (ds =? "")%string && Py.all_chars ascii_digit ds
  | EmptyString => false
  end.

(** [q] occurs in [t]. *)
Definition substring_of (q t : string) : Prop :=
  exists a b, t = (a ++ q ++ b)%string.

(** The same, decided: [q] starts [t] or occurs further on. *)
Fixpoint occurs (q t : string) : bool :=
  String.prefix q t
  || match t with
     | EmptyString => false
     | String _ t' => occurs q t'
     end.

(** Strings up to the case of the ASCII letters. *)
Fixpoint fold_case (s : string) : string :=
  match s with
  | EmptyString => EmptyString
  | String c s' => String (Sqlite.tolower c) (fold_case s')
  end.

(** [q] occurs in [t] up to the case of ASCII letters. *)
Definition occurs_nocase (q t : string) : Prop :=
  exists a m b, t = (a ++ m ++ b)%string /\ fold_case m = fold_case q.

(** A search string with no character LIKE or C gives a meaning to. *)
Definition literal_char (c : ascii) : bool :=
  negb ((c =? "%")%char || (c =? "_")%char || (Py.ord c =? 0)%N).
Definition literal (q : string) : bool := Py.all_chars literal_char q.

(** A filter counts when it is given and not empty. *)
Definition given (v : option Py.str) (P : Py.str -> Prop) : Prop :=
  forall s, v = Some s -> s <> "" -> P s.

(** The three filters of [GET /messages], on a stored row. *)
Definition satisfies (from_ since q : option Py.str) (r : Storage.row) : Prop :=
  given from_ (fun s => Storage.from_msisdn r = s)
  /\ given since (fun s => str_le s (Storage.ts r))
  /\ given q (fun s => exists t, Storage.text r = Some t
                                 /\ occurs_nocase s (Sqlite.c_string t)).

(** The page a request asks for, with the defaults of the handler. *)
Definition limit_of (limit : option Z) : Z :=
  match limit with Some l => l | None => 50%Z end.
Definition offset_of (offset : option Z) : Z :=
  match offset with Some o => o | None => 0%Z end.

(** [limit] within [1, 100], [offset] not negative and a 64-bit
    integer. *)
Definition page_ok (limit offset : option Z) : Prop :=
  (1 <= limit_of limit <= 100)%Z /\ (0 <= offset_of offset < 2 ^ 63)%Z.

(** The body of the answer to a request that is let through. *)
Definition page (db : Storage.table) (limit offset : option Z)
           (from_ since q : option Py.str) : Main.MessagesBody :=
  let matching := filter (Main.where_ (Main.conditions_of from_ since q)) db in
  {| Main.data :=
       map Main.row_dict
           (Sqlite.limit_offset (limit_of limit) (offset_of offset)
              (Sqlite.sort Main.by_ts_message_id matching));
     Main.total := Z.of_nat (List.length matching);
     Main.limit := limit_of limit;
     Main.offset := offset_of offset |}.

(** The rows of a store that carry a given id. *)
Definition rows_with_id (id : Py.str) (db : Storage.table) : list Storage.row :=
  filter (fun r => (Storage.message_id r =? id)%string) db.

(** The primary key of the table: no two rows share a [message_id]. *)
Definition unique_ids (db : Storage.table) : Prop :=
  NoDup (map Storage.message_id db).

(** The number of stored messages of a sender. *)
Definition messages_of (sender : Py.str) (db : Storage.table) : nat :=
  count_occ string_dec (map Storage.from_msisdn db) sender.

(** A string of [n] copies of a character. *)
Fixpoint copies (n : nat) (c : ascii) : string :=
  match n with
  | O => EmptyString
  | S n' => String c (copies n' c)
  end.

(** [s] ends with [suffix]. *)
Definition ends_with (s suffix : string) : Prop :=
  exists p, s = (p ++ suffix)%string.

(** A plus sign, then one or more characters that [str.isdigit] takes
    for digits. *)
Definition plus_isdigit (v : string) : Prop :=
  exists ds, v = String "+" ds /\ ds <> ""
             /\ Py.all_chars Py.isdigit_char ds = true.

(** No text, or one of at most 4096 characters. *)
Definition text_fits (t : option Py.str) : Prop :=
  match t with
  | Some s => (String.length s <= 4096)%nat
  | None => True
  end.

(** What the validators let into the store, and the clock stamp. *)
Definition well_formed (r : Storage.row) : Prop :=
  Storage.message_id r <> ""
  /\ plus_isdigit (Storage.from_msisdn r)
  /\ plus_isdigit (Storage.to_msisdn r)
  /\ ends_with (Storage.ts r) "Z"
  /\ text_fits (Storage.text r)
  /\ ends_with (Storage.created_at r) "Z".

(** The row a payload becomes when it is stored at [utcnow]. *)
Definition row_of (P : Main.WebhookMessage) (utcnow : Py.str) : Storage.row :=
  Storage.Row (Main.message_id P) (Main.from_ P) (Main.to P) (Main.ts P)
              (Main.text P) (utcnow ++ "Z")%string.

(** The store after a sequence of requests, each with the reading of
    the clock at its arrival. *)
Fixpoint deliveries {D : Main.Decoder} (cfg : Main.Config) (db : Storage.table)
         (requests : list (Py.str * Main.Request)) : Storage.table :=
  match requests with
  | [] => db
  | (utcnow, request) :: rest =>
      deliveries cfg (snd (Main.webhook cfg db utcnow request)) rest
  end.

(** A field of the body fails: pydantic could not type it, or the
    validator of the class raised. *)
Definition field_fails {A : Type} (validator : A -> Py.str + A)
           (x : Main.typed A) : Prop :=
  match x with
  | Main.Untyped _ => True
  | Main.Typed v => exists msg, validator v = inl msg
  end.

(** No NUL in the string. *)
Definition nul_free (s : string) : bool :=
  Py.all_chars (fun c => negb (Py.ord c =? 0)%N) s.

(** The text of the row, read up to its first NUL, holds [q]. *)
Definition text_contains (q : Py.str) (r : Storage.row) : bool :=
  match Storage.text r with
  | Some t => occurs q (Sqlite.c_string t)
  | None => false
  end.

(** The counts of a list of [messages_per_sender] entries, added up. *)
Fixpoint sum_counts (l : list (Py.str * Z)) : Z :=
  match l with
  | [] => 0%Z
  | (_, c) :: l' => (c + sum_counts l')%Z
  end.

(** What a LIKE pattern matches: a percent sign any run of characters,
    an underscore any one character, any other character itself, up to
    the case of ASCII letters. *)
Inductive like_matches : string -> string -> Prop :=
| like_end : like_matches "" ""
| like_any_run (p a s : string) :
    like_matches p s -> like_matches (String "%" p) (a ++ s)
| like_any_one (p : string) (c : ascii) (s : string) :
    like_matches p s -> like_matches (String "_" p) (String c s)
| like_same (p : string) (c d : ascii) (s : string) :
    c <> "%"%char -> c <> "_"%char ->
    fold_case (String c "") = fold_case (String d "") ->
    like_matches p s -> like_matches (String c p) (String d s).

(** The three filters of [GET /messages] on a stored row, for any [q]:
    the text is not null and matches the pattern percent, [q], percent,
    both read up to their first NUL. *)
Definition selects (from_ since q : option Py.str) (r : Storage.row) : Prop :=
  given from_ (fun s => Storage.from_msisdn r = s)
  /\ given since (fun s => str_le s (Storage.ts r))
  /\ given q (fun s => exists t,
                  Storage.text r = Some t
                  /\ like_matches (Sqlite.c_string ("%" ++ s ++ "%"))
                                  (Sqlite.c_string t)).

(** A page parameter FastAPI refuses. *)
Definition limit_out (p : Main.int_param) : bool :=
  match p with
  | Main.Missing => false
  | Main.Integer n => ((n <? 1) || (100 <? n))%Z
  | Main.NotInteger => true
  end.

Definition offset_out (p : Main.int_param) : bool :=
  match p with
  | Main.Missing => false
  | Main.Integer n => (n <? 0)%Z
  | Main.NotInteger => true
  end.

(** Descending by count, senders of equal count in descending order. *)
Definition count_then_sender_desc (a b : Py.str * Z) : Prop :=
  (snd b < snd a)%Z \/ (snd a = snd b /\ str_lt (fst b) (fst a)).

(** No lone surrogate in the string. *)
Definition no_surrogate (s : Wide.str) : Prop :=
  forall c, In c s -> (c < 55296 \/ 57343 < c)%N.

(** A payload all of whose strings can be encoded as UTF-8. *)
Definition utf8_payload (P : Wide.WebhookMessage) : Prop :=
  no_surrogate (Wide.message_id P) /\ no_surrogate (Wide.from_ P)
  /\ no_surrogate (Wide.to P) /\ no_surrogate (Wide.ts P)
  /\ match Wide.text P with
     | Some t => no_surrogate t
     | None => True
     end.

Definition utf8_message (m : Wide.Storage.message) : Prop :=
  no_surrogate (Wide.Storage.m_message_id m)
  /\ no_surrogate (Wide.Storage.m_from m)
  /\ no_surrogate (Wide.Storage.m_to m)
  /\ no_surrogate (Wide.Storage.m_ts m)
  /\ match Wide.Storage.m_text m with
     | Some t => no_surrogate t
     | None => True
     end.

(** The ids of a store, and its rows under one id. *)
Definition wide_ids (db : Wide.Storage.table) : list Wide.str :=
  map Wide.Storage.message_id db.

Definition wide_rows_with_id (id : Wide.str) (db : Wide.Storage.table)
  : list Wide.Storage.row :=
  filter (fun r => if list_eq_dec N.eq_dec (Wide.Storage.message_id r) id
                   then true else false) db.

(** The row a payload becomes when it is stored at [utcnow]. *)
Definition wide_row_of (P : Wide.WebhookMessage) (utcnow : Py.str)
  : Wide.Storage.row :=
  Wide.Storage.Row (Wide.message_id P) (Wide.from_ P) (Wide.to P) (Wide.ts P)
                   (Wide.text P) (Wide.of_str (utcnow ++ "Z")).

(** The strings below U+0100 among all strings. *)
Definition widen_row (r : Storage.row) : Wide.Storage.row :=
  Wide.Storage.Row (Wide.of_str (Storage.message_id r))
                   (Wide.of_str (Storage.from_msisdn r))
                   (Wide.of_str (Storage.to_msisdn r))
                   (Wide.of_str (Storage.ts r))
                   (option_map Wide.of_str (Storage.text r))
                   (Wide.of_str (Storage.created_at r)).

Definition widen_message (m : Storage.message) : Wide.Storage.message :=
  Wide.Storage.Message (Wide.of_str (Storage.m_message_id m))
                       (Wide.of_str (Storage.m_from m))
                       (Wide.of_str (Storage.m_to m))
                       (Wide.of_str (Storage.m_ts m))
                       (option_map Wide.of_str (Storage.m_text m)).

Definition widen_payload (P : Main.WebhookMessage) : Wide.WebhookMessage :=
  {| Wide.message_id := Wide.of_str (Main.message_id P);
     Wide.from_ := Wide.of_str (Main.from_ P);
     Wide.to := Wide.of_str (Main.to P);
     Wide.ts := Wide.of_str (Main.ts P);
     Wide.text := option_map Wide.of_str (Main.text P) |}.

Definition widen_typed {A B : Type} (f : A -> B) (x : Main.typed A)
  : Main.typed B :=
  match x with
  | Main.Typed v => Main.Typed (f v)
  | Main.Untyped msg => Main.Untyped msg
  end.

Definition widen_fields (f : Main.raw_fields) : Wide.raw_fields :=
  {| Wide.raw_message_id := widen_typed Wide.of_str (Main.raw_message_id f);
     Wide.raw_from := widen_typed Wide.of_str (Main.raw_from f);
     Wide.raw_to := widen_typed Wide.of_str (Main.raw_to f);
     Wide.raw_ts := widen_typed Wide.of_str (Main.raw_ts f);
     Wide.raw_text :=
       widen_typed (option_map Wide.of_str) (Main.raw_text f) |}.

(** A decoder that stays below U+0100, as one over all code points. *)
Definition widen_decoder (D : Main.Decoder) : Wide.Decoder :=
  fun body =>
    match @Main.decode D body with
    | Main.NotAnObject msg => Wide.NotAnObject msg
    | Main.Object f => Wide.Object (widen_fields f)
    end.

End Spec.

(** ** The scenarios of the specification, as concrete requests *)

Module Scenario.

Definition quote : ascii := "034"%char.

(** A body, written with an apostrophe where JSON has the double
    quote. *)
Fixpoint json (s : string) : string :=
  match s with
  | EmptyString => EmptyString
  | String c s' => String (if (c =? "'")%char then quote else c) (json s')
  end.

Definition is_ws (c : ascii) : bool :=
  let n := Py.ord c in ((n =? 32) || (n =? 9) || (n =? 10) || (n =? 13))%N.

Fixpoint skip_ws (s : string) : string :=
  match s with
  | EmptyString => EmptyString
  | String c s' => if is_ws c then skip_ws s' else s
  end.

Definition hex_value (c : ascii) : option N :=
  let n := Py.ord c in
  if ((48 <=? n) && (n <=? 57))%N then Some (n - 48)%N
  else if ((97 <=? n) && (n <=? 102))%N then Some (n - 87)%N
  else if ((65 <=? n) && (n <=? 70))%N then Some (n - 55)%N
  else None.

Definition hex4 (a b c d : ascii) : option N :=
  match hex_value a, hex_value b, hex_value c, hex_value d with
  | Some x, Some y, Some z, Some w => Some (((x * 16 + y) * 16 + z) * 16 + w)%N
  | _, _, _, _ => None
  end.

Definition unescape (c : ascii) : option ascii :=
  if (c =? quote)%char then Some quote
  else if (c =? "\")%char then Some "\"%char
  else if (c =? "/")%char then Some "/"%char
  else if (c =? "b")%char then Some "008"%char
  else if (c =? "f")%char then Some "012"%char
  else if (c =? "n")%char then Some "010"%char
  else if (c =? "r")%char then Some "013"%char
  else if (c =? "t")%char then Some "009"%char
  else None.

Definition push (c : ascii) (r : option (string * string))
  : option (string * string) :=
  match r with
  | Some (s, rest) => Some (String c s, rest)
  | None => None
  end.

(** The characters of a JSON string, read from just after its opening
    quote, and the input left after its closing quote.  The text is
    UTF-8; a character beyond U+00FF is outside the alphabet. *)
Fixpoint read_string (s : string) : option (string * string) :=
  match s with
  | EmptyString => None
  | String c s1 =>
      let n := Py.ord c in
      if (c =? quote)%char then Some (EmptyString, s1)
      else if (c =? "\")%char then
        match s1 with
        | EmptyString => None
        | String e s2 =>
            if (e =? "u")%char then
              match s2 with
              | String h1 (String h2 (String h3 (String h4 s3))) =>
                  match hex4 h1 h2 h3 h4 with
                  | Some u => if (u <? 256)%N
                              then push (ascii_of_N u) (read_string s3)
                              else None
                  | None => None
                  end
              | _ => None
              end
            else
              match unescape e with
              | Some ch => push ch (read_string s2)
              | None => None
              end
        end
      else if (n <? 32)%N then None
      else if (n <? 128)%N then push c (read_string s1)
      else if ((n =? 194) || (n =? 195))%N then
        match s1 with
        | String d s2 =>
            let m := Py.ord d in
            if ((128 <=? m) && (m <? 192))%N
            then push (ascii_of_N ((n - 192) * 64 + (m - 128))) (read_string s2)
            else None
        | EmptyString => None
        end
      else None
  end.

(** A member value: a string or [null]. *)
Definition read_value (s : string) : option (option string * string) :=
  match s with
  | String c s1 =>
      if (c =? quote)%char then
        match read_string s1 with
        | Some (v, rest) => Some (Some v, rest)
        | None => None
        end
      else if String.prefix "null" s
      then Some (None, String.substring 4 (String.length s - 4) s)
      else None
  | EmptyString => None
  end.

Definition members := list (string * option string).

(** The members after the opening brace, newest first. *)
Fixpoint read_members (fuel : nat) (s : string) (acc : members)
  : option members :=
  match fuel with
  | O => None
  | S fuel' =>
      match skip_ws s with
      | String c s1 =>
          if (c =? quote)%char then
            match read_string s1 with
            | Some (key, s2) =>
                match skip_ws s2 with
                | String c2 s3 =>
                    if (c2 =? ":")%char then
                      match read_value (skip_ws s3) with
                      | Some (v, s4) =>
                          match skip_ws s4 with
                          | String c4 s5 =>
                              if (c4 =? ",")%char
                              then read_members fuel' s5 ((key, v) :: acc)
                              else if (c4 =? "}")%char
                                   && (skip_ws s5 =? "")%string
                              then Some ((key, v) :: acc)
                              else None
                          | EmptyString => None
                          end
                      | None => None
                      end
                    else None
                | EmptyString => None
                end
            | None => None
            end
          else None
      | EmptyString => None
      end
  end.

Definition read_object (body : Py.bytes) : option members :=
  match skip_ws body with
  | String c s1 =>
      if (c =? "{")%char then
        match skip_ws s1 with
        | String c2 s2 =>
            if (c2 =? "}")%char then
              if (skip_ws s2 =? "")%string then Some [] else None
            else read_members (String.length body) s1 []
        | EmptyString => None
        end
      else None
  | EmptyString => None
  end.

(** A key given twice keeps its last value. *)
Fixpoint lookup (key : string) (o : members) : option (option string) :=
  match o with
  | [] => None
  | (k, v) :: o' => if (k =? key)%string then Some v else lookup key o'
  end.

Definition required (o : members) (key : string) : Main.typed Py.str :=
  match lookup key o with
  | None => Main.Untyped "field required"
  | Some None => Main.Untyped "none is not an allowed value"
  | Some (Some s) => Main.Typed s
  end.

Definition optional (o : members) (key : string) : Main.typed (option Py.str) :=
  match lookup key o with
  | Some (Some s) => Main.Typed (Some s)
  | _ => Main.Typed None
  end.

(** A decoder for bodies that are one JSON object with string or null
    members, which is all the scenarios send; any other body is
    answered as not being an object. *)
Definition flat_json : Main.Decoder :=
  fun body =>
    match read_object body with
    | None => Main.NotAnObject "value is not a valid dict"
    | Some o =>
        Main.Object
          {| Main.raw_message_id := required o "message_id";
             Main.raw_from := required o "from";
             Main.raw_to := required o "to";
             Main.raw_ts := required o "ts";
             Main.raw_text := optional o "text" |}
    end.

Definition cfg : Main.Config := {| Main.WEBHOOK_SECRET := "s3cr3t" |}.

(** The body of the first scenario; the secret is "s3cr3t". *)
Definition body_m1 : Py.bytes :=
  json "{'message_id':'m1','from':'+15551230000','to':'+15557654321','ts':'2024-01-01T00:00:00Z','text':'hi'}".

Definition post (body : Py.bytes) (signature : option Py.str) : Main.Request :=
  {| Main.body := body; Main.X_Signature := signature |}.

Definition signed (body : Py.bytes) : Main.Request :=
  post body (Some (Main.computed cfg body)).

Definition payload_m1 : Main.WebhookMessage :=
  {| Main.message_id := "m1"; Main.from_ := "+15551230000";
     Main.to := "+15557654321"; Main.ts := "2024-01-01T00:00:00Z";
     Main.text := Some "hi" |}.

(** Two readings of the clock, as [isoformat()] prints them. *)
Definition t1 : Py.str := "2024-01-02T03:04:05.000006".
Definition t2 : Py.str := "2024-01-02T03:04:07.000008".

Definition row_m1 : Storage.row :=
  Storage.Row "m1" "+15551230000" "+15557654321" "2024-01-01T00:00:00Z"
              (Some "hi") "2024-01-02T03:04:05.000006Z".

(** A store filled out of order: [m1] and [m2] share a timestamp,
    [m2] has no text, and the text of [m4] holds a NUL. *)
Definition row_m2 : Storage.row :=
  Storage.Row "m2" "+15550000000" "+15557654321" "2024-01-01T00:00:00Z"
              None "2024-01-02T03:04:06.000007Z".
Definition row_m3 : Storage.row :=
  Storage.Row "m3" "+15551230000" "+15557654321" "2024-01-03T00:00:00Z"
              (Some "Hello world") "2024-01-02T03:04:03.000004Z".
Definition row_m4 : Storage.row :=
  Storage.Row "m4" "+15551230000" "+15557654321" "2024-01-04T00:00:00Z"
              (Some (String "a" (String zero "b")))
              "2024-01-02T03:04:04.000005Z".

Definition inbox : Storage.table := [row_m3; row_m4; row_m1; row_m2].

Definition answer (rows : list Storage.row) (total limit offset : Z)
  : Main.response Main.MessagesBody :=
  Main.OK {| Main.data := map Main.row_dict rows; Main.total := total;
             Main.limit := limit; Main.offset := offset |}.

(** Three senders with one message each, stored in the order
    "+2", "+1", "+3". *)
Definition from_sender (id sender : Py.str) : Storage.row :=
  Storage.Row id sender "+15557654321" "2024-01-01T00:00:00Z" (Some "hi")
              "2024-01-02T03:04:05.000006Z".

Definition three_senders : Storage.table :=
  [from_sender "a" "+2"; from_sender "b" "+1"; from_sender "c" "+3"].

Definition stats_answer (per_sender : list (Py.str * Z))
  : Main.response Main.StatsBody :=
  Main.OK {| Main.total_messages := 3; Main.senders_count := 3;
             Main.messages_per_sender := per_sender;
             Main.first_message_ts := Some "2024-01-01T00:00:00Z";
             Main.last_message_ts := Some "2024-01-01T00:00:00Z" |}.

(** A text of 4097 characters. *)
Definition long_text : Py.str := Spec.copies 4097 "a".

Definition body_long : Py.bytes :=
  (json "{'message_id':'m2','from':'+15551230000','to':'+15557654321','ts':'2024-01-01T00:00:00Z','text':'"
   ++ long_text ++ json "'}")%string.

Definition fields_long : Main.raw_fields :=
  {| Main.raw_message_id := Main.Typed "m2";
     Main.raw_from := Main.Typed "+15551230000";
     Main.raw_to := Main.Typed "+15557654321";
     Main.raw_ts := Main.Typed "2024-01-01T00:00:00Z";
     Main.raw_text := Main.Typed (Some long_text) |}.

(** U+00E9 and U+00B2, as characters of a [str]. *)
Definition e_acute : ascii := "233"%char.
Definition superscript_two : ascii := "178"%char.

(** A sender that ends in a superscript two, sent as a JSON escape. *)
Definition body_superscript : Py.bytes :=
  json "{'message_id':'m3','from':'+1555123000\u00b2','to':'+15557654321','ts':'2024-01-01T00:00:00Z','text':'hi'}".

Definition from_superscript : Py.str :=
  ("+1555123000" ++ String superscript_two "")%string.

(** A second message with the id of [m1] and nothing else in common. *)
Definition body_m1_other : Py.bytes :=
  json "{'message_id':'m1','from':'+19990000000','to':'+18880000000','ts':'2025-05-05T05:05:05Z','text':'changed'}".

Definition payload_m1_other : Main.WebhookMessage :=
  {| Main.message_id := "m1"; Main.from_ := "+19990000000";
     Main.to := "+18880000000"; Main.ts := "2025-05-05T05:05:05Z";
     Main.text := Some "changed" |}.

(** A sender written with a space, which is ASCII and no number. *)
Definition body_spaced : Py.bytes :=
  json "{'message_id':'m5','from':'+1555 1230000','to':'+15557654321','ts':'2024-01-01T00:00:00Z','text':'hi'}".

Definition fields_spaced : Main.raw_fields :=
  {| Main.raw_message_id := Main.Typed "m5";
     Main.raw_from := Main.Typed "+1555 1230000";
     Main.raw_to := Main.Typed "+15557654321";
     Main.raw_ts := Main.Typed "2024-01-01T00:00:00Z";
     Main.raw_text := Main.Typed (Some "hi") |}.

(** A body with three things wrong: no id, a sender without its plus
    sign, a timestamp without its Z. *)
Definition body_three_wrong : Py.bytes :=
  json "{'from':'15551230000','to':'+15557654321','ts':'2024-01-01T00:00:00','text':'hi'}".

Definition fields_three_wrong : Main.raw_fields :=
  {| Main.raw_message_id := Main.Untyped "field required";
     Main.raw_from := Main.Typed "15551230000";
     Main.raw_to := Main.Typed "+15557654321";
     Main.raw_ts := Main.Typed "2024-01-01T00:00:00";
     Main.raw_text := Main.Typed (Some "hi") |}.

(** An environment as a deployment sets it, and the project root. *)
Definition getenv : Startup.environ :=
  fun name =>
    if (name =? "WEBHOOK_SECRET")%string then Some "s3cr3t"
    else if (name =? "DATABASE_URL")%string then Some "sqlite:///data/app.db"
    else None.

Definition root : Py.str := "/srv/lyftr".

(** Eleven senders: "+15" and "+20" with two messages each, the others
    with one. *)
Definition eleven_senders : Storage.table :=
  [from_sender "a" "+10"; from_sender "b" "+11"; from_sender "c" "+12";
   from_sender "d" "+13"; from_sender "e" "+14"; from_sender "f" "+15";
   from_sender "g" "+16"; from_sender "h" "+17"; from_sender "i" "+18";
   from_sender "j" "+19"; from_sender "k" "+20"; from_sender "l" "+20";
   from_sender "m" "+15"].

(** *** Bodies with characters beyond U+00FF *)

(** The characters above U+00FF that [str.isdigit] accepts in
    CPython 3.11 (Unicode 14.0), as ranges. *)
Definition digit_ranges : list (N * N) :=
  [(1632, 1641); (1776, 1785); (1984, 1993); (2406, 2415); (2534, 2543);
   (2662, 2671); (2790, 2799); (2918, 2927); (3046, 3055); (3174, 3183);
   (3302, 3311); (3430, 3439); (3558, 3567); (3664, 3673); (3792, 3801);
   (3872, 3881); (4160, 4169); (4240, 4249); (4969, 4977); (6112, 6121);
   (6160, 6169); (6470, 6479); (6608, 6618); (6784, 6793); (6800, 6809);
   (6992, 7001); (7088, 7097); (7232, 7241); (7248, 7257); (8304, 8304);
   (8308, 8313); (8320, 8329); (9312, 9320); (9332, 9340); (9352, 9360);
   (9450, 9450); (9461, 9469); (9471, 9471); (10102, 10110);
   (10112, 10120); (10122, 10130); (42528, 42537); (43216, 43225);
   (43264, 43273); (43472, 43481); (43504, 43513); (43600, 43609);
   (44016, 44025); (65296, 65305); (66720, 66729); (68160, 68163);
   (68912, 68921); (69216, 69224); (69714, 69722); (69734, 69743);
   (69872, 69881); (69942, 69951); (70096, 70105); (70384, 70393);
   (70736, 70745); (70864, 70873); (71248, 71257); (71360, 71369);
   (71472, 71481); (71904, 71913); (72016, 72025); (72784, 72793);
   (73040, 73049); (73120, 73129); (92768, 92777); (92864, 92873);
   (93008, 93017); (120782, 120831); (123200, 123209); (123632, 123641);
   (125264, 125273); (127232, 127242); (130032, 130041)]%N.

Definition unicode_14 : Wide.Unicode :=
  fun c => existsb (fun range => (fst range <=? c) && (c <=? snd range))%N
                   digit_ranges.

Definition continuation (c : ascii) : option N :=
  let n := Py.ord c in
  if ((128 <=? n) && (n <? 192))%N then Some (n - 128)%N else None.

Definition wpush (c : N) (r : option (Wide.str * string))
  : option (Wide.str * string) :=
  match r with
  | Some (s, rest) => Some (c :: s, rest)
  | None => None
  end.

Definition high_surrogate (u : N) : bool := ((55296 <=? u) && (u <=? 56319))%N.
Definition low_surrogate (u : N) : bool := ((56320 <=? u) && (u <=? 57343))%N.

(** The code points of a JSON string as [json.loads] reads them, from
    just after the opening quote: UTF-8 sequences of one to four octets
    and escapes; the escapes of a high and a low surrogate in a row make
    one code point, any other escaped surrogate stays as it is. *)
Fixpoint wide_string (s : string) : option (Wide.str * string) :=
  match s with
  | EmptyString => None
  | String c s1 =>
      let n := Py.ord c in
      if (c =? quote)%char then Some ([], s1)
      else if (c =? "\")%char then
        match s1 with
        | EmptyString => None
        | String e s2 =>
            if (e =? "u")%char then
              match s2 with
              | String h1 (String h2 (String h3 (String h4 s3))) =>
                  match hex4 h1 h2 h3 h4 with
                  | Some u =>
                      match s3 with
                      | String b (String v (String l1 (String l2
                          (String l3 (String l4 s4))))) =>
                          match hex4 l1 l2 l3 l4 with
                          | Some w =>
                              if high_surrogate u && (b =? "\")%char
                                 && (v =? "u")%char && low_surrogate w
                              then wpush (65536 + (u - 55296) * 1024
                                          + (w - 56320))%N
                                         (wide_string s4)
                              else wpush u (wide_string s3)
                          | None => wpush u (wide_string s3)
                          end
                      | _ => wpush u (wide_string s3)
                      end
                  | None => None
                  end
              | _ => None
              end
            else
              match unescape e with
              | Some ch => wpush (Py.ord ch) (wide_string s2)
              | None => None
              end
        end
      else if (n <? 32)%N then None
      else if (n <? 128)%N then wpush n (wide_string s1)
      else if ((194 <=? n) && (n <? 224))%N then
        match s1 with
        | String d1 s2 =>
            match continuation d1 with
            | Some m1 => wpush ((n - 192) * 64 + m1)%N (wide_string s2)
            | None => None
            end
        | _ => None
        end
      else if ((224 <=? n) && (n <? 240))%N then
        match s1 with
        | String d1 (String d2 s3) =>
            match continuation d1, continuation d2 with
            | Some m1, Some m2 =>
                let u := ((n - 224) * 4096 + m1 * 64 + m2)%N in
                if (2048 <=? u)%N && negb (Wide.surrogate u)
                then wpush u (wide_string s3)
                else None
            | _, _ => None
            end
        | _ => None
        end
      else if ((240 <=? n) && (n <? 245))%N then
        match s1 with
        | String d1 (String d2 (String d3 s4)) =>
            match continuation d1, continuation d2, continuation d3 with
            | Some m1, Some m2, Some m3 =>
                let u := ((n - 240) * 262144 + m1 * 4096 + m2 * 64 + m3)%N in
                if ((65536 <=? u) && (u <=? 1114111))%N
                then wpush u (wide_string s4)
                else None
            | _, _, _ => None
            end
        | _ => None
        end
      else None
  end.

Definition wide_value (s : string) : option (option Wide.str * string) :=
  match s with
  | String c s1 =>
      if (c =? quote)%char then
        match wide_string s1 with
        | Some (v, rest) => Some (Some v, rest)
        | None => None
        end
      else if String.prefix "null" s
      then Some (None, String.substring 4 (String.length s - 4) s)
      else None
  | EmptyString => None
  end.

Definition wide_members := list (Wide.str * option Wide.str).

Fixpoint read_wide_members (fuel : nat) (s : string) (acc : wide_members)
  : option wide_members :=
  match fuel with
  | O => None
  | S fuel' =>
      match skip_ws s with
      | String c s1 =>
          if (c =? quote)%char then
            match wide_string s1 with
            | Some (key, s2) =>
                match skip_ws s2 with
                | String c2 s3 =>
                    if (c2 =? ":")%char then
                      match wide_value (skip_ws s3) with
                      | Some (v, s4) =>
                          match skip_ws s4 with
                          | String c4 s5 =>
                              if (c4 =? ",")%char
                              then read_wide_members fuel' s5 ((key, v) :: acc)
                              else if (c4 =? "}")%char
                                   && (skip_ws s5 =? "")%string
                              then Some ((key, v) :: acc)
                              else None
                          | EmptyString => None
                          end
                      | None => None
                      end
                    else None
                | EmptyString => None
                end
            | None => None
            end
          else None
      | EmptyString => None
      end
  end.

Definition read_wide_object (body : Py.bytes) : option wide_members :=
  match skip_ws body with
  | String c s1 =>
      if (c =? "{")%char then
        match skip_ws s1 with
        | String c2 s2 =>
            if (c2 =? "}")%char then
              if (skip_ws s2 =? "")%string then Some [] else None
            else read_wide_members (String.length body) s1 []
        | EmptyString => None
        end
      else None
  | EmptyString => None
  end.

Fixpoint wide_lookup (key : Py.str) (o : wide_members)
  : option (option Wide.str) :=
  match o with
  | [] => None
  | (k, v) :: o' =>
      if Wide.eqb k (Wide.of_str key) then Some v else wide_lookup key o'
  end.

Definition wide_required (o : wide_members) (key : Py.str)
  : Main.typed Wide.str :=
  match wide_lookup key o with
  | None => Main.Untyped "field required"
  | Some None => Main.Untyped "none is not an allowed value"
  | Some (Some s) => Main.Typed s
  end.

Definition wide_optional (o : wide_members) (key : Py.str)
  : Main.typed (option Wide.str) :=
  match wide_lookup key o with
  | Some (Some s) => Main.Typed (Some s)
  | _ => Main.Typed None
  end.

(** [flat_json] with every code point: what [json.loads] and the [str]
    type of pydantic 1 make of a flat object. *)
Definition wide_json : Wide.Decoder :=
  fun body =>
    match read_wide_object body with
    | None => Wide.NotAnObject "value is not a valid dict"
    | Some o =>
        Wide.Object
          {| Wide.raw_message_id := wide_required o "message_id";
             Wide.raw_from := wide_required o "from";
             Wide.raw_to := wide_required o "to";
             Wide.raw_ts := wide_required o "ts";
             Wide.raw_text := wide_optional o "text" |}
    end.

(** A message whose id is the escape of a lone surrogate, U+D800. *)
Definition body_surrogate : Py.bytes :=
  json "{'message_id':'\ud800','from':'+15551230000','to':'+15557654321','ts':'2024-01-01T00:00:00Z','text':'hi'}".

Definition payload_surrogate : Wide.WebhookMessage :=
  {| Wide.message_id := [55296%N];
     Wide.from_ := Wide.of_str "+15551230000";
     Wide.to := Wide.of_str "+15557654321";
     Wide.ts := Wide.of_str "2024-01-01T00:00:00Z";
     Wide.text := Some (Wide.of_str "hi") |}.

(** The id of [m1] again, with a lone surrogate in the text. *)
Definition body_m1_surrogate : Py.bytes :=
  json "{'message_id':'m1','from':'+15551230000','to':'+15557654321','ts':'2024-01-01T00:00:00Z','text':'\udfff'}".

Definition payload_m1_surrogate : Wide.WebhookMessage :=
  {| Wide.message_id := Wide.of_str "m1";
     Wide.from_ := Wide.of_str "+15551230000";
     Wide.to := Wide.of_str "+15557654321";
     Wide.ts := Wide.of_str "2024-01-01T00:00:00Z";
     Wide.text := Some [57343%N] |}.

(** A text of one Chinese character sent as UTF-8 and one emoji sent as
    a pair of escapes; the sender is written in Arabic-Indic digits. *)
Definition body_wide : Py.bytes :=
  (json "{'message_id':'m7','from':'+"
   ++ String "217" (String "161" (String "217" (String "162" "")))
   ++ json "','to':'+15557654321','ts':'2024-01-01T00:00:00Z','text':'"
   ++ String "228" (String "189" (String "160" ""))
   ++ json "\ud83d\ude00'}")%string.

Definition payload_wide : Wide.WebhookMessage :=
  {| Wide.message_id := Wide.of_str "m7";
     Wide.from_ := [43; 1633; 1634]%N;
     Wide.to := Wide.of_str "+15557654321";
     Wide.ts := Wide.of_str "2024-01-01T00:00:00Z";
     Wide.text := Some [20320; 128512]%N |}.

End Scenario.

(** * Properties *)

(** ** The order on TEXT values *)

Section TextOrder.

Lemma compare_refl (s : string) : (s ?= s)%string = Eq.
Proof.
  induction s as [|c s IH]; simpl; [reflexivity|].
  unfold Ascii.compare. now rewrite N.compare_refl.
Qed.

(** Lexicographic comparison is transitive on each of its outcomes. *)
Lemma compare_trans (o : comparison) (a b c : string) :
  (a ?= b)%string = o -> (b ?= c)%string = o -> (a ?= c)%string = o.
Proof.
  revert b c. induction a as [|x a IH]; intros [|y b] [|z c]; simpl;
    try congruence.
  unfold Ascii.compare.
  destruct (N.compare_spec (N_of_ascii x) (N_of_ascii y)) as [E1|L1|G1];
    destruct (N.compare_spec (N_of_ascii y) (N_of_ascii z)) as [E2|L2|G2];
    intros H1 H2; subst o; try congruence.
  - rewrite E1, E2, N.compare_refl. eauto.
  - rewrite E1. now apply N.compare_lt_iff in L2 as ->.
  - rewrite E1. apply N.compare_gt_iff in G2. now rewrite G2.
  - rewrite <- E2. now apply N.compare_lt_iff in L1 as ->.
  - assert (L : (N_of_ascii x < N_of_ascii z)%N) by lia.
    now apply N.compare_lt_iff in L as ->.
  - rewrite <- E2. apply N.compare_gt_iff in G1. now rewrite G1.
  - assert (G : (N_of_ascii z < N_of_ascii x)%N) by lia.
    apply N.compare_gt_iff in G. now rewrite G.
Qed.

Lemma text_le_refl (a : string) : Sqlite.text_le a a = true.
Proof. unfold Sqlite.text_le, String.leb. now rewrite compare_refl. Qed.

Lemma text_le_total (a b : string) :
  Sqlite.text_le a b = false -> Sqlite.text_le b a = true.
Proof.
  unfold Sqlite.text_le. intros H.
  destruct (String.leb_total a b) as [E|E]; congruence.
Qed.

Lemma text_le_trans (a b c : string) :
  Sqlite.text_le a b = true -> Sqlite.text_le b c = true ->
  Sqlite.text_le a c = true.
Proof.
  unfold Sqlite.text_le, String.leb.
  destruct (a ?= b)%string eqn:E1; try discriminate;
    destruct (b ?= c)%string eqn:E2; try discriminate; intros _ _.
  - apply String.compare_eq_iff in E1; subst. now rewrite E2.
  - apply String.compare_eq_iff in E1; subst. now rewrite E2.
  - apply String.compare_eq_iff in E2; subst. now rewrite E1.
  - now rewrite (compare_trans Lt a b c).
Qed.

Lemma text_le_antisym (a b : string) :
  Sqlite.text_le a b = true -> Sqlite.text_le b a = true -> a = b.
Proof. apply String.leb_antisym. Qed.

End TextOrder.

(** ** ORDER BY *)

Section OrderByFacts.

Context {A : Type} (leb : A -> A -> bool).

Lemma insert_perm (x : A) (l : list A) :
  Permutation (x :: l) (Sqlite.insert leb x l).
Proof.
  induction l as [|y l IH]; simpl; [reflexivity|].
  destruct (leb x y); [reflexivity|].
  rewrite perm_swap. now constructor.
Qed.

Lemma sort_perm (l : list A) : Permutation l (Sqlite.sort leb l).
Proof.
  induction l as [|x l IH]; simpl; [constructor|].
  rewrite <- insert_perm. now constructor.
Qed.

Hypothesis leb_total : forall a b, leb a b = false -> leb b a = true.

Lemma insert_sorted (x : A) (l : list A) :
  Sorted (Sqlite.le_of leb) l -> Sorted (Sqlite.le_of leb) (Sqlite.insert leb x l).
Proof.
  induction 1 as [|y l Hs IH Hd]; simpl; [repeat constructor|].
  destruct (leb x y) eqn:E.
  - constructor; [constructor; assumption|]. now constructor.
  - constructor; [assumption|].
    destruct l as [|z l]; simpl.
    + constructor. now apply leb_total.
    + destruct (leb x z); constructor.
      * now apply leb_total.
      * now inversion Hd.
Qed.

Lemma sort_sorted (l : list A) : Sorted (Sqlite.le_of leb) (Sqlite.sort leb l).
Proof.
  induction l as [|x l IH]; simpl; [constructor|]. now apply insert_sorted.
Qed.

(** The stable sort is one of the orderings ORDER BY allows. *)
Lemma sort_ordered_by (l : list A) :
  Sqlite.ordered_by leb l (Sqlite.sort leb l).
Proof. split; [apply sort_perm | apply sort_sorted]. Qed.

Hypothesis leb_trans :
  forall a b c, leb a b = true -> leb b c = true -> leb a c = true.

Lemma sorted_strongly (l : list A) :
  Sorted (Sqlite.le_of leb) l -> StronglySorted (Sqlite.le_of leb) l.
Proof.
  apply Sorted_StronglySorted. intros a b c. apply leb_trans.
Qed.

(** Where no two rows share a key, ORDER BY has one answer. *)
Lemma strongly_sorted_unique (l1 l2 : list A) :
  (forall a b, In a l1 -> In b l1 -> leb a b = true -> leb b a = true -> a = b) ->
  StronglySorted (Sqlite.le_of leb) l1 ->
  StronglySorted (Sqlite.le_of leb) l2 ->
  Permutation l1 l2 -> l1 = l2.
Proof.
  revert l2. induction l1 as [|x l1 IH]; intros l2 Hanti S1 S2 P.
  - now apply Permutation_nil in P.
  - destruct l2 as [|y l2];
      [apply Permutation_sym, Permutation_nil in P; discriminate|].
    inversion S1 as [|? ? S1' F1]; inversion S2 as [|? ? S2' F2]; subst.
    assert (x = y) as ->.
    { assert (Hx : In x (y :: l2))
        by (eapply Permutation_in; [exact P | now left]).
      assert (Hy : In y (x :: l1))
        by (eapply Permutation_in; [exact (Permutation_sym P) | now left]).
      destruct Hx as [->|Hx]; [reflexivity|].
      destruct Hy as [->|Hy]; [reflexivity|].
      rewrite Forall_forall in F1, F2.
      apply Hanti; [now left | now right | now apply F1 | now apply F2]. }
    f_equal. apply IH; auto.
    + intros a b Ha Hb. apply Hanti; now right.
    + now apply Permutation_cons_inv in P.
Qed.

Lemma ordered_by_unique (rows out : list A) :
  (forall a b, In a rows -> In b rows ->
               leb a b = true -> leb b a = true -> a = b) ->
  Sqlite.ordered_by leb rows out -> out = Sqlite.sort leb rows.
Proof.
  intros Hanti [P S]. symmetry.
  apply strongly_sorted_unique.
  - intros a b Ha Hb. apply Hanti; eapply Permutation_in;
      try exact (Permutation_sym (sort_perm rows)); assumption.
  - apply sorted_strongly, sort_sorted.
  - now apply sorted_strongly.
  - rewrite <- P. apply Permutation_sym, sort_perm.
Qed.

End OrderByFacts.

(** ** LIKE *)

Section LikeFacts.

Lemma append_empty_r (s : string) : (s ++ "")%string = s.
Proof. induction s as [|c s IH]; simpl; congruence. Qed.

Lemma any_run_spec (rest : string -> bool) (s : string) :
  Sqlite.any_run rest s = true
  <-> exists a b, s = (a ++ b)%string /\ rest b = true.
Proof.
  induction s as [|c s IH]; simpl.
  - rewrite orb_false_r. split.
    + intros H. now exists "", "".
    + intros (a & b & E & H). destruct a; [|discriminate].
      simpl in E. now subst b.
  - rewrite orb_true_iff, IH. split.
    + intros [H|(a & b & E & H)].
      * now exists "", (String c s).
      * exists (String c a), b. simpl. now rewrite E.
    + intros (a & b & E & H). destruct a as [|x a]; simpl in E.
      * left. now subst b.
      * right. injection E as _ E. now exists a, b.
Qed.

Lemma literal_char_spec (c : ascii) :
  Spec.literal_char c = true ->
  (c =? "%")%char = false /\ (c =? "_")%char = false /\ (Py.ord c =? 0)%N = false.
Proof.
  unfold Spec.literal_char. rewrite negb_true_iff, !orb_false_iff. tauto.
Qed.

(** A literal prefix of the pattern is matched character by
    character, up to the case of ASCII letters. *)
Lemma literal_prefix (q p s : string) :
  Spec.literal q = true ->
  Sqlite.pattern_compare (q ++ p) s = true
  <-> exists m b, s = (m ++ b)%string
                  /\ Spec.fold_case m = Spec.fold_case q
                  /\ Sqlite.pattern_compare p b = true.
Proof.
  revert s. induction q as [|c q IH]; intros s Hq.
  - simpl. split.
    + intros H. now exists "", s.
    + intros (m & b & E & Hm & H). destruct m; [|discriminate].
      simpl in E. now subst b.
  - simpl in Hq. apply andb_true_iff in Hq as [Hc Hq].
    apply literal_char_spec in Hc as (Hp & Hu & _).
    cbn [String.append Sqlite.pattern_compare]. rewrite Hp, Hu. simpl orb.
    destruct s as [|d s].
    + split; [discriminate|].
      intros (m & b & E & Hm & _). destruct m; discriminate.
    + rewrite andb_true_iff, Ascii.eqb_eq, (IH s Hq). split.
      * intros (Hcd & m & b & E & Hm & H).
        exists (String d m), b. simpl. now rewrite E, Hm, Hcd.
      * intros (m & b & E & Hm & H). destruct m as [|x m]; [discriminate|].
        simpl in E, Hm. injection E as -> E. injection Hm as Hx Hm.
        split; [now rewrite Hx|]. now exists m, b.
Qed.

Lemma c_string_literal (q rest : string) :
  Spec.literal q = true ->
  Sqlite.c_string (q ++ rest) = (q ++ Sqlite.c_string rest)%string.
Proof.
  induction q as [|c q IH]; simpl; [reflexivity|].
  intros H. apply andb_true_iff in H as [Hc Hq].
  apply literal_char_spec in Hc as (_ & _ & ->). now rewrite IH.
Qed.

(** With a literal [q], [text LIKE '%q%'] finds [q] in the text read
    as a C string, without regard to the case of ASCII letters. *)
Lemma like_literal (q t : string) :
  Spec.literal q = true ->
  Sqlite.like (Some t) ("%" ++ q ++ "%") = true
  <-> Spec.occurs_nocase q (Sqlite.c_string t).
Proof.
  intros Hq. unfold Sqlite.like, Spec.occurs_nocase.
  change ("%" ++ q ++ "%")%string with (String "%" (q ++ "%")).
  cbn [Sqlite.c_string]. change (Py.ord "%" =? 0)%N with false. cbv iota.
  rewrite (c_string_literal q "%" Hq).
  change (Sqlite.c_string "%") with "%".
  cbn [Sqlite.pattern_compare]. change ("%" =? "%")%char with true. cbv iota.
  rewrite any_run_spec. split.
  - intros (a & b & E & H). apply (literal_prefix q "%" b Hq) in H.
    destruct H as (m & b' & E' & Hm & _). exists a, m, b'.
    now rewrite E, E'.
  - intros (a & m & b & E & Hm). exists a, (m ++ b)%string. split; [exact E|].
    apply (literal_prefix q "%" _ Hq). exists m, b. repeat split; auto.
    cbn [Sqlite.pattern_compare]. change ("%" =? "%")%char with true. cbv iota.
    apply any_run_spec. exists b, "". now rewrite append_empty_r.
Qed.

(** [patternCompare] decides what a pattern matches. *)
Lemma pattern_compare_spec (p s : string) :
  Sqlite.pattern_compare p s = true <-> Spec.like_matches p s.
Proof.
  revert s. induction p as [|c p IH]; intros s.
  - cbn [Sqlite.pattern_compare]. rewrite String.eqb_eq. split.
    + intros ->. constructor.
    + intros H. now inversion H.
  - cbn [Sqlite.pattern_compare]. destruct (Ascii.eqb_spec c "%") as [->|Hp].
    + rewrite any_run_spec. split.
      * intros (a & b & -> & H). apply Spec.like_any_run. now apply IH.
      * intros H. inversion H as [|p0 a s0 H0| |p0 c0 d0 s0 Hc]; subst.
        -- exists a, s0. split; [reflexivity | now apply IH].
        -- now contradiction Hc.
    + destruct s as [|d s].
      * split; [discriminate|]. intros H. inversion H; subst.
        now contradiction Hp.
      * rewrite andb_true_iff, orb_true_iff, IH, !Ascii.eqb_eq. split.
        -- intros [Hc H]. destruct (Ascii.eqb_spec c "_") as [->|Hu].
           ++ now apply Spec.like_any_one.
           ++ destruct Hc as [Hc|Hc]; [now contradiction Hu|].
              apply Spec.like_same; auto. cbn [Spec.fold_case]. now rewrite Hc.
        -- intros H.
           inversion H as [|p0 a s0 H0| |p0 c0 d0 s0 _ _ Hf H0]; subst.
           ++ now contradiction Hp.
           ++ split; [now left | assumption].
           ++ split; [right | assumption]. cbn [Spec.fold_case] in Hf.
              now injection Hf.
Qed.

(** [text LIKE pattern] on a stored text. *)
Lemma like_spec (text : option Py.str) (pattern : Py.str) :
  Sqlite.like text pattern = true
  <-> exists t, text = Some t
                /\ Spec.like_matches (Sqlite.c_string pattern)
                                     (Sqlite.c_string t).
Proof.
  unfold Sqlite.like. destruct text as [t|].
  - rewrite pattern_compare_spec. split.
    + intros H. now exists t.
    + now intros (t' & [= <-] & H).
  - split; [discriminate|]. now intros (t & H & _).
Qed.

End LikeFacts.

(** ** Signatures *)

Section HmacFacts.

Lemma hex_digit_ascii (d : N) : Py.isascii_char (Hmac.hex_digit d) = true.
Proof.
  unfold Hmac.hex_digit.
  destruct (nth_in_or_default (N.to_nat d) Hmac.hex_digits "0"%char) as [H | ->];
    [|reflexivity].
  revert H. generalize (nth (N.to_nat d) Hmac.hex_digits "0"%char).
  apply Forall_forall. repeat constructor.
Qed.

Lemma hex_ascii (bs : list N) : Py.isascii (Hmac.hex bs) = true.
Proof.
  induction bs as [|b bs IH]; [reflexivity|].
  unfold Py.isascii in *. simpl. now rewrite !hex_digit_ascii, IH.
Qed.

Lemma digest_length (msg : list N) : List.length (Sha256.digest msg) = 32%nat.
Proof.
  unfold Sha256.digest. cbv zeta.
  generalize (fold_left Sha256.compress
                (Sha256.blocks
                   (List.length
                      (Sha256.be_words (List.length (Sha256.pad msg))
                                       (Sha256.pad msg)))
                   (Sha256.be_words (List.length (Sha256.pad msg))
                                    (Sha256.pad msg)))
                Sha256.init).
  intros st. unfold Sha256.state_words. cbn [flat_map].
  rewrite !length_app. unfold Sha256.be_bytes. rewrite !length_map, !length_seq.
  reflexivity.
Qed.

(** A hex digest is 64 characters, all ASCII. *)
Lemma hexdigest_truthy (key msg : Py.bytes) :
  Py.truthy (Hmac.hexdigest key msg) = true.
Proof.
  unfold Hmac.hexdigest, Hmac.hmac_sha256.
  match goal with |- context [Sha256.digest ?m] =>
    pose proof (digest_length m) as H; destruct (Sha256.digest m) end;
    [discriminate|reflexivity].
Qed.

Lemma hexdigest_ascii (key msg : Py.bytes) :
  Py.isascii (Hmac.hexdigest key msg) = true.
Proof. apply hex_ascii. Qed.

Lemma compare_digest_same (key msg : Py.bytes) :
  Hmac.compare_digest (Hmac.hexdigest key msg) (Hmac.hexdigest key msg)
  = inr true.
Proof.
  unfold Hmac.compare_digest. now rewrite hexdigest_ascii, String.eqb_refl.
Qed.

(** Comparing with an ASCII string that differs says so. *)
Lemma compare_digest_differs (signature : Py.str) (key msg : Py.bytes) :
  Py.isascii signature = true ->
  signature <> Hmac.hexdigest key msg ->
  Hmac.compare_digest signature (Hmac.hexdigest key msg) = inr false.
Proof.
  intros Ha Hne. unfold Hmac.compare_digest.
  rewrite Ha, hexdigest_ascii. simpl.
  now apply String.eqb_neq in Hne as ->.
Qed.

End HmacFacts.

(** ** The store *)

Section StorageFacts.

Lemma has_id_false (id : Py.str) (db : Storage.table) :
  Storage.has_id id db = false <-> ~ In id (map Storage.message_id db).
Proof.
  unfold Storage.has_id, Sqlite.text_eq.
  induction db as [|r db IH]; simpl; [tauto|].
  rewrite orb_false_iff, IH, String.eqb_neq. tauto.
Qed.

Lemma rows_with_id_absent (id : Py.str) (db : Storage.table) :
  Storage.has_id id db = false -> Spec.rows_with_id id db = [].
Proof.
  unfold Storage.has_id, Spec.rows_with_id, Sqlite.text_eq.
  induction db as [|r db IH]; simpl; [reflexivity|].
  intros H. apply orb_false_iff in H as [-> H]. auto.
Qed.

Lemma insert_message_fresh (db : Storage.table) (utcnow : Py.str)
      (m : Storage.message) :
  Storage.has_id (Storage.m_message_id m) db = false ->
  Storage.insert_message db utcnow m
  = (true,
     (db ++ [Storage.Row (Storage.m_message_id m) (Storage.m_from m)
                         (Storage.m_to m) (Storage.m_ts m) (Storage.m_text m)
                         (utcnow ++ "Z")%string])%list).
Proof. unfold Storage.insert_message. now intros ->. Qed.

Lemma insert_message_present (db : Storage.table) (utcnow : Py.str)
      (m : Storage.message) :
  Storage.has_id (Storage.m_message_id m) db = true ->
  Storage.insert_message db utcnow m = (false, db).
Proof. unfold Storage.insert_message. now intros ->. Qed.

Lemma has_id_app (id : Py.str) (db1 db2 : Storage.table) :
  Storage.has_id id (db1 ++ db2)%list
  = Storage.has_id id db1 || Storage.has_id id db2.
Proof. unfold Storage.has_id. apply existsb_app. Qed.

(** The primary key: an insertion never makes two rows share an id. *)
Lemma insert_message_unique_ids (db : Storage.table) (utcnow : Py.str)
      (m : Storage.message) :
  Spec.unique_ids db -> Spec.unique_ids (snd (Storage.insert_message db utcnow m)).
Proof.
  unfold Storage.insert_message, Spec.unique_ids. intros H.
  destruct (Storage.has_id (Storage.m_message_id m) db) eqn:E; simpl; auto.
  rewrite map_app. simpl. apply has_id_false in E.
  apply NoDup_rev in H. rewrite <- (rev_involutive (_ ++ _)%list).
  apply NoDup_rev. rewrite rev_app_distr. simpl. constructor; auto.
  now rewrite <- in_rev.
Qed.

End StorageFacts.

(** ** [POST /webhook] *)

Section WebhookFacts.

Context {D : Main.Decoder}.
Variables (cfg : Main.Config) (db : Storage.table) (utcnow : Py.str).

(** A request that carries the right signature gets as far as the
    payload: the answer is that of validation and insertion. *)
Lemma webhook_signed (raw_body : Py.bytes) :
  Main.webhook cfg db utcnow
    {| Main.body := raw_body;
       Main.X_Signature := Some (Main.computed cfg raw_body) |}
  = match Main.parse_raw raw_body with
    | inl e => (Main.HTTPException 422 (Main.Errors e), db)
    | inr payload =>
        let (inserted, db') :=
          Storage.insert_message db utcnow (Main.dict payload) in
        (Main.OK {| Main.status := "ok";
                    Main.result := if inserted then "created" else "duplicate" |},
         db')
    end.
Proof.
  unfold Main.webhook, Main.computed. cbn [Main.body Main.X_Signature].
  now rewrite hexdigest_truthy, compare_digest_same.
Qed.

(** Without the right signature nothing is written, whatever else
    happens. *)
Lemma webhook_unsigned_keeps_store (request : Main.Request) :
  Main.X_Signature request <> Some (Main.computed cfg (Main.body request)) ->
  snd (Main.webhook cfg db utcnow request) = db.
Proof.
  unfold Main.webhook. intros Hne.
  destruct (Main.X_Signature request) as [signature|]; [|reflexivity].
  destruct (Py.truthy signature); [|reflexivity]. cbn [negb].
  unfold Hmac.compare_digest.
  destruct (Py.isascii signature && Py.isascii _); [|reflexivity].
  destruct (String.eqb_spec signature (Main.computed cfg (Main.body request)))
    as [->|_]; [congruence|reflexivity].
Qed.

(** A missing signature and an ASCII one that does not match get the
    same answer. *)
Lemma webhook_unsigned_401 (request : Main.Request) :
  match Main.X_Signature request with
  | None => True
  | Some signature =>
      Py.isascii signature = true
      /\ signature <> Main.computed cfg (Main.body request)
  end ->
  Main.webhook cfg db utcnow request
  = (Main.HTTPException 401 (Main.Text "invalid signature"), db).
Proof.
  unfold Main.webhook, Main.invalid_signature.
  destruct (Main.X_Signature request) as [signature|]; [|reflexivity].
  intros [Ha Hne]. destruct (Py.truthy signature); [|reflexivity]. cbn [negb].
  unfold Main.computed in *. now rewrite compare_digest_differs.
Qed.

(** The errors of the five fields, when the body is an object. *)
Lemma parse_raw_errors (raw_body : Py.bytes) (f : Main.raw_fields) :
  Main.decode raw_body = Main.Object f ->
  let e := (Main.errors_of (Main.validated "message_id" Main.id_not_empty
                                           (Main.raw_message_id f))
            ++ Main.errors_of (Main.validated "from" Main.validate_e164
                                              (Main.raw_from f))
            ++ Main.errors_of (Main.validated "to" Main.validate_e164
                                              (Main.raw_to f))
            ++ Main.errors_of (Main.validated "ts" Main.validate_ts
                                              (Main.raw_ts f))
            ++ Main.errors_of (Main.validated "text" Main.validate_text
                                              (Main.raw_text f)))%list in
  e <> [] -> Main.parse_raw raw_body = inl e.
Proof.
  intros Hd e. subst e. unfold Main.parse_raw. rewrite Hd.
  destruct (Main.validated "message_id" _ _), (Main.validated "from" _ _),
    (Main.validated "to" _ _), (Main.validated "ts" _ _),
    (Main.validated "text" _ _); cbn [Main.errors_of];
    solve [reflexivity | intros H; now contradiction H].
Qed.

(** Whatever the request, the store keeps its primary key. *)
Lemma webhook_unique_ids (request : Main.Request) :
  Spec.unique_ids db ->
  Spec.unique_ids (snd (Main.webhook cfg db utcnow request)).
Proof.
  intros Hu. unfold Main.webhook.
  destruct (Main.X_Signature request) as [signature|]; [|exact Hu].
  destruct (Py.truthy signature); [|exact Hu]. cbn [negb].
  destruct (Hmac.compare_digest _ _) as [e|[|]]; try exact Hu.
  destruct (Main.parse_raw _) as [e|payload]; [exact Hu|].
  pose proof (insert_message_unique_ids db utcnow (Main.dict payload) Hu) as H.
  now destruct (Storage.insert_message db utcnow (Main.dict payload)).
Qed.

(** One failing field is enough for the signed request to be refused
    with 422 and the store left as it was. *)
Lemma webhook_field_error (raw_body : Py.bytes) (f : Main.raw_fields)
      (loc : Py.str) (item : Main.error_item) :
  Main.decode raw_body = Main.Object f ->
  In (loc, item)
     (Main.errors_of (Main.validated "message_id" Main.id_not_empty
                                     (Main.raw_message_id f))
      ++ Main.errors_of (Main.validated "from" Main.validate_e164
                                        (Main.raw_from f))
      ++ Main.errors_of (Main.validated "to" Main.validate_e164
                                        (Main.raw_to f))
      ++ Main.errors_of (Main.validated "ts" Main.validate_ts
                                        (Main.raw_ts f))
      ++ Main.errors_of (Main.validated "text" Main.validate_text
                                        (Main.raw_text f)))%list ->
  exists e,
    In (loc, item) e
    /\ Main.webhook cfg db utcnow
         {| Main.body := raw_body;
            Main.X_Signature := Some (Main.computed cfg raw_body) |}
       = (Main.HTTPException 422 (Main.Errors e), db).
Proof.
  intros Hd Hin. eexists. split; [exact Hin|].
  rewrite webhook_signed, (parse_raw_errors raw_body f Hd); [reflexivity|].
  intros E. rewrite E in Hin. contradiction.
Qed.

End WebhookFacts.

(** ** The validator of [from] and [to] *)

Section E164Facts.

Lemma isdigit_char_ascii (c : ascii) :
  Py.isascii_char c = true -> Py.isdigit_char c = Spec.ascii_digit c.
Proof.
  unfold Py.isascii_char, Py.isdigit_char, Spec.ascii_digit. intros H.
  apply N.ltb_lt in H.
  assert (E1 : (Py.ord c =? 178)%N = false) by (apply N.eqb_neq; lia).
  assert (E2 : (Py.ord c =? 179)%N = false) by (apply N.eqb_neq; lia).
  assert (E3 : (Py.ord c =? 185)%N = false) by (apply N.eqb_neq; lia).
  cbv zeta. now rewrite E1, E2, E3, !orb_false_r.
Qed.

Lemma ascii_digit_isdigit_char (c : ascii) :
  Spec.ascii_digit c = true -> Py.isdigit_char c = true.
Proof.
  unfold Py.isdigit_char, Spec.ascii_digit. cbv zeta. now intros ->.
Qed.

Lemma startswith_plus (v : Py.str) :
  Py.startswith v "+" = true <-> exists ds, v = String "+" ds.
Proof.
  unfold Py.startswith. destruct v as [|c ds]; cbn [String.prefix].
  - split; [discriminate|]. now intros (ds & H).
  - destruct (ascii_dec "+" c) as [E|Hc].
    + subst c. split; [now exists ds | now destruct ds].
    + split; [discriminate|]. intros (ds' & [= E _]). congruence.
Qed.

Lemma validate_e164_accepts (v : Py.str) :
  Main.validate_e164 v = inr v
  <-> exists ds, v = String "+" ds /\ ds <> ""
                 /\ Py.all_chars Py.isdigit_char ds = true.
Proof.
  unfold Main.validate_e164.
  destruct (Py.startswith v "+") eqn:Es; cbn [negb orb].
  - apply startswith_plus in Es as (ds & ->). cbn [Py.slice_from_1].
    unfold Py.isdigit, Py.truthy.
    destruct (String.eqb_spec ds "") as [->|Hne]; cbn [negb andb].
    + split; [discriminate|]. intros (ds & [= <-] & H & _). congruence.
    + destruct (Py.all_chars Py.isdigit_char ds) eqn:E; cbn [negb].
      * split; [|reflexivity]. intros _. now exists ds.
      * split; [discriminate|]. intros (ds' & [= <-] & _ & H). congruence.
  - split; [discriminate|]. intros (ds & -> & _).
    assert (H : Py.startswith (String "+" ds) "+" = true)
      by (apply startswith_plus; now exists ds).
    congruence.
Qed.

(** Whatever matches the regular expression passes the validator. *)
Lemma plus_digits_accepted (v : Py.str) :
  Spec.plus_digits v = true -> Main.validate_e164 v = inr v.
Proof.
  intros H. apply validate_e164_accepts. destruct v as [|c ds]; [discriminate|].
  simpl in H. apply andb_true_iff in H as [H Hd].
  apply andb_true_iff in H as [Hc Hne].
  apply Ascii.eqb_eq in Hc as ->. exists ds. split; [reflexivity|].
  split; [now apply String.eqb_neq, negb_true_iff|].
  clear Hne. induction ds as [|d ds IH]; [reflexivity|].
  simpl in *. apply andb_true_iff in Hd as [Hd Hds].
  now rewrite (ascii_digit_isdigit_char d Hd), IH.
Qed.

(** On ASCII input the validator and the regular expression agree. *)
Lemma validate_e164_ascii (v : Py.str) :
  Py.isascii v = true ->
  Main.validate_e164 v = inr v <-> Spec.plus_digits v = true.
Proof.
  intros Ha. split; [|apply plus_digits_accepted].
  intros H. apply validate_e164_accepts in H as (ds & -> & Hne & Hd).
  unfold Py.isascii in Ha. cbn [Py.all_chars] in Ha.
  apply andb_true_iff in Ha as [_ Ha].
  cbn [Spec.plus_digits]. apply String.eqb_neq in Hne. rewrite Hne.
  rewrite Ascii.eqb_refl. cbn [negb andb].
  clear Hne. induction ds as [|d ds IH]; [reflexivity|].
  simpl in *. apply andb_true_iff in Ha as [Had Ha].
  apply andb_true_iff in Hd as [Hdd Hd].
  rewrite <- (isdigit_char_ascii d Had), Hdd. now apply IH.
Qed.

(** A signed request whose [from] or [to] the validator turns down is
    refused with 422 and the store is left as it was. *)
Lemma webhook_rejects_number (D : Main.Decoder) (cfg : Main.Config)
      (db : Storage.table) (utcnow : Py.str) (raw_body : Py.bytes)
      (f : Main.raw_fields) (v : Py.str) :
  Main.decode raw_body = Main.Object f ->
  Main.raw_from f = Main.Typed v \/ Main.raw_to f = Main.Typed v ->
  Main.validate_e164 v <> inr v ->
  exists e,
    Main.webhook cfg db utcnow
      {| Main.body := raw_body;
         Main.X_Signature := Some (Main.computed cfg raw_body) |}
    = (Main.HTTPException 422 (Main.Errors e), db).
Proof.
  intros Hd Hf Hv.
  assert (E : Main.validate_e164 v = inl "must be E.164-like (+digits)").
  { revert Hv. unfold Main.validate_e164.
    destruct (negb _ || negb _); [reflexivity | congruence]. }
  destruct Hf as [Hf|Hf].
  - destruct (webhook_field_error cfg db utcnow raw_body f "from"
                (Main.ValueError "must be E.164-like (+digits)") Hd)
      as (e & _ & H); [|now exists e].
    rewrite Hf. cbn [Main.validated]. rewrite E. cbn [Main.errors_of].
    rewrite !in_app_iff. right. left. now left.
  - destruct (webhook_field_error cfg db utcnow raw_body f "to"
                (Main.ValueError "must be E.164-like (+digits)") Hd)
      as (e & _ & H); [|now exists e].
    rewrite Hf. cbn [Main.validated]. rewrite E. cbn [Main.errors_of].
    rewrite !in_app_iff. do 2 right. left. now left.
Qed.

End E164Facts.

(** ** Beyond U+00FF *)

Section WideFacts.

Lemma wide_eqb_spec (a b : Wide.str) : Wide.eqb a b = true <-> a = b.
Proof.
  revert b. induction a as [|x a IH]; intros [|y b]; cbn [Wide.eqb];
    try (split; [discriminate | intros [=]]); [tauto|].
  rewrite andb_true_iff, N.eqb_eq, IH. split.
  - now intros [-> ->].
  - now intros [= -> ->].
Qed.

Lemma encodable_spec (s : Wide.str) :
  Wide.encodable s = true <-> Spec.no_surrogate s.
Proof.
  unfold Wide.encodable, Spec.no_surrogate, Wide.surrogate.
  rewrite forallb_forall. split; intros H c Hc; specialize (H c Hc).
  - apply negb_true_iff, andb_false_iff in H.
    destruct H as [H|H]; [apply N.leb_gt in H | apply N.leb_gt in H]; lia.
  - apply negb_true_iff, andb_false_iff.
    destruct H as [H|H]; [left | right]; apply N.leb_gt; lia.
Qed.

Lemma binds_spec (m : Wide.Storage.message) :
  Wide.Storage.binds m = true <-> Spec.utf8_message m.
Proof.
  unfold Wide.Storage.binds, Spec.utf8_message.
  rewrite !andb_true_iff, !encodable_spec.
  destruct (Wide.Storage.m_text m) as [t|]; [rewrite encodable_spec|]; tauto.
Qed.

Lemma wide_has_id_spec (id : Wide.str) (db : Wide.Storage.table) :
  Wide.Storage.has_id id db = true <-> In id (Spec.wide_ids db).
Proof.
  unfold Wide.Storage.has_id, Spec.wide_ids. rewrite existsb_exists, in_map_iff.
  split; intros (r & H1 & H2); exists r.
  - now apply wide_eqb_spec in H2.
  - split; [assumption | now apply wide_eqb_spec].
Qed.

Lemma wide_rows_with_id_absent (id : Wide.str) (db : Wide.Storage.table) :
  ~ In id (Spec.wide_ids db) -> Spec.wide_rows_with_id id db = [].
Proof.
  unfold Spec.wide_ids, Spec.wide_rows_with_id.
  induction db as [|r db IH]; [reflexivity|]. cbn [map In filter]. intros H.
  destruct (list_eq_dec N.eq_dec (Wide.Storage.message_id r) id) as [E|_];
    [tauto | apply IH; tauto].
Qed.

(** The three outcomes of [insert_message]. *)
Lemma wide_insert_message_cases (db : Wide.Storage.table) (utcnow : Py.str)
      (m : Wide.Storage.message) :
  (~ Spec.utf8_message m
   /\ Wide.Storage.insert_message db utcnow m = inl Py.UnicodeEncodeError)
  \/ (Spec.utf8_message m
      /\ In (Wide.Storage.m_message_id m) (Spec.wide_ids db)
      /\ Wide.Storage.insert_message db utcnow m = inr (false, db))
  \/ (Spec.utf8_message m
      /\ ~ In (Wide.Storage.m_message_id m) (Spec.wide_ids db)
      /\ Wide.Storage.insert_message db utcnow m
         = inr (true,
                (db ++ [Wide.Storage.Row
                          (Wide.Storage.m_message_id m) (Wide.Storage.m_from m)
                          (Wide.Storage.m_to m) (Wide.Storage.m_ts m)
                          (Wide.Storage.m_text m)
                          (Wide.of_str (utcnow ++ "Z")%string)])%list)).
Proof.
  unfold Wide.Storage.insert_message.
  destruct (Wide.Storage.binds m) eqn:Eb; cbn [negb].
  - apply binds_spec in Eb.
    destruct (Wide.Storage.has_id (Wide.Storage.m_message_id m) db) eqn:Eh.
    + apply wide_has_id_spec in Eh. right. left.
      split; [exact Eb|]. split; [exact Eh | reflexivity].
    + right. right. split; [exact Eb|]. split; [|reflexivity].
      intros Hin. apply wide_has_id_spec in Hin. congruence.
  - left. split; [|reflexivity]. intros H. apply binds_spec in H. congruence.
Qed.

Lemma utf8_dict (P : Wide.WebhookMessage) :
  Spec.utf8_message (Wide.dict P) <-> Spec.utf8_payload P.
Proof. reflexivity. Qed.

Context {U : Wide.Unicode} {D : Wide.Decoder}.
Variables (cfg : Main.Config) (db : Wide.Storage.table) (utcnow : Py.str).

(** A request that carries the right signature gets as far as the
    payload. *)
Lemma wide_webhook_signed (raw_body : Py.bytes) :
  Wide.webhook cfg db utcnow
    {| Main.body := raw_body;
       Main.X_Signature := Some (Main.computed cfg raw_body) |}
  = match Wide.parse_raw raw_body with
    | inl e => (Main.HTTPException 422 (Main.Errors e), db)
    | inr payload =>
        match Wide.Storage.insert_message db utcnow (Wide.dict payload) with
        | inl e => (Main.Uncaught e, db)
        | inr (inserted, db') =>
            (Main.OK {| Main.status := "ok";
                        Main.result := if inserted then "created"
                                       else "duplicate" |},
             db')
        end
    end.
Proof.
  unfold Wide.webhook, Main.computed. cbn [Main.body Main.X_Signature].
  now rewrite hexdigest_truthy, compare_digest_same.
Qed.

(** A valid payload that holds a lone surrogate: 500, and nothing is
    stored, whether or not its id is. *)
Lemma wide_webhook_surrogate (raw_body : Py.bytes) (P : Wide.WebhookMessage) :
  Wide.parse_raw raw_body = inr P ->
  ~ Spec.utf8_payload P ->
  Wide.webhook cfg db utcnow
    {| Main.body := raw_body;
       Main.X_Signature := Some (Main.computed cfg raw_body) |}
  = (Main.Uncaught Py.UnicodeEncodeError, db).
Proof.
  intros HP Hn. rewrite wide_webhook_signed, HP.
  destruct (wide_insert_message_cases db utcnow (Wide.dict P))
    as [[_ ->]|[[H _]|[H _]]]; [reflexivity| |]; now apply utf8_dict in H.
Qed.

(** A valid payload under an id that is stored. *)
Lemma wide_webhook_duplicate (raw_body : Py.bytes) (P : Wide.WebhookMessage) :
  Wide.parse_raw raw_body = inr P ->
  Spec.utf8_payload P ->
  In (Wide.message_id P) (Spec.wide_ids db) ->
  Wide.webhook cfg db utcnow
    {| Main.body := raw_body;
       Main.X_Signature := Some (Main.computed cfg raw_body) |}
  = (Main.OK {| Main.status := "ok"; Main.result := "duplicate" |}, db).
Proof.
  intros HP Hu Hin. rewrite wide_webhook_signed, HP.
  destruct (wide_insert_message_cases db utcnow (Wide.dict P))
    as [[H _]|[(_ & _ & ->)|(_ & H & _)]]; [|reflexivity|].
  - now apply utf8_dict in Hu.
  - now contradiction H.
Qed.

(** A valid payload under an id that is not stored. *)
Lemma wide_webhook_created (raw_body : Py.bytes) (P : Wide.WebhookMessage) :
  Wide.parse_raw raw_body = inr P ->
  Spec.utf8_payload P ->
  ~ In (Wide.message_id P) (Spec.wide_ids db) ->
  Wide.webhook cfg db utcnow
    {| Main.body := raw_body;
       Main.X_Signature := Some (Main.computed cfg raw_body) |}
  = (Main.OK {| Main.status := "ok"; Main.result := "created" |},
     (db ++ [Spec.wide_row_of P utcnow])%list).
Proof.
  intros HP Hu Hin. rewrite wide_webhook_signed, HP.
  destruct (wide_insert_message_cases db utcnow (Wide.dict P))
    as [[H _]|[(_ & H & _)|(_ & _ & ->)]]; [| |reflexivity].
  - now apply utf8_dict in Hu.
  - now contradiction Hin.
Qed.

End WideFacts.

(** ** Below U+0100: [Wide] and [Main] on the same requests *)

Section Latin1Facts.

Lemma of_str_eqb (a b : Py.str) :
  Wide.eqb (Wide.of_str a) (Wide.of_str b) = (a =? b)%string.
Proof.
  revert b. induction a as [|x a IH]; intros [|y b]; try reflexivity.
  cbn [Wide.of_str list_ascii_of_string map Wide.eqb String.eqb].
  fold (Wide.of_str a) (Wide.of_str b). rewrite IH. unfold Py.ord.
  destruct (Ascii.eqb_spec x y) as [->|Hn].
  - now rewrite N.eqb_refl.
  - destruct (N.eqb_spec (N_of_ascii x) (N_of_ascii y)) as [E|_]; [|reflexivity].
    apply (f_equal ascii_of_N) in E. rewrite !ascii_N_embedding in E.
    contradiction.
Qed.

Lemma of_str_truthy (s : Py.str) : Wide.truthy (Wide.of_str s) = Py.truthy s.
Proof. now destruct s. Qed.

Lemma of_str_len (s : Py.str) : Wide.len (Wide.of_str s) = Py.len s.
Proof.
  unfold Wide.len, Py.len, Wide.of_str. rewrite length_map. f_equal.
  induction s as [|c s IH]; [reflexivity|]. cbn. now rewrite IH.
Qed.

Lemma of_str_startswith (s p : Py.str) :
  Wide.startswith (Wide.of_str s) (Wide.of_str p) = Py.startswith s p.
Proof.
  unfold Py.startswith. revert s.
  induction p as [|x p IH]; intros [|y s]; try reflexivity.
  cbn [Wide.of_str list_ascii_of_string map Wide.startswith String.prefix].
  fold (Wide.of_str s) (Wide.of_str p). rewrite IH. unfold Py.ord.
  destruct (ascii_dec x y) as [->|Hn].
  - now rewrite N.eqb_refl.
  - destruct (N.eqb_spec (N_of_ascii x) (N_of_ascii y)) as [E|_]; [|reflexivity].
    apply (f_equal ascii_of_N) in E. rewrite !ascii_N_embedding in E.
    contradiction.
Qed.

Lemma of_str_rev (acc s : Py.str) :
  Wide.of_str (Py.rev_string acc s)
  = (rev (Wide.of_str s) ++ Wide.of_str acc)%list.
Proof.
  revert acc. induction s as [|c s IH]; intros acc; [reflexivity|].
  cbn [Py.rev_string]. rewrite IH.
  cbn [Wide.of_str list_ascii_of_string map rev].
  now rewrite <- app_assoc.
Qed.

Lemma of_str_endswith (s p : Py.str) :
  Wide.endswith (Wide.of_str s) (Wide.of_str p) = Py.endswith s p.
Proof.
  unfold Wide.endswith, Py.endswith.
  rewrite <- (app_nil_r (rev (Wide.of_str s))), <- (app_nil_r (rev (Wide.of_str p))).
  change (@nil N) with (Wide.of_str ""). rewrite <- !of_str_rev.
  apply of_str_startswith.
Qed.

Lemma of_str_isdigit (U : Wide.Unicode) (s : Py.str) :
  Wide.isdigit (Wide.of_str s) = Py.isdigit s.
Proof.
  unfold Wide.isdigit, Py.isdigit. rewrite of_str_truthy. f_equal.
  induction s as [|c s IH]; [reflexivity|].
  cbn [Wide.of_str list_ascii_of_string map forallb Py.all_chars].
  fold (Wide.of_str s). rewrite IH. f_equal.
  unfold Wide.isdigit_char, Py.ord.
  pose proof (N_ascii_bounded c) as Hc. apply N.ltb_lt in Hc. rewrite Hc.
  now rewrite ascii_N_embedding.
Qed.

Lemma of_str_slice (s : Py.str) :
  Wide.slice_from_1 (Wide.of_str s) = Wide.of_str (Py.slice_from_1 s).
Proof. now destruct s. Qed.

Lemma of_str_encodable (s : Py.str) : Wide.encodable (Wide.of_str s) = true.
Proof.
  unfold Wide.encodable, Wide.of_str. apply forallb_forall. intros c Hc.
  apply in_map_iff in Hc as (a & <- & _). unfold Wide.surrogate, Py.ord.
  pose proof (N_ascii_bounded a) as Ha.
  destruct (N.leb_spec 55296 (N_of_ascii a)); [lia | reflexivity].
Qed.

(** The validators. *)
Lemma widen_validated {A B : Type} (f : A -> B) (loc : Py.str)
      (v : A -> Py.str + A) (w : B -> Py.str + B) (x : Main.typed A) :
  (forall a, w (f a) = match v a with inl e => inl e | inr a' => inr (f a') end) ->
  Main.validated loc w (Spec.widen_typed f x)
  = match Main.validated loc v x with
    | inl e => inl e
    | inr a => inr (f a)
    end.
Proof.
  intros H. destruct x as [a|msg]; [|reflexivity].
  cbn [Spec.widen_typed Main.validated]. rewrite H. now destruct (v a).
Qed.

Lemma widen_id_not_empty (v : Py.str) :
  Wide.id_not_empty (Wide.of_str v)
  = match Main.id_not_empty v with
    | inl e => inl e
    | inr a => inr (Wide.of_str a)
    end.
Proof.
  unfold Wide.id_not_empty, Main.id_not_empty. rewrite of_str_truthy.
  now destruct (Py.truthy v).
Qed.

Lemma widen_validate_e164 (U : Wide.Unicode) (v : Py.str) :
  Wide.validate_e164 (Wide.of_str v)
  = match Main.validate_e164 v with
    | inl e => inl e
    | inr a => inr (Wide.of_str a)
    end.
Proof.
  unfold Wide.validate_e164, Main.validate_e164.
  rewrite of_str_startswith, of_str_slice, of_str_isdigit.
  now destruct (negb _ || negb _).
Qed.

Lemma widen_validate_ts (v : Py.str) :
  Wide.validate_ts (Wide.of_str v)
  = match Main.validate_ts v with
    | inl e => inl e
    | inr a => inr (Wide.of_str a)
    end.
Proof.
  unfold Wide.validate_ts, Main.validate_ts. rewrite of_str_endswith.
  now destruct (Py.endswith v "Z").
Qed.

Lemma widen_validate_text (v : option Py.str) :
  Wide.validate_text (option_map Wide.of_str v)
  = match Main.validate_text v with
    | inl e => inl e
    | inr a => inr (option_map Wide.of_str a)
    end.
Proof.
  destruct v as [s|]; [|reflexivity].
  unfold Wide.validate_text, Main.validate_text. cbn [option_map].
  rewrite of_str_len. now destruct (4096 <? Py.len s)%Z.
Qed.

Lemma widen_parse_raw (U : Wide.Unicode) (D : Main.Decoder) (raw_body : Py.bytes) :
  @Wide.parse_raw U (Spec.widen_decoder D) raw_body
  = match Main.parse_raw raw_body with
    | inl e => inl e
    | inr P => inr (Spec.widen_payload P)
    end.
Proof.
  unfold Wide.parse_raw, Main.parse_raw, Wide.decode, Spec.widen_decoder.
  destruct (Main.decode raw_body) as [msg|f]; [reflexivity|]. cbv zeta.
  cbn [Spec.widen_fields Wide.raw_message_id Wide.raw_from Wide.raw_to
       Wide.raw_ts Wide.raw_text].
  rewrite (widen_validated Wide.of_str "message_id" Main.id_not_empty _ _
             widen_id_not_empty).
  rewrite !(widen_validated Wide.of_str _ Main.validate_e164 _ _
              (widen_validate_e164 U)).
  rewrite (widen_validated Wide.of_str "ts" Main.validate_ts _ _
             widen_validate_ts).
  rewrite (widen_validated (option_map Wide.of_str) "text" Main.validate_text
             _ _ widen_validate_text).
  destruct (Main.validated "message_id" _ _), (Main.validated "from" _ _),
    (Main.validated "to" _ _), (Main.validated "ts" _ _),
    (Main.validated "text" _ _); reflexivity.
Qed.

Lemma widen_has_id (id : Py.str) (db : Storage.table) :
  Wide.Storage.has_id (Wide.of_str id) (map Spec.widen_row db)
  = Storage.has_id id db.
Proof.
  unfold Wide.Storage.has_id, Storage.has_id, Sqlite.text_eq.
  induction db as [|r db IH]; [reflexivity|]. cbn [map existsb].
  rewrite IH. f_equal. apply of_str_eqb.
Qed.

Lemma widen_binds (m : Storage.message) :
  Wide.Storage.binds (Spec.widen_message m) = true.
Proof.
  unfold Wide.Storage.binds, Spec.widen_message.
  cbn [Wide.Storage.m_message_id Wide.Storage.m_from Wide.Storage.m_to
       Wide.Storage.m_ts Wide.Storage.m_text].
  rewrite !of_str_encodable.
  destruct (Storage.m_text m); [apply of_str_encodable | reflexivity].
Qed.

Lemma widen_insert_message (db : Storage.table) (utcnow : Py.str)
      (m : Storage.message) :
  Wide.Storage.insert_message (map Spec.widen_row db) utcnow
                              (Spec.widen_message m)
  = inr (fst (Storage.insert_message db utcnow m),
         map Spec.widen_row (snd (Storage.insert_message db utcnow m))).
Proof.
  unfold Wide.Storage.insert_message, Storage.insert_message.
  rewrite widen_binds. cbn [negb].
  change (Wide.Storage.m_message_id (Spec.widen_message m))
    with (Wide.of_str (Storage.m_message_id m)).
  rewrite widen_has_id.
  destruct (Storage.has_id (Storage.m_message_id m) db); [reflexivity|].
  cbn [fst snd]. now rewrite map_app.
Qed.

(** Below U+0100 the two webhooks are one: the same answer, the same
    store. *)
Lemma wide_webhook_latin1 (U : Wide.Unicode) (D : Main.Decoder)
      (cfg : Main.Config) (db : Storage.table) (utcnow : Py.str)
      (request : Main.Request) :
  @Wide.webhook U (Spec.widen_decoder D) cfg (map Spec.widen_row db)
                utcnow request
  = (fst (Main.webhook cfg db utcnow request),
     map Spec.widen_row (snd (Main.webhook cfg db utcnow request))).
Proof.
  unfold Wide.webhook, Main.webhook.
  destruct (Main.X_Signature request) as [signature|]; [|reflexivity].
  destruct (negb (Py.truthy signature)); [reflexivity|].
  destruct (Hmac.compare_digest signature _) as [e|[|]]; try reflexivity.
  rewrite widen_parse_raw.
  destruct (Main.parse_raw (Main.body request)) as [e|P]; [reflexivity|].
  change (Wide.dict (Spec.widen_payload P)) with (Spec.widen_message (Main.dict P)).
  rewrite widen_insert_message.
  now destruct (Storage.insert_message db utcnow (Main.dict P)) as [[|] db'].
Qed.

End Latin1Facts.

(** What the specification promises, for the payloads that can be
    encoded as UTF-8: posted twice with the signature of its body to a
    store without a row of its id, a valid payload is answered "created"
    and then "duplicate"; the store then has one row of the id, the one
    the first delivery wrote, and the second delivery changes nothing. *)
Lemma created_then_duplicate
      (U : Wide.Unicode) (D : Wide.Decoder) (cfg : Main.Config)
      (db : Wide.Storage.table) (t1 t2 : Py.str) (raw_body : Py.bytes)
      (P : Wide.WebhookMessage) :
  Wide.parse_raw raw_body = inr P ->
  Spec.utf8_payload P ->
  ~ In (Wide.message_id P) (Spec.wide_ids db) ->
  let request := {| Main.body := raw_body;
                    Main.X_Signature := Some (Main.computed cfg raw_body) |} in
  let first := Wide.webhook cfg db t1 request in
  let second := Wide.webhook cfg (snd first) t2 request in
  fst first = Main.OK {| Main.status := "ok"; Main.result := "created" |}
  /\ fst second = Main.OK {| Main.status := "ok"; Main.result := "duplicate" |}
  /\ Spec.wide_rows_with_id (Wide.message_id P) (snd second)
     = [Spec.wide_row_of P t1]
  /\ snd second = snd first.
Proof.
  intros HP Hu Hfresh request first second. subst first second request.
  rewrite (wide_webhook_created cfg db t1 raw_body P HP Hu Hfresh).
  cbn [fst snd].
  rewrite (wide_webhook_duplicate cfg _ t2 raw_body P HP Hu).
  - cbn [fst snd]. repeat split.
    unfold Spec.wide_rows_with_id. rewrite filter_app.
    fold (Spec.wide_rows_with_id (Wide.message_id P) db).
    rewrite (wide_rows_with_id_absent _ _ Hfresh).
    cbn [app filter Spec.wide_row_of Wide.Storage.message_id].
    now destruct (list_eq_dec N.eq_dec (Wide.message_id P) (Wide.message_id P)).
  - unfold Spec.wide_ids. rewrite map_app, in_app_iff. right. now left.
Qed.

(** The same below U+0100, on [Main.webhook]. *)
Lemma created_then_duplicate_latin1
      (D : Main.Decoder) (cfg : Main.Config) (db : Storage.table)
      (t1 t2 : Py.str) (raw_body : Py.bytes) (P : Main.WebhookMessage) :
  Main.parse_raw raw_body = inr P ->
  ~ In (Main.message_id P) (map Storage.message_id db) ->
  let request := {| Main.body := raw_body;
                    Main.X_Signature := Some (Main.computed cfg raw_body) |} in
  let first := Main.webhook cfg db t1 request in
  let second := Main.webhook cfg (snd first) t2 request in
  fst first = Main.OK {| Main.status := "ok"; Main.result := "created" |}
  /\ fst second = Main.OK {| Main.status := "ok"; Main.result := "duplicate" |}
  /\ Spec.rows_with_id (Main.message_id P) (snd second)
     = [Storage.Row (Main.message_id P) (Main.from_ P) (Main.to P)
                    (Main.ts P) (Main.text P) (t1 ++ "Z")%string]
  /\ snd second = snd first.
Proof.
  intros HP Hfresh request first second. subst first second request.
  apply has_id_false in Hfresh.
  rewrite !webhook_signed, HP.
  rewrite (insert_message_fresh db t1 (Main.dict P) Hfresh).
  cbn [fst snd Main.dict Storage.m_message_id Storage.m_from Storage.m_to
       Storage.m_ts Storage.m_text].
  set (row := Storage.Row _ _ _ _ _ _).
  assert (Hnow : Storage.has_id (Main.message_id P) (db ++ [row])%list = true).
  { rewrite has_id_app. apply orb_true_iff. right.
    unfold Storage.has_id, Sqlite.text_eq. simpl.
    now rewrite String.eqb_refl. }
  rewrite (insert_message_present _ t2 (Main.dict P) Hnow).
  cbn [fst snd]. repeat split.
  unfold Spec.rows_with_id. rewrite filter_app.
  fold (Spec.rows_with_id (Main.message_id P) db).
  rewrite (rows_with_id_absent _ _ Hfresh). simpl.
  now rewrite String.eqb_refl.
Qed.

(** A sender written in Arabic-Indic digits and a text of a Chinese
    character and an emoji: stored as sent, and a duplicate the second
    time. *)
Example created_then_duplicate_wide :
  @Wide.parse_raw Scenario.unicode_14 Scenario.wide_json Scenario.body_wide
  = inr Scenario.payload_wide
  /\ @Wide.webhook Scenario.unicode_14 Scenario.wide_json Scenario.cfg []
                   Scenario.t1 (Scenario.signed Scenario.body_wide)
     = (Main.OK {| Main.status := "ok"; Main.result := "created" |},
        [Spec.wide_row_of Scenario.payload_wide Scenario.t1])
  /\ @Wide.webhook Scenario.unicode_14 Scenario.wide_json Scenario.cfg
                   [Spec.wide_row_of Scenario.payload_wide Scenario.t1]
                   Scenario.t2 (Scenario.signed Scenario.body_wide)
     = (Main.OK {| Main.status := "ok"; Main.result := "duplicate" |},
        [Spec.wide_row_of Scenario.payload_wide Scenario.t1]).
Proof.
  assert (HP : @Wide.parse_raw Scenario.unicode_14 Scenario.wide_json
                               Scenario.body_wide
               = inr Scenario.payload_wide) by (vm_compute; reflexivity).
  assert (Hu : Spec.utf8_payload Scenario.payload_wide)
    by (apply (proj1 (binds_spec (Wide.dict Scenario.payload_wide)));
        vm_compute; reflexivity).
  split; [exact HP|]. split.
  - exact (wide_webhook_created Scenario.cfg [] Scenario.t1 Scenario.body_wide
             Scenario.payload_wide HP Hu (fun H => H)).
  - apply (wide_webhook_duplicate Scenario.cfg _ Scenario.t2 Scenario.body_wide
             Scenario.payload_wide HP Hu).
    now left.
Qed.

(** ** The claims on [POST /webhook] *)

(** C1.  The message whose id is the escape of U+D800, a lone
    surrogate, is a valid payload: the JSON reader makes a [str] of one
    character of it, which is not empty, and the other fields are those
    of the first scenario.  Posted with the signature of its body to an
    empty store it is not answered "created": [sqlite3] cannot encode
    the id as UTF-8, the [UnicodeEncodeError] is no [IntegrityError],
    and the client gets 500, on the second delivery as on the first.
    No row is stored. *)
Example C1_lone_surrogate_is_500 :
  let request := Scenario.signed Scenario.body_surrogate in
  let first := @Wide.webhook Scenario.unicode_14 Scenario.wide_json
                             Scenario.cfg [] Scenario.t1 request in
  let second := @Wide.webhook Scenario.unicode_14 Scenario.wide_json
                              Scenario.cfg (snd first) Scenario.t2 request in
  Main.X_Signature request
  = Some (Main.computed Scenario.cfg (Main.body request))
  /\ @Wide.parse_raw Scenario.unicode_14 Scenario.wide_json
                     Scenario.body_surrogate
     = inr Scenario.payload_surrogate
  /\ first = (Main.Uncaught Py.UnicodeEncodeError, [])
  /\ Main.status_code (fst first) = 500%Z
  /\ second = (Main.Uncaught Py.UnicodeEncodeError, []).
Proof.
  cbv zeta.
  assert (HP : @Wide.parse_raw Scenario.unicode_14 Scenario.wide_json
                               Scenario.body_surrogate
               = inr Scenario.payload_surrogate) by (vm_compute; reflexivity).
  assert (Hn : ~ Spec.utf8_payload Scenario.payload_surrogate).
  { intros (H & _). destruct (H 55296%N (or_introl eq_refl)) as [H'|H'];
      revert H'; apply N.lt_irrefl || (intros H'; now apply N.ltb_lt in H'). }
  assert (E : @Wide.webhook Scenario.unicode_14 Scenario.wide_json
                            Scenario.cfg [] Scenario.t1
                            (Scenario.signed Scenario.body_surrogate)
              = (Main.Uncaught Py.UnicodeEncodeError, []))
    by exact (wide_webhook_surrogate Scenario.cfg [] Scenario.t1
                Scenario.body_surrogate Scenario.payload_surrogate HP Hn).
  split; [reflexivity|]. split; [exact HP|]. rewrite E. cbn [fst snd].
  split; [reflexivity|]. split; [reflexivity|].
  exact (wide_webhook_surrogate Scenario.cfg [] Scenario.t2
           Scenario.body_surrogate Scenario.payload_surrogate HP Hn).
Qed.

(** C2.  A request whose X-Signature is the one character U+00E9 is
    not signed with the HMAC of its body, yet the answer is not 401:
    [hmac.compare_digest] raises [TypeError] on a [str] that is not
    ASCII, nobody catches it, and the client gets 500.  The store is
    left alone. *)
Example C2_non_ascii_signature_is_500 :
  let request := Scenario.post Scenario.body_m1
                               (Some (String Scenario.e_acute "")) in
  let answer := @Main.webhook Scenario.flat_json Scenario.cfg []
                              Scenario.t1 request in
  Main.X_Signature request
  <> Some (Main.computed Scenario.cfg (Main.body request))
  /\ answer = (Main.Uncaught Py.TypeError, [])
  /\ Main.status_code (fst answer) = 500%Z.
Proof.
  cbv zeta. split; [|split].
  - intros H. vm_compute in H. discriminate.
  - reflexivity.
  - reflexivity.
Qed.

(** C5.  A signed payload whose [from] is "+1555123000" followed by
    U+00B2 (superscript two) is not of the form plus-then-ASCII-digits,
    yet it is accepted and stored: [str.isdigit] holds of every
    character with the Unicode digit property. *)
Example C5_superscript_digit_is_stored :
  Spec.plus_digits Scenario.from_superscript = false
  /\ Main.validate_e164 Scenario.from_superscript = inr Scenario.from_superscript
  /\ @Main.webhook Scenario.flat_json Scenario.cfg [] Scenario.t1
                   (Scenario.signed Scenario.body_superscript)
     = (Main.OK {| Main.status := "ok"; Main.result := "created" |},
        [Storage.Row "m3" Scenario.from_superscript "+15557654321"
                     "2024-01-01T00:00:00Z" (Some "hi")
                     "2024-01-02T03:04:05.000006Z"]).
Proof. repeat split; vm_compute; reflexivity. Qed.

(** C8.  A signed request whose payload carries a [text] of more than
    4096 characters is refused with 422, the failure recorded under
    [text], and the store is left as it was; a null [text] and any
    [text] of at most 4096 characters pass the check unchanged. *)
Theorem C8_text_at_most_4096 :
  (forall (D : Main.Decoder) (cfg : Main.Config) (db : Storage.table)
          (utcnow : Py.str) (raw_body : Py.bytes) (f : Main.raw_fields)
          (s : Py.str),
      Main.decode raw_body = Main.Object f ->
      Main.raw_text f = Main.Typed (Some s) ->
      (4096 < String.length s)%nat ->
      exists e,
        In ("text", Main.ValueError "text too long") e
        /\ Main.webhook cfg db utcnow
             {| Main.body := raw_body;
                Main.X_Signature := Some (Main.computed cfg raw_body) |}
           = (Main.HTTPException 422 (Main.Errors e), db))
  /\ Main.validate_text None = inr None
  /\ (forall s : Py.str,
         (String.length s <= 4096)%nat ->
         Main.validate_text (Some s) = inr (Some s)).
Proof.
  split; [|split].
  - intros D cfg db utcnow raw_body f s Hd Ht Hlen.
    apply (webhook_field_error cfg db utcnow raw_body f _ _ Hd).
    rewrite Ht. cbn [Main.validated]. unfold Main.validate_text, Py.len.
    destruct (Z.ltb_spec 4096 (Z.of_nat (String.length s))) as [_|H]; [|lia].
    cbn [Main.errors_of]. rewrite !in_app_iff. do 4 right. now left.
  - reflexivity.
  - intros s Hlen. unfold Main.validate_text, Py.len.
    destruct (Z.ltb_spec 4096 (Z.of_nat (String.length s))) as [H|_];
      [lia|reflexivity].
Qed.

(** A signed message with a text of 4097 characters, to an empty store. *)
Lemma C8_scenario_long_text :
  (@Main.decode Scenario.flat_json Scenario.body_long
   = Main.Object Scenario.fields_long
   /\ (4096 < String.length Scenario.long_text)%nat)
  /\ exists e,
      In ("text", Main.ValueError "text too long") e
      /\ @Main.webhook Scenario.flat_json Scenario.cfg [] Scenario.t1
                       (Scenario.signed Scenario.body_long)
         = (Main.HTTPException 422 (Main.Errors e), []).
Proof.
  assert (Hd : @Main.decode Scenario.flat_json Scenario.body_long
               = Main.Object Scenario.fields_long) by (vm_compute; reflexivity).
  assert (Hl : (4096 < String.length Scenario.long_text)%nat)
    by (apply Nat.ltb_lt; vm_compute; reflexivity).
  split; [split; [exact Hd | exact Hl]|].
  exact (proj1 C8_text_at_most_4096 Scenario.flat_json Scenario.cfg []
           Scenario.t1 Scenario.body_long Scenario.fields_long
           Scenario.long_text Hd eq_refl Hl).
Defined.

(** ** [GET /messages] *)

Section MessagesFacts.

Lemma by_ts_message_id_total (a b : Storage.row) :
  Main.by_ts_message_id a b = false -> Main.by_ts_message_id b a = true.
Proof.
  unfold Main.by_ts_message_id.
  rewrite (String.compare_antisym (Storage.ts b) (Storage.ts a)).
  destruct (Storage.ts a ?= Storage.ts b)%string; simpl;
    [apply text_le_total | discriminate | reflexivity].
Qed.

Lemma by_ts_message_id_trans (a b c : Storage.row) :
  Main.by_ts_message_id a b = true -> Main.by_ts_message_id b c = true ->
  Main.by_ts_message_id a c = true.
Proof.
  unfold Main.by_ts_message_id.
  destruct (Storage.ts a ?= Storage.ts b)%string eqn:E1; try discriminate;
    destruct (Storage.ts b ?= Storage.ts c)%string eqn:E2; try discriminate.
  - apply String.compare_eq_iff in E1, E2. rewrite E1, E2, compare_refl.
    apply text_le_trans.
  - apply String.compare_eq_iff in E1. now rewrite E1, E2.
  - apply String.compare_eq_iff in E2. now rewrite <- E2, E1.
  - now rewrite (compare_trans Lt _ _ _ E1 E2).
Qed.

Lemma by_ts_message_id_le (a b : Storage.row) :
  Main.by_ts_message_id a b = true ->
  Spec.ts_id_le (Main.row_dict a) (Main.row_dict b).
Proof.
  unfold Main.by_ts_message_id, Spec.ts_id_le, Spec.str_lt, Spec.str_le.
  cbn [Main.row_dict Storage.m_ts Storage.m_message_id].
  destruct (Storage.ts a ?= Storage.ts b)%string eqn:E; try discriminate.
  - intros H. right. split; [now apply String.compare_eq_iff|].
    unfold Sqlite.text_le, String.leb in H.
    now destruct (Storage.message_id a ?= Storage.message_id b)%string.
  - now left.
Qed.

(** Two rows of a table with a primary key that sort alike are the
    same row. *)
Lemma by_ts_message_id_antisym (db : Storage.table) (a b : Storage.row) :
  Spec.unique_ids db -> In a db -> In b db ->
  Main.by_ts_message_id a b = true -> Main.by_ts_message_id b a = true ->
  a = b.
Proof.
  unfold Main.by_ts_message_id. intros Hu Ha Hb.
  rewrite (String.compare_antisym (Storage.ts b) (Storage.ts a)).
  destruct (Storage.ts a ?= Storage.ts b)%string; simpl; try discriminate.
  intros H1 H2. pose proof (text_le_antisym _ _ H1 H2) as Hid.
  clear H1 H2. unfold Spec.unique_ids in Hu.
  induction db as [|r db IH]; [contradiction|].
  simpl in Hu. inversion Hu as [|? ? Hn Hu']; subst.
  destruct Ha as [->|Ha], Hb as [->|Hb]; auto.
  - exfalso. apply Hn. rewrite Hid. now apply in_map.
  - exfalso. apply Hn. rewrite <- Hid. now apply in_map.
Qed.

(** Under the primary key the data query has one possible answer,
    that of the sort. *)
Lemma data_order_forced (db : Storage.table) (conditions : list Main.condition)
      (out : list Storage.row) :
  Spec.unique_ids db ->
  Sqlite.ordered_by Main.by_ts_message_id
                    (filter (Main.where_ conditions) db) out ->
  out = Sqlite.sort Main.by_ts_message_id (filter (Main.where_ conditions) db).
Proof.
  intros Hu. apply ordered_by_unique.
  - exact by_ts_message_id_total.
  - exact by_ts_message_id_trans.
  - intros a b Ha Hb. apply filter_In in Ha as [Ha _], Hb as [Hb _].
    now apply (by_ts_message_id_antisym db).
Qed.

Lemma in_limit_offset {A : Type} (l o : Z) (rows : list A) (x : A) :
  In x (Sqlite.limit_offset l o rows) -> In x rows.
Proof.
  unfold Sqlite.limit_offset. intros H.
  assert (Hs : In x (skipn (Z.to_nat o) rows)).
  { destruct (l <? 0)%Z; [assumption|].
    rewrite <- (firstn_skipn (Z.to_nat l) (skipn (Z.to_nat o) rows)).
    apply in_or_app. now left. }
  rewrite <- (firstn_skipn (Z.to_nat o) rows). apply in_or_app. now right.
Qed.

Lemma strongly_sorted_skipn {A : Type} (R : A -> A -> Prop) (n : nat)
      (l : list A) :
  StronglySorted R l -> StronglySorted R (skipn n l).
Proof.
  revert l. induction n as [|n IH]; intros l H; [assumption|].
  destruct l as [|x l]; [assumption|]. simpl. apply IH.
  now inversion H.
Qed.

Lemma strongly_sorted_firstn {A : Type} (R : A -> A -> Prop) (n : nat)
      (l : list A) :
  StronglySorted R l -> StronglySorted R (firstn n l).
Proof.
  revert l. induction n as [|n IH]; intros l H; [constructor|].
  destruct l as [|x l]; [constructor|]. simpl.
  inversion H as [|? ? Hs Hf]; subst. constructor; [now apply IH|].
  rewrite Forall_forall in *. intros y Hy. apply Hf.
  rewrite <- (firstn_skipn n l). apply in_or_app. now left.
Qed.

Lemma strongly_sorted_limit_offset {A : Type} (R : A -> A -> Prop)
      (l o : Z) (rows : list A) :
  StronglySorted R rows -> StronglySorted R (Sqlite.limit_offset l o rows).
Proof.
  intros H. unfold Sqlite.limit_offset.
  destruct (l <? 0)%Z; [|apply strongly_sorted_firstn];
    now apply strongly_sorted_skipn.
Qed.

Lemma strongly_sorted_map {A B : Type} (R : A -> A -> Prop)
      (R' : B -> B -> Prop) (f : A -> B) (l : list A) :
  (forall a b, R a b -> R' (f a) (f b)) ->
  StronglySorted R l -> StronglySorted R' (map f l).
Proof.
  intros Hf. induction 1 as [|x l Hs IH Hx]; simpl; constructor; auto.
  rewrite Forall_forall in *. intros y Hy.
  apply in_map_iff in Hy as (a & <- & Ha). auto.
Qed.

(** What [Query] lets through. *)
Lemma Query_limit (limit : option Z) :
  Main.Query 50 1 (Some 100%Z) limit
  = if ((1 <=? Spec.limit_of limit) && (Spec.limit_of limit <=? 100))%Z
    then inr (Spec.limit_of limit)
    else inl (if (Spec.limit_of limit <? 1)%Z
              then Main.NotGe 1 else Main.NotLe 100).
Proof.
  destruct limit as [l|]; [|reflexivity]. unfold Main.Query, Spec.limit_of.
  destruct (Z.ltb_spec l 1), (Z.leb_spec 1 l), (Z.ltb_spec 100 l),
    (Z.leb_spec l 100); simpl; try reflexivity; lia.
Qed.

Lemma Query_offset (offset : option Z) :
  Main.Query 0 0 None offset
  = if (0 <=? Spec.offset_of offset)%Z
    then inr (Spec.offset_of offset) else inl (Main.NotGe 0).
Proof.
  destruct offset as [o|]; [|reflexivity]. unfold Main.Query, Spec.offset_of.
  destruct (Z.ltb_spec o 0), (Z.leb_spec 0 o); simpl; try reflexivity; lia.
Qed.

(** The ways a request can end. *)
Lemma get_messages_cases (db : Storage.table) (limit offset : option Z)
      (from_ since q : option Py.str) :
  let l := Spec.limit_of limit in
  let o := Spec.offset_of offset in
  Main.get_messages db limit offset from_ since q
  = if ((1 <=? l) && (l <=? 100))%Z then
      if (0 <=? o)%Z then
        if existsb (Main.where_raises (Main.conditions_of from_ since q)) db
        then Main.Uncaught Py.OperationalError
        else if (o <? 2 ^ 63)%Z
             then Main.OK (Spec.page db limit offset from_ since q)
             else Main.Uncaught Py.OverflowError
      else Main.HTTPException 422 (Main.Errors [("offset", Main.NotGe 0)])
    else
      Main.HTTPException 422
        (Main.Errors
           (("limit", if (l <? 1)%Z then Main.NotGe 1 else Main.NotLe 100)
            :: if (0 <=? o)%Z then [] else [("offset", Main.NotGe 0)])).
Proof.
  intros l o. unfold Main.get_messages.
  rewrite Query_limit, Query_offset. fold l o.
  destruct ((1 <=? l) && (l <=? 100))%Z eqn:El;
    destruct (Z.leb_spec 0 o) as [Ho|Ho]; try reflexivity.
  apply andb_true_iff in El as [E1 E2].
  apply Z.leb_le in E1, E2. unfold Sqlite.bind_int.
  destruct (existsb _ db); [reflexivity|].
  destruct (Z.leb_spec (- 2 ^ 63) l), (Z.ltb_spec l (2 ^ 63)); try lia.
  destruct (Z.leb_spec (- 2 ^ 63) o), (Z.ltb_spec o (2 ^ 63)); try lia;
    reflexivity.
Qed.

(** Without a LIKE term the WHERE clause cannot raise. *)
Lemma where_raises_none (conditions : list Main.condition) (db : Storage.table) :
  (forall c, In c conditions -> Main.raises c = false) ->
  existsb (Main.where_raises conditions) db = false.
Proof.
  intros Hc.
  assert (H : forall r, Main.where_raises conditions r = false).
  { intros r. induction conditions as [|c rest IH]; [reflexivity|].
    cbn [Main.where_raises]. rewrite (Hc c (or_introl eq_refl)).
    rewrite IH by (intros c' Hin; apply Hc; now right).
    apply andb_false_r. }
  induction db as [|r db IH]; [reflexivity|]. cbn [existsb]. now rewrite H, IH.
Qed.

Lemma when_truthy_raises (v : option Py.str) (c : Py.str -> Main.condition) :
  (forall s, Main.raises (c s) = false) ->
  forall x, In x (Main.when_truthy v c) -> Main.raises x = false.
Proof.
  intros Hc x. unfold Main.when_truthy. destruct v as [s|]; [|contradiction].
  destruct (Py.truthy s); [|contradiction]. intros [<-|[]]. apply Hc.
Qed.

(** The request raises in the WHERE clause only for a [q] whose pattern
    is beyond the limit. *)
Lemma where_raises_q (db : Storage.table) (from_ since q : option Py.str) :
  existsb (Main.where_raises (Main.conditions_of from_ since q)) db = true ->
  exists s, q = Some s /\ s <> ""
            /\ Sqlite.too_complex ("%" ++ s ++ "%") = true.
Proof.
  intros H. destruct q as [s|].
  - destruct (Py.truthy s) eqn:Et.
    + destruct (Sqlite.too_complex ("%" ++ s ++ "%")) eqn:Ec.
      * exists s. split; [reflexivity|]. split; [|exact Ec].
        unfold Py.truthy in Et. apply negb_true_iff in Et.
        now apply String.eqb_neq.
      * rewrite where_raises_none in H; [discriminate|].
        intros c Hin. unfold Main.conditions_of in Hin.
        rewrite !in_app_iff in Hin. destruct Hin as [Hin|[Hin|Hin]].
        -- now apply (when_truthy_raises from_ Main.From_eq).
        -- now apply (when_truthy_raises since Main.Ts_ge).
        -- cbn [Main.when_truthy] in Hin. rewrite Et in Hin.
           destruct Hin as [<-|[]]. exact Ec.
    + rewrite where_raises_none in H; [discriminate|].
      intros c Hin. unfold Main.conditions_of in Hin.
      rewrite !in_app_iff in Hin. destruct Hin as [Hin|[Hin|Hin]].
      * now apply (when_truthy_raises from_ Main.From_eq).
      * now apply (when_truthy_raises since Main.Ts_ge).
      * cbn [Main.when_truthy] in Hin. rewrite Et in Hin. contradiction.
  - rewrite where_raises_none in H; [discriminate|].
    intros c Hin. unfold Main.conditions_of in Hin.
    rewrite !in_app_iff in Hin. destruct Hin as [Hin|[Hin|Hin]].
    + now apply (when_truthy_raises from_ Main.From_eq).
    + now apply (when_truthy_raises since Main.Ts_ge).
    + contradiction.
Qed.

Lemma get_messages_page (db : Storage.table) (limit offset : option Z)
      (from_ since q : option Py.str) :
  Spec.page_ok limit offset ->
  existsb (Main.where_raises (Main.conditions_of from_ since q)) db = false ->
  Main.get_messages db limit offset from_ since q
  = Main.OK (Spec.page db limit offset from_ since q).
Proof.
  intros [[H1 H2] [H3 H4]] Hr. rewrite get_messages_cases. cbv zeta.
  apply Z.leb_le in H1, H2, H3. apply Z.ltb_lt in H4.
  now rewrite H1, H2, H3, H4, Hr.
Qed.

Lemma get_messages_OK (db : Storage.table) (limit offset : option Z)
      (from_ since q : option Py.str) (content : Main.MessagesBody) :
  Main.get_messages db limit offset from_ since q = Main.OK content ->
  Spec.page_ok limit offset
  /\ content = Spec.page db limit offset from_ since q.
Proof.
  rewrite get_messages_cases. cbv zeta. unfold Spec.page_ok.
  destruct (existsb _ db),
    (Z.leb_spec 1 (Spec.limit_of limit)),
    (Z.leb_spec (Spec.limit_of limit) 100),
    (Z.leb_spec 0 (Spec.offset_of offset)),
    (Z.ltb_spec (Spec.offset_of offset) (2 ^ 63)); simpl; try discriminate.
  intros [= <-]. repeat split; assumption.
Qed.

Lemma truthy_spec (s : Py.str) : Py.truthy s = true <-> s <> "".
Proof. unfold Py.truthy. rewrite negb_true_iff. apply String.eqb_neq. Qed.

(** A filter adds its condition exactly when it is given and not
    empty. *)
Lemma when_truthy_given (v : option Py.str) (c : Py.str -> Main.condition)
      (r : Storage.row) :
  forallb (fun c => Main.holds c r) (Main.when_truthy v c) = true
  <-> Spec.given v (fun s => Main.holds (c s) r = true).
Proof.
  unfold Spec.given, Main.when_truthy. destruct v as [s|].
  - destruct (Py.truthy s) eqn:E; simpl.
    + rewrite andb_true_r. split.
      * now intros H ? [= <-] _.
      * intros H. apply H; [reflexivity | now apply truthy_spec].
    + split; [|reflexivity]. intros _ ? [= <-] Hne.
      apply truthy_spec in Hne. congruence.
  - simpl. split; [discriminate | reflexivity].
Qed.

Lemma text_le_spec (a b : string) :
  Sqlite.text_le a b = true <-> Spec.str_le a b.
Proof.
  unfold Sqlite.text_le, String.leb, Spec.str_le.
  destruct (a ?= b)%string; split; congruence.
Qed.

(** The WHERE clause the handler builds selects the rows the three
    filters describe. *)
Lemma where_satisfies (from_ since q : option Py.str) (r : Storage.row) :
  Spec.given q (fun s => Spec.literal s = true) ->
  Main.where_ (Main.conditions_of from_ since q) r = true
  <-> Spec.satisfies from_ since q r.
Proof.
  intros Hq. unfold Main.where_, Main.conditions_of, Spec.satisfies.
  rewrite !forallb_app, !andb_true_iff, !when_truthy_given.
  unfold Spec.given. cbn [Main.holds].
  split; intros (H1 & H2 & H3); (split; [|split]); intros s Hs Hne.
  - now apply String.eqb_eq, H1.
  - now apply text_le_spec, H2.
  - specialize (H3 s Hs Hne). destruct (Storage.text r) as [t|]; [|discriminate].
    exists t. split; [reflexivity|]. apply like_literal; auto.
  - now apply String.eqb_eq, H1.
  - now apply text_le_spec, H2.
  - destruct (H3 s Hs Hne) as (t & -> & H). apply like_literal; auto.
Qed.

(** The same for any [q], as the pattern it is handed to LIKE as. *)
Lemma where_selects (from_ since q : option Py.str) (r : Storage.row) :
  Main.where_ (Main.conditions_of from_ since q) r = true
  <-> Spec.selects from_ since q r.
Proof.
  unfold Main.where_, Main.conditions_of, Spec.selects.
  rewrite !forallb_app, !andb_true_iff, !when_truthy_given.
  unfold Spec.given. cbn [Main.holds].
  split; intros (H1 & H2 & H3); (split; [|split]); intros s Hs Hne.
  - now apply String.eqb_eq, H1.
  - now apply text_le_spec, H2.
  - now apply like_spec, H3.
  - now apply String.eqb_eq, H1.
  - now apply text_le_spec, H2.
  - now apply like_spec, H3.
Qed.

(** For a [q] without a percent sign, an underscore or a NUL the
    pattern asks for an occurrence of [q]. *)
Lemma selects_satisfies (from_ since q : option Py.str) (r : Storage.row) :
  Spec.given q (fun s => Spec.literal s = true) ->
  Spec.selects from_ since q r <-> Spec.satisfies from_ since q r.
Proof.
  intros Hq. rewrite <- where_selects. now apply where_satisfies.
Qed.

End MessagesFacts.

Section SubstringFacts.

Lemma prefix_append (q b : string) : String.prefix q (q ++ b) = true.
Proof.
  induction q as [|c q IH]; simpl; [now destruct b|].
  destruct (ascii_dec c c); [assumption | congruence].
Qed.

Lemma substring_of_occurs (q t : string) :
  Spec.substring_of q t -> Spec.occurs q t = true.
Proof.
  intros (a & b & ->). induction a as [|c a IH]; simpl.
  - pose proof (prefix_append q b) as H.
    destruct (q ++ b)%string; cbn [Spec.occurs]; now rewrite H.
  - rewrite IH. apply orb_true_r.
Qed.

End SubstringFacts.

(** ** The claims on [GET /messages] *)

(** C3 (amended).  In every answered request the filters that are given
    and not empty are applied together: [from] as equality with the
    sender, [since] as an inclusive lexicographic lower bound on [ts],
    and [q] as the LIKE pattern percent, [q], percent on a text that is
    not null, pattern and text read up to their first NUL.  When [q]
    holds none of [%], [_] and NUL, that is the occurrence of [q] in the
    text without regard to the case of ASCII letters.  Every entry of
    [data] is a stored row that the filters select, and [total] counts
    the stored rows they select. *)
Theorem C3_filters_conjunctive
        (db : Storage.table) (limit offset : option Z)
        (from_ since q : option Py.str) (content : Main.MessagesBody) :
  Main.get_messages db limit offset from_ since q = Main.OK content ->
  exists matches : Storage.row -> bool,
    (forall r, matches r = true <-> Spec.selects from_ since q r)
    /\ (Spec.given q (fun s => Spec.literal s = true) ->
        forall r, matches r = true <-> Spec.satisfies from_ since q r)
    /\ (forall m, In m (Main.data content) ->
                  exists r, In r db /\ matches r = true /\ m = Main.row_dict r)
    /\ Main.total content = Z.of_nat (List.length (filter matches db)).
Proof.
  intros H. apply get_messages_OK in H as [_ ->].
  exists (Main.where_ (Main.conditions_of from_ since q)).
  split; [|split; [|split]].
  - intros r. apply where_selects.
  - intros Hq r. now apply where_satisfies.
  - intros m Hm. cbn [Spec.page Main.data] in Hm.
    apply in_map_iff in Hm as (r & <- & Hr).
    apply in_limit_offset in Hr.
    apply (Permutation_in _ (Permutation_sym (sort_perm _ _))) in Hr.
    apply filter_In in Hr as [Hr Hw]. now exists r.
  - reflexivity.
Qed.

(** The sender of [m1], from new year on, with "HELLO" in the text. *)
Lemma C3_scenario_three_filters :
  Main.get_messages Scenario.inbox None None (Some "+15551230000")
                    (Some "2024-01-01") (Some "HELLO")
  = Scenario.answer [Scenario.row_m3] 1 50 0
  /\ Spec.given (Some "HELLO") (fun s => Spec.literal s = true)
  /\ exists matches : Storage.row -> bool,
      (forall r, matches r = true
                 <-> Spec.selects (Some "+15551230000") (Some "2024-01-01")
                                  (Some "HELLO") r)
      /\ (Spec.given (Some "HELLO") (fun s => Spec.literal s = true) ->
          forall r, matches r = true
                    <-> Spec.satisfies (Some "+15551230000")
                                       (Some "2024-01-01") (Some "HELLO") r)
      /\ (forall m, In m (map Main.row_dict [Scenario.row_m3]) ->
                    exists r, In r Scenario.inbox /\ matches r = true
                              /\ m = Main.row_dict r)
      /\ 1%Z = Z.of_nat (List.length (filter matches Scenario.inbox)).
Proof.
  assert (Hq : Spec.given (Some "HELLO") (fun s => Spec.literal s = true))
    by (intros s [= <-] _; reflexivity).
  assert (H : Main.get_messages Scenario.inbox None None (Some "+15551230000")
                                (Some "2024-01-01") (Some "HELLO")
              = Scenario.answer [Scenario.row_m3] 1 50 0) by reflexivity.
  split; [exact H|]. split; [exact Hq|].
  exact (C3_filters_conjunctive Scenario.inbox None None (Some "+15551230000")
           (Some "2024-01-01") (Some "HELLO") _ H).
Defined.

(** C3 as stated fails: [q] is matched by LIKE, not as a substring.
    "HI" and the pattern "h_" both return the message whose text is
    "hi"; a NUL ends the pattern, so "i", NUL, "x" returns it too; "b"
    does not find the text "a", NUL, "b", which holds it; and an empty
    [from] returns messages whose sender is not the empty string. *)
Lemma C3_like_is_not_substring :
  (Main.get_messages Scenario.inbox None None None None (Some "HI")
   = Scenario.answer [Scenario.row_m1] 1 50 0
   /\ ~ Spec.substring_of "HI" "hi")
  /\ (Main.get_messages Scenario.inbox None None None None (Some "h_")
      = Scenario.answer [Scenario.row_m1; Scenario.row_m3] 2 50 0
      /\ ~ Spec.substring_of "h_" "hi")
  /\ (Main.get_messages Scenario.inbox None None None None
                        (Some (String "i" (String zero "x")))
      = Scenario.answer [Scenario.row_m1] 1 50 0
      /\ ~ Spec.substring_of (String "i" (String zero "x")) "hi")
  /\ (Main.get_messages Scenario.inbox None None None None (Some "b")
      = Scenario.answer [] 0 50 0
      /\ Spec.substring_of "b" (String "a" (String zero "b")))
  /\ (Main.get_messages Scenario.inbox None None (Some "") None None
      = Scenario.answer [Scenario.row_m1; Scenario.row_m2; Scenario.row_m3;
                         Scenario.row_m4] 4 50 0
      /\ Storage.from_msisdn Scenario.row_m1 <> "").
Proof.
  repeat split; try reflexivity;
    try (intros H; apply substring_of_occurs in H; discriminate H).
  - now exists (String "a" (String zero "")), "".
  - discriminate.
Qed.

(** C4.  In every answered request [data] is in ascending order of the
    pair (ts, message_id); [total] is the number of stored rows that the
    filters select, [from] by equality, [since] as a lower bound on [ts]
    and [q] as a LIKE pattern; and every other answered request with the
    same filters, whatever its [limit] and [offset], reports the same
    [total]. *)
Theorem C4_sorted_and_total_independent_of_page
        (db : Storage.table) (limit offset : option Z)
        (from_ since q : option Py.str) (content : Main.MessagesBody) :
  Main.get_messages db limit offset from_ since q = Main.OK content ->
  StronglySorted Spec.ts_id_le (Main.data content)
  /\ (exists matches : Storage.row -> bool,
         (forall r, matches r = true <-> Spec.selects from_ since q r)
         /\ Main.total content = Z.of_nat (List.length (filter matches db)))
  /\ forall (limit' offset' : option Z) (content' : Main.MessagesBody),
      Main.get_messages db limit' offset' from_ since q = Main.OK content' ->
      Main.total content' = Main.total content.
Proof.
  intros H. apply get_messages_OK in H as [_ ->]. split; [|split].
  - cbn [Spec.page Main.data].
    apply (strongly_sorted_map (Sqlite.le_of Main.by_ts_message_id)).
    + exact by_ts_message_id_le.
    + apply strongly_sorted_limit_offset,
        (sorted_strongly _ by_ts_message_id_trans),
        (sort_sorted _ by_ts_message_id_total).
  - exists (Main.where_ (Main.conditions_of from_ since q)).
    split; [intros r; apply where_selects | reflexivity].
  - intros limit' offset' content' H'.
    now apply get_messages_OK in H' as [_ ->].
Qed.

(** The second page, of one message, of what the sender of [m1] wrote
    from new year on with an "h" in it: [m1] and [m3], not [m4], whose
    text has none, nor [m2], of another sender and without text. *)
Lemma C4_scenario_second_page :
  Main.get_messages Scenario.inbox (Some 1%Z) (Some 1%Z) (Some "+15551230000")
                    (Some "2024-01-01") (Some "h")
  = Scenario.answer [Scenario.row_m3] 2 1 1
  /\ Main.get_messages Scenario.inbox (Some 1%Z) (Some 0%Z)
                       (Some "+15551230000") (Some "2024-01-01") (Some "h")
     = Scenario.answer [Scenario.row_m1] 2 1 0
  /\ StronglySorted Spec.ts_id_le (map Main.row_dict [Scenario.row_m3])
  /\ (exists matches : Storage.row -> bool,
         (forall r, matches r = true
                    <-> Spec.selects (Some "+15551230000") (Some "2024-01-01")
                                     (Some "h") r)
         /\ 2%Z = Z.of_nat (List.length (filter matches Scenario.inbox)))
  /\ forall (limit' offset' : option Z) (content' : Main.MessagesBody),
      Main.get_messages Scenario.inbox limit' offset' (Some "+15551230000")
                        (Some "2024-01-01") (Some "h") = Main.OK content' ->
      Main.total content' = 2%Z.
Proof.
  assert (H : Main.get_messages Scenario.inbox (Some 1%Z) (Some 1%Z)
                                (Some "+15551230000") (Some "2024-01-01")
                                (Some "h")
              = Scenario.answer [Scenario.row_m3] 2 1 1) by reflexivity.
  split; [exact H|]. split; [reflexivity|].
  exact (C4_sorted_and_total_independent_of_page Scenario.inbox (Some 1%Z)
           (Some 1%Z) (Some "+15551230000") (Some "2024-01-01") (Some "h")
           _ H).
Defined.

Section PageFacts.

(** A limit outside [1, 100] or a negative offset is refused with 422;
    no other value is put in its place. *)
Lemma get_messages_out_of_range (db : Storage.table) (limit offset : option Z)
      (from_ since q : option Py.str) :
  (Spec.limit_of limit < 1 \/ 100 < Spec.limit_of limit
   \/ Spec.offset_of offset < 0)%Z ->
  exists e,
    e <> []
    /\ Main.get_messages db limit offset from_ since q
       = Main.HTTPException 422 (Main.Errors e).
Proof.
  intros H. rewrite get_messages_cases. cbv zeta.
  destruct (Z.leb_spec 1 (Spec.limit_of limit)),
    (Z.leb_spec (Spec.limit_of limit) 100),
    (Z.leb_spec 0 (Spec.offset_of offset)); simpl; try lia;
    eexists; (split; [|reflexivity]); discriminate.
Qed.

(** Within the bounds, with an offset SQLite can hold and no pattern
    it refuses, the answer repeats [limit] and [offset] as they were
    given. *)
Lemma get_messages_echo (db : Storage.table) (limit offset : option Z)
      (from_ since q : option Py.str) :
  Spec.page_ok limit offset ->
  existsb (Main.where_raises (Main.conditions_of from_ since q)) db = false ->
  exists content,
    Main.get_messages db limit offset from_ since q = Main.OK content
    /\ Main.limit content = Spec.limit_of limit
    /\ Main.offset content = Spec.offset_of offset.
Proof.
  intros H Hr. eexists. split; [now apply get_messages_page|]. now split.
Qed.

Lemma filter_all {A : Type} (l : list A) : filter (fun _ => true) l = l.
Proof. induction l as [|x l IH]; simpl; congruence. Qed.

End PageFacts.

(** C9.  [limit=50&offset=9223372036854775808] is within the bounds the
    handler declares, yet the answer does not repeat them: binding the
    offset to the data query overflows SQLite's 64-bit integer, the
    [OverflowError] is not caught, and the client gets 500. *)
Example C9_offset_beyond_int64_is_500 :
  let answer := Main.get_messages Scenario.inbox (Some 50%Z)
                                  (Some 9223372036854775808%Z) None None None in
  (1 <= 50 <= 100)%Z /\ (0 <= 9223372036854775808)%Z
  /\ answer = Main.Uncaught Py.OverflowError
  /\ Main.status_code answer = 500%Z.
Proof. cbv zeta. repeat split; try lia; reflexivity. Qed.

(** C10.  A filter given as the empty string is the same request as one
    without that filter; so [from=] alone, with the default page, returns
    the first 50 of all messages in order and counts them all. *)
Theorem C10_empty_filter_is_absent
        (db : Storage.table) (limit offset : option Z)
        (from_ since q : option Py.str) :
  Main.get_messages db limit offset (Some "") since q
  = Main.get_messages db limit offset None since q
  /\ Main.get_messages db limit offset from_ (Some "") q
     = Main.get_messages db limit offset from_ None q
  /\ Main.get_messages db limit offset from_ since (Some "")
     = Main.get_messages db limit offset from_ since None
  /\ Main.get_messages db None None (Some "") None None
     = Main.OK {| Main.data :=
                    map Main.row_dict
                        (firstn 50 (Sqlite.sort Main.by_ts_message_id db));
                  Main.total := Z.of_nat (List.length db);
                  Main.limit := 50; Main.offset := 0 |}.
Proof.
  split; [|split; [|split]].
  - reflexivity.
  - unfold Main.get_messages, Main.conditions_of, Main.when_truthy.
    destruct from_ as [s|]; [destruct (Py.truthy s)|]; reflexivity.
  - unfold Main.get_messages, Main.conditions_of, Main.when_truthy.
    destruct from_ as [s|]; [destruct (Py.truthy s)|];
      (destruct since as [s'|]; [destruct (Py.truthy s')|]); reflexivity.
  - rewrite get_messages_page;
      [|unfold Spec.page_ok; simpl; lia
       |apply where_raises_none; intros c []].
    unfold Spec.page. cbn [Main.conditions_of Main.when_truthy Py.truthy].
    change (Main.where_ _) with (fun _ : Storage.row => true).
    now rewrite filter_all.
Qed.

(** ** [GET /stats] *)

Section StatsFacts.

Lemma by_count_desc_total (a b : Py.str * Z) :
  Main.by_count_desc a b = false -> Main.by_count_desc b a = true.
Proof. unfold Main.by_count_desc. lia. Qed.

Lemma by_count_desc_trans (a b c : Py.str * Z) :
  Main.by_count_desc a b = true -> Main.by_count_desc b c = true ->
  Main.by_count_desc a c = true.
Proof. unfold Main.by_count_desc. lia. Qed.

Lemma by_ts_asc_total (a b : Storage.row) :
  Main.by_ts_asc a b = false -> Main.by_ts_asc b a = true.
Proof. apply text_le_total. Qed.

Lemma by_ts_asc_trans (a b c : Storage.row) :
  Main.by_ts_asc a b = true -> Main.by_ts_asc b c = true ->
  Main.by_ts_asc a c = true.
Proof. apply text_le_trans. Qed.

Lemma by_ts_desc_total (a b : Storage.row) :
  Main.by_ts_desc a b = false -> Main.by_ts_desc b a = true.
Proof. apply text_le_total. Qed.

Lemma by_ts_desc_trans (a b c : Storage.row) :
  Main.by_ts_desc a b = true -> Main.by_ts_desc b c = true ->
  Main.by_ts_desc a c = true.
Proof. unfold Main.by_ts_desc. intros H1 H2. eapply text_le_trans; eauto. Qed.

(** [GET /stats] always has an answer. *)
Lemma stats_run_admissible (db : Storage.table) :
  Main.stats db (Main.stats_run db).
Proof.
  unfold Main.stats, Main.stats_run. do 3 eexists. repeat split;
    try apply sort_perm; try apply sort_sorted;
    auto using by_count_desc_total, by_ts_asc_total, by_ts_desc_total.
  eapply Permutation_trans; apply sort_perm.
Qed.

Lemma count_from_spec (sender : Py.str) (db : Storage.table) :
  Main.count_from sender db = Z.of_nat (Spec.messages_of sender db).
Proof.
  unfold Main.count_from, Spec.messages_of, Sqlite.text_eq. f_equal.
  induction db as [|r db IH]; simpl; [reflexivity|].
  destruct (String.eqb_spec (Storage.from_msisdn r) sender),
    (string_dec (Storage.from_msisdn r) sender); simpl; congruence.
Qed.

(** The groups: one entry for each sender, with its number of
    messages. *)
Lemma group_by_sender_spec (db : Storage.table) :
  NoDup (map fst (Main.group_by_sender db))
  /\ forall s c, In (s, c) (Main.group_by_sender db) ->
                 c = Z.of_nat (Spec.messages_of s db)
                 /\ (0 < Spec.messages_of s db)%nat.
Proof.
  unfold Main.group_by_sender, Main.senders. split.
  - rewrite map_map. cbn [fst]. rewrite map_id. apply NoDup_nodup.
  - intros s c H. apply in_map_iff in H as (s' & [= <- <-] & Hs).
    split; [apply count_from_spec|].
    apply nodup_In in Hs. now apply count_occ_In.
Qed.

Lemma limit_offset_first {A : Type} (n : Z) (rows : list A) :
  (0 <= n)%Z -> Sqlite.limit_offset n 0 rows = firstn (Z.to_nat n) rows.
Proof.
  intros H. unfold Sqlite.limit_offset. simpl.
  destruct (Z.ltb_spec n 0); [lia | reflexivity].
Qed.

(** The first row of an ordering is below all rows. *)
Lemma ordered_by_head {A : Type} (leb : A -> A -> bool)
      (rows out : list A) :
  (forall a, leb a a = true) ->
  (forall a b c, leb a b = true -> leb b c = true -> leb a c = true) ->
  Sqlite.ordered_by leb rows out ->
  match rows with
  | [] => out = []
  | _ :: _ => exists x rest, out = x :: rest /\ In x rows
                             /\ forall y, In y rows -> leb x y = true
  end.
Proof.
  intros Hrefl Htrans [P S]. destruct rows as [|r rows].
  - now apply Permutation_nil in P.
  - destruct out as [|x rest];
      [apply Permutation_sym, Permutation_nil in P; discriminate|].
    exists x, rest. split; [reflexivity|].
    split; [eapply Permutation_in; [exact (Permutation_sym P) | now left]|].
    intros y Hy. apply (Permutation_in _ P) in Hy.
    apply (sorted_strongly _ Htrans) in S.
    inversion S as [|? ? _ F]; subst. destruct Hy as [<-|Hy]; [apply Hrefl|].
    rewrite Forall_forall in F. now apply F.
Qed.

Lemma by_sender_desc_total (a b : Py.str * Z) :
  Main.by_sender_desc a b = false -> Main.by_sender_desc b a = true.
Proof. apply text_le_total. Qed.

Lemma by_sender_desc_trans (a b c : Py.str * Z) :
  Main.by_sender_desc a b = true -> Main.by_sender_desc b c = true ->
  Main.by_sender_desc a c = true.
Proof. unfold Main.by_sender_desc. intros H1 H2. eapply text_le_trans; eauto. Qed.

(** Below and not equal is strictly below. *)
Lemma text_le_lt (a b : string) :
  Sqlite.text_le a b = true -> a <> b -> Spec.str_lt a b.
Proof.
  unfold Sqlite.text_le, String.leb, Spec.str_lt.
  destruct (a ?= b)%string eqn:E; try discriminate; [|reflexivity].
  apply String.compare_eq_iff in E. congruence.
Qed.

Lemma str_lt_asym (a b : string) : Spec.str_lt a b -> Spec.str_lt b a -> False.
Proof.
  unfold Spec.str_lt. rewrite (String.compare_antisym a b). intros H1 H2.
  rewrite H2 in H1. discriminate H1.
Qed.

(** The ORDER BY keeps the order of arrival among equal counts: a group
    that arrives before groups of smaller sender is put in front of
    those of them that have its count. *)
Lemma insert_keeps_arrival (x : Py.str * Z) (l : list (Py.str * Z)) :
  (forall y, In y l -> Spec.str_lt (fst y) (fst x)) ->
  StronglySorted Spec.count_then_sender_desc l ->
  StronglySorted Spec.count_then_sender_desc
                 (Sqlite.insert Main.by_count_desc x l).
Proof.
  intros Hx S. induction S as [|y l S IH F].
  - repeat constructor.
  - cbn [Sqlite.insert]. unfold Main.by_count_desc at 1.
    rewrite Forall_forall in F.
    destruct (Z.leb_spec (snd y) (snd x)) as [Hle|Hlt].
    + constructor; [now constructor; [|apply Forall_forall]|].
      apply Forall_forall. intros z Hz.
      assert (Hzy : (snd z <= snd y)%Z).
      { destruct Hz as [<-|Hz]; [lia|].
        destruct (F z Hz) as [H|[H _]]; lia. }
      unfold Spec.count_then_sender_desc.
      destruct (Z.eq_dec (snd x) (snd z)) as [E|E]; [|left; lia].
      right. split; [exact E | now apply Hx].
    + constructor.
      * apply IH. intros z Hz. apply Hx. now right.
      * apply Forall_forall. intros z Hz.
        apply (Permutation_in _ (Permutation_sym (insert_perm _ x l))) in Hz.
        destruct Hz as [<-|Hz]; [now left | now apply F].
Qed.

Lemma sort_keeps_arrival (l : list (Py.str * Z)) :
  StronglySorted (fun a b => Spec.str_lt (fst b) (fst a)) l ->
  StronglySorted Spec.count_then_sender_desc (Sqlite.sort Main.by_count_desc l).
Proof.
  induction 1 as [|x l S IH F]; [constructor|].
  change (Sqlite.sort Main.by_count_desc (x :: l))
    with (Sqlite.insert Main.by_count_desc x (Sqlite.sort Main.by_count_desc l)).
  apply insert_keeps_arrival; [|exact IH].
  rewrite Forall_forall in F. intros y Hy. apply F.
  now apply (Permutation_in _ (Permutation_sym
                                 (sort_perm Main.by_count_desc l))).
Qed.

(** The groups as the GROUP BY hands them over: strictly descending in
    the sender. *)
Lemma groups_arrive_descending (db : Storage.table) :
  StronglySorted (fun a b => Spec.str_lt (fst b) (fst a))
                 (Sqlite.sort Main.by_sender_desc (Main.group_by_sender db)).
Proof.
  pose proof (sorted_strongly _ by_sender_desc_trans _
                (sort_sorted _ by_sender_desc_total (Main.group_by_sender db)))
    as S.
  assert (N : NoDup (map fst (Sqlite.sort Main.by_sender_desc
                                          (Main.group_by_sender db)))).
  { apply (Permutation_NoDup (Permutation_map fst (sort_perm _ _))).
    apply group_by_sender_spec. }
  revert S N. generalize (Sqlite.sort Main.by_sender_desc
                                      (Main.group_by_sender db)).
  induction 1 as [|x l S IH F]; intros N; [constructor|].
  cbn [map] in N. inversion N as [|? ? Hx N']; subst.
  constructor; [now apply IH|]. rewrite Forall_forall in *. intros y Hy.
  apply text_le_lt; [exact (F y Hy)|].
  intros E. apply Hx. apply in_map_iff. exists y. now split.
Qed.

(** The order of the list SQLite returns, before the LIMIT. *)
Lemma per_sender_in_order (db : Storage.table) :
  StronglySorted Spec.count_then_sender_desc
    (Sqlite.sort Main.by_count_desc
       (Sqlite.sort Main.by_sender_desc (Main.group_by_sender db))).
Proof. apply sort_keeps_arrival, groups_arrive_descending. Qed.

Lemma strongly_sorted_same {A : Type} (R : A -> A -> Prop) (l1 l2 : list A) :
  (forall a b, In a l1 -> In b l1 -> R a b -> R b a -> a = b) ->
  StronglySorted R l1 -> StronglySorted R l2 ->
  Permutation l1 l2 -> l1 = l2.
Proof.
  revert l2. induction l1 as [|x l1 IH]; intros l2 Hanti S1 S2 P.
  - now apply Permutation_nil in P.
  - destruct l2 as [|y l2];
      [apply Permutation_sym, Permutation_nil in P; discriminate|].
    inversion S1 as [|? ? S1' F1]; inversion S2 as [|? ? S2' F2]; subst.
    rewrite Forall_forall in F1, F2.
    assert (x = y) as ->.
    { assert (Hx : In x (y :: l2)) by (apply (Permutation_in _ P); now left).
      assert (Hy : In y (x :: l1))
        by (apply (Permutation_in _ (Permutation_sym P)); now left).
      destruct Hx as [->|Hx]; [reflexivity|].
      destruct Hy as [->|Hy]; [reflexivity|].
      apply Hanti; [now left | now right | now apply F1 | now apply F2]. }
    f_equal. apply IH; auto.
    + intros a b Ha Hb. apply Hanti; now right.
    + now apply Permutation_cons_inv in P.
Qed.

(** The groups do not depend on the order in which the rows were
    stored. *)
Lemma group_by_sender_perm (db db' : Storage.table) :
  Permutation db db' ->
  Permutation (Main.group_by_sender db) (Main.group_by_sender db').
Proof.
  intros P. unfold Main.group_by_sender.
  assert (Pm : Permutation (map Storage.from_msisdn db)
                           (map Storage.from_msisdn db'))
    by now apply Permutation_map.
  assert (E : map (fun sender => (sender, Main.count_from sender db))
                  (Main.senders db)
              = map (fun sender => (sender, Main.count_from sender db'))
                    (Main.senders db)).
  { apply map_ext. intros sender. f_equal. rewrite !count_from_spec. f_equal.
    unfold Spec.messages_of. now apply Permutation_count_occ. }
  rewrite E. apply Permutation_map. unfold Main.senders.
  apply NoDup_Permutation; try apply NoDup_nodup.
  intros sender. rewrite !nodup_In. split; apply Permutation_in;
    [exact Pm | exact (Permutation_sym Pm)].
Qed.

End StatsFacts.

(** C6.  [GET /stats] answers on every store, and SQLite's answer has
    in [messages_per_sender] at most 10 entries, in descending order of
    count and, among equal counts, in descending order of sender; no
    sender twice; each entry a sender of the store with the number of
    its stored messages.  The list is the same for the same rows stored
    in another order. *)
Theorem C6_messages_per_sender (db : Storage.table) :
  exists content,
    Main.stats_run db = Main.OK content
    /\ (List.length (Main.messages_per_sender content) <= 10)%nat
    /\ StronglySorted Spec.count_then_sender_desc
                      (Main.messages_per_sender content)
    /\ NoDup (map fst (Main.messages_per_sender content))
    /\ (forall sender count,
           In (sender, count) (Main.messages_per_sender content) ->
           count = Z.of_nat (Spec.messages_of sender db)
           /\ (0 < count)%Z)
    /\ forall db' content',
        Permutation db db' ->
        Main.stats_run db' = Main.OK content' ->
        Main.messages_per_sender content'
        = Main.messages_per_sender content.
Proof.
  eexists. split; [reflexivity|].
  cbn [Main.stats_body Main.messages_per_sender].
  rewrite limit_offset_first by lia. change (Z.to_nat 10) with 10%nat.
  set (per := Sqlite.sort Main.by_count_desc
                (Sqlite.sort Main.by_sender_desc (Main.group_by_sender db))).
  assert (P : Permutation (Main.group_by_sender db) per)
    by (eapply Permutation_trans; apply sort_perm).
  destruct (group_by_sender_spec db) as [Hnd Hcount].
  assert (Hndp : NoDup (map fst per))
    by exact (Permutation_NoDup (Permutation_map fst P) Hnd).
  split; [|split; [|split; [|split]]].
  - rewrite length_firstn. apply Nat.le_min_l.
  - apply strongly_sorted_firstn, per_sender_in_order.
  - rewrite <- (firstn_skipn 10 per), map_app in Hndp.
    now apply NoDup_app_remove_r in Hndp.
  - intros sender count H.
    assert (Hin : In (sender, count) (Main.group_by_sender db)).
    { apply (Permutation_in _ (Permutation_sym P)).
      rewrite <- (firstn_skipn 10 per). apply in_or_app. now left. }
    apply Hcount in Hin as [-> Hpos]. split; [reflexivity | lia].
  - intros db' content' Pdb [= <-].
    cbn [Main.stats_body Main.messages_per_sender].
    rewrite limit_offset_first by lia. change (Z.to_nat 10) with 10%nat.
    f_equal. symmetry. apply (strongly_sorted_same Spec.count_then_sender_desc).
    + intros a b Ha Hb Hab Hba.
      destruct Hab as [Hab|[Ec Hab]], Hba as [Hba|[Ec' Hba]]; try lia.
      destruct (str_lt_asym _ _ Hab Hba).
    + apply per_sender_in_order.
    + apply per_sender_in_order.
    + eapply Permutation_trans; [exact (Permutation_sym P)|].
      eapply Permutation_trans; [exact (group_by_sender_perm _ _ Pdb)|].
      eapply Permutation_trans; apply sort_perm.
Qed.

(** Three senders of one message each, stored in the order "+2", "+1",
    "+3" and in the order "+1", "+2", "+3": both times the answer lists
    them as "+3", "+2", "+1". *)
Lemma C6_scenario_three_senders :
  Main.stats_run Scenario.three_senders
  = Scenario.stats_answer [("+3", 1%Z); ("+2", 1%Z); ("+1", 1%Z)]
  /\ Main.stats_run [Scenario.from_sender "b" "+1"; Scenario.from_sender "a" "+2";
                     Scenario.from_sender "c" "+3"]
     = Scenario.stats_answer [("+3", 1%Z); ("+2", 1%Z); ("+1", 1%Z)]
  /\ exists content,
      Main.stats_run Scenario.three_senders = Main.OK content
      /\ (List.length (Main.messages_per_sender content) <= 10)%nat
      /\ StronglySorted Spec.count_then_sender_desc
                        (Main.messages_per_sender content)
      /\ NoDup (map fst (Main.messages_per_sender content))
      /\ (forall sender count,
             In (sender, count) (Main.messages_per_sender content) ->
             count = Z.of_nat (Spec.messages_of sender Scenario.three_senders)
             /\ (0 < count)%Z)
      /\ forall db' content',
          Permutation Scenario.three_senders db' ->
          Main.stats_run db' = Main.OK content' ->
          Main.messages_per_sender content'
          = Main.messages_per_sender content.
Proof.
  split; [reflexivity|]. split; [reflexivity|].
  exact (C6_messages_per_sender Scenario.three_senders).
Defined.

(** C7.  [GET /stats] always answers.  On an empty store both
    [first_message_ts] and [last_message_ts] are null; otherwise they are
    the least and the greatest stored [ts], and so the first is not above
    the last. *)
Theorem C7_first_and_last_ts (db : Storage.table) :
  (exists r, Main.stats db r)
  /\ forall r, Main.stats db r ->
       exists content,
         r = Main.OK content
         /\ match db with
            | [] => Main.first_message_ts content = None
                    /\ Main.last_message_ts content = None
            | _ :: _ =>
                exists lo hi,
                  Main.first_message_ts content = Some lo
                  /\ Main.last_message_ts content = Some hi
                  /\ In lo (map Storage.ts db) /\ In hi (map Storage.ts db)
                  /\ (forall t, In t (map Storage.ts db) ->
                                Spec.str_le lo t /\ Spec.str_le t hi)
                  /\ Spec.str_le lo hi
            end.
Proof.
  split; [exists (Main.stats_run db); apply stats_run_admissible|].
  intros r (per & earliest & latest & _ & He & Hl & ->).
  eexists. split; [reflexivity|].
  cbn [Main.stats_body Main.first_message_ts Main.last_message_ts].
  rewrite !limit_offset_first by lia. change (Z.to_nat 1) with 1%nat.
  apply (ordered_by_head Main.by_ts_asc _ _
           (fun a => text_le_refl (Storage.ts a)) by_ts_asc_trans) in He.
  apply (ordered_by_head Main.by_ts_desc _ _
           (fun a => text_le_refl (Storage.ts a)) by_ts_desc_trans) in Hl.
  destruct db as [|r0 db].
  - now subst earliest latest.
  - destruct He as (x & xs & -> & Hx & Hmin), Hl as (y & ys & -> & Hy & Hmax).
    exists (Storage.ts x), (Storage.ts y). cbn [firstn Main.fetchone_ts hd_error option_map].
    split; [reflexivity|]. split; [reflexivity|].
    split; [now apply in_map|]. split; [now apply in_map|].
    split.
    + intros t Ht. apply in_map_iff in Ht as (z & <- & Hz).
      split; apply text_le_spec; [apply (Hmin z Hz) | apply (Hmax z Hz)].
    + apply text_le_spec. apply (Hmin y Hy).
Qed.

(** The four messages of the scenario, from new year to the fourth. *)
Lemma C7_scenario_inbox :
  Main.stats Scenario.inbox (Main.stats_run Scenario.inbox)
  /\ exists content,
      Main.stats_run Scenario.inbox = Main.OK content
      /\ exists lo hi,
          Main.first_message_ts content = Some lo
          /\ Main.last_message_ts content = Some hi
          /\ In lo (map Storage.ts Scenario.inbox)
          /\ In hi (map Storage.ts Scenario.inbox)
          /\ (forall t, In t (map Storage.ts Scenario.inbox) ->
                        Spec.str_le lo t /\ Spec.str_le t hi)
          /\ Spec.str_le lo hi.
Proof.
  split; [apply stats_run_admissible|].
  exact (proj2 (C7_first_and_last_ts Scenario.inbox) _
               (stats_run_admissible Scenario.inbox)).
Defined.

(** * Further properties *)

(** ** Prefixes and suffixes *)

Section AffixFacts.

Lemma append_associative (a b c : string) :
  ((a ++ b) ++ c)%string = (a ++ b ++ c)%string.
Proof. induction a as [|x a IH]; simpl; congruence. Qed.

Lemma prefix_spec (a s : string) :
  String.prefix a s = true <-> exists b, s = (a ++ b)%string.
Proof.
  split.
  - revert s. induction a as [|x a IH]; intros s H.
    + now exists s.
    + destruct s as [|y s]; [discriminate|]. cbn [String.prefix] in H.
      destruct (ascii_dec x y) as [E|_]; [|discriminate]. subst y.
      destruct (IH s H) as (b & ->). now exists b.
  - intros (b & ->). apply prefix_append.
Qed.

Lemma rev_string_acc (acc s : string) :
  Py.rev_string acc s = (Py.rev_string "" s ++ acc)%string.
Proof.
  revert acc. induction s as [|c s IH]; intros acc; [reflexivity|].
  cbn [Py.rev_string]. rewrite (IH (String c acc)), (IH (String c "")).
  now rewrite append_associative.
Qed.

Lemma rev_string_append (a b : string) :
  Py.rev_string "" (a ++ b)
  = (Py.rev_string "" b ++ Py.rev_string "" a)%string.
Proof.
  induction a as [|c a IH]; cbn [String.append Py.rev_string].
  - now rewrite append_empty_r.
  - rewrite (rev_string_acc (String c "")), IH, append_associative.
    now rewrite <- (rev_string_acc (String c "") a).
Qed.

Lemma rev_string_involutive (s : string) :
  Py.rev_string "" (Py.rev_string "" s) = s.
Proof.
  induction s as [|c s IH]; [reflexivity|]. cbn [Py.rev_string].
  rewrite (rev_string_acc (String c "") s), rev_string_append, IH.
  reflexivity.
Qed.

(** [s.endswith(p)] says that [s] ends with [p]. *)
Lemma endswith_spec (s p : string) :
  Py.endswith s p = true <-> Spec.ends_with s p.
Proof.
  unfold Py.endswith, Spec.ends_with. rewrite prefix_spec. split.
  - intros (b & H). exists (Py.rev_string "" b).
    rewrite <- (rev_string_involutive s), H, rev_string_append.
    now rewrite rev_string_involutive.
  - intros (a & ->). exists (Py.rev_string "" a). apply rev_string_append.
Qed.

End AffixFacts.

(** ** The validators *)

Section ValidatorFacts.

Lemma id_not_empty_spec (v v' : Py.str) :
  Main.id_not_empty v = inr v' <-> v' = v /\ v <> "".
Proof.
  unfold Main.id_not_empty.
  destruct (Py.truthy v) eqn:E; cbn [negb].
  - apply truthy_spec in E. split; [intros [= <-]; auto | now intros [-> _]].
  - split; [discriminate|]. intros [_ H]. apply truthy_spec in H. congruence.
Qed.

Lemma validate_e164_spec (v v' : Py.str) :
  Main.validate_e164 v = inr v' <-> v' = v /\ Spec.plus_isdigit v.
Proof.
  split.
  - intros H. assert (v' = v) as ->.
    { revert H. unfold Main.validate_e164.
      destruct (negb _ || negb _); [discriminate | now intros [= <-]]. }
    split; [reflexivity | now apply validate_e164_accepts].
  - intros [-> H]. now apply validate_e164_accepts.
Qed.

Lemma validate_ts_spec (v v' : Py.str) :
  Main.validate_ts v = inr v' <-> v' = v /\ Spec.ends_with v "Z".
Proof.
  unfold Main.validate_ts. rewrite <- endswith_spec.
  destruct (Py.endswith v "Z"); cbn [negb].
  - split; [intros [= <-]; auto | now intros [-> _]].
  - split; [discriminate | now intros [_ H]].
Qed.

Lemma validate_text_spec (v v' : option Py.str) :
  Main.validate_text v = inr v' <-> v' = v /\ Spec.text_fits v.
Proof.
  unfold Main.validate_text, Spec.text_fits, Py.len.
  destruct v as [s|].
  - destruct (Z.ltb_spec 4096 (Z.of_nat (String.length s))).
    + split; [discriminate|]. intros [_ H']. lia.
    + split; [intros [= <-]; split; [reflexivity | lia] | now intros [-> _]].
  - split; [intros [= <-]; auto | now intros [-> _]].
Qed.

Lemma validated_inr {A : Type} (loc : Py.str) (validator : A -> Py.str + A)
      (x : Main.typed A) (v : A) :
  Main.validated loc validator x = inr v
  <-> exists v0, x = Main.Typed v0 /\ validator v0 = inr v.
Proof.
  unfold Main.validated. destruct x as [v0|msg].
  - destruct (validator v0) as [m|v1] eqn:E.
    + split; [discriminate|]. intros (v1 & [= <-] & H). congruence.
    + split.
      * intros [= <-]. now exists v0.
      * intros (v2 & [= <-] & H). congruence.
  - split; [discriminate|]. now intros (v0 & H & _).
Qed.

Lemma validated_cases {A : Type} (loc : Py.str) (validator : A -> Py.str + A)
      (x : Main.typed A) :
  (Spec.field_fails validator x
   /\ exists item, Main.validated loc validator x = inl [(loc, item)])
  \/ (~ Spec.field_fails validator x
      /\ exists v, Main.validated loc validator x = inr v).
Proof.
  unfold Main.validated, Spec.field_fails. destruct x as [v0|msg].
  - destruct (validator v0) as [m|v1] eqn:E.
    + left. split; [now exists m | now eexists].
    + right. split; [|now eexists]. intros (m & H). congruence.
  - left. split; [exact I | now eexists].
Qed.

Context {D : Main.Decoder}.

(** A body is accepted when it is an object and each of its five
    fields passes its validator. *)
Lemma parse_raw_inr (raw_body : Py.bytes) (P : Main.WebhookMessage) :
  Main.parse_raw raw_body = inr P
  <-> exists f,
      Main.decode raw_body = Main.Object f
      /\ Main.validated "message_id" Main.id_not_empty (Main.raw_message_id f)
         = inr (Main.message_id P)
      /\ Main.validated "from" Main.validate_e164 (Main.raw_from f)
         = inr (Main.from_ P)
      /\ Main.validated "to" Main.validate_e164 (Main.raw_to f)
         = inr (Main.to P)
      /\ Main.validated "ts" Main.validate_ts (Main.raw_ts f)
         = inr (Main.ts P)
      /\ Main.validated "text" Main.validate_text (Main.raw_text f)
         = inr (Main.text P).
Proof.
  unfold Main.parse_raw. destruct (Main.decode raw_body) as [msg|f].
  - split; [discriminate|]. now intros (f & H & _).
  - split.
    + intros H. exists f. split; [reflexivity|].
      destruct (Main.validated "message_id" _ _), (Main.validated "from" _ _),
        (Main.validated "to" _ _), (Main.validated "ts" _ _),
        (Main.validated "text" _ _); try discriminate.
      injection H as <-. now repeat split.
    + intros (f' & [= <-] & -> & -> & -> & -> & ->). now destruct P.
Qed.

(** What is accepted is well formed. *)
Lemma parse_raw_well_formed (raw_body : Py.bytes) (P : Main.WebhookMessage)
      (utcnow : Py.str) :
  Main.parse_raw raw_body = inr P -> Spec.well_formed (Spec.row_of P utcnow).
Proof.
  intros H. apply parse_raw_inr in H as (f & _ & H1 & H2 & H3 & H4 & H5).
  apply validated_inr in H1 as (v1 & _ & H1), H2 as (v2 & _ & H2),
    H3 as (v3 & _ & H3), H4 as (v4 & _ & H4), H5 as (v5 & _ & H5).
  apply id_not_empty_spec in H1 as [E1 H1].
  apply validate_e164_spec in H2 as [E2 H2], H3 as [E3 H3].
  apply validate_ts_spec in H4 as [E4 H4].
  apply validate_text_spec in H5 as [E5 H5].
  unfold Spec.well_formed, Spec.row_of. cbn.
  rewrite E1, E2, E3, E4, E5. repeat split; try assumption.
  now exists utcnow.
Qed.

Variables (cfg : Main.Config) (db : Storage.table) (utcnow : Py.str).

(** A request either appends the row of its payload and answers
    "created", or answers something else and leaves the store alone. *)
Lemma webhook_outcome (request : Main.Request) :
  (fst (Main.webhook cfg db utcnow request)
   = Main.OK {| Main.status := "ok"; Main.result := "created" |}
   /\ exists P,
       Main.X_Signature request
       = Some (Main.computed cfg (Main.body request))
       /\ Main.parse_raw (Main.body request) = inr P
       /\ Storage.has_id (Main.message_id P) db = false
       /\ snd (Main.webhook cfg db utcnow request)
          = (db ++ [Spec.row_of P utcnow])%list)
  \/ (fst (Main.webhook cfg db utcnow request)
      <> Main.OK {| Main.status := "ok"; Main.result := "created" |}
      /\ snd (Main.webhook cfg db utcnow request) = db).
Proof.
  unfold Main.webhook, Main.invalid_signature.
  destruct (Main.X_Signature request) as [signature|];
    [|right; split; [discriminate | reflexivity]].
  destruct (Py.truthy signature);
    [|right; split; [discriminate | reflexivity]]. cbn [negb].
  unfold Hmac.compare_digest.
  destruct (Py.isascii signature && Py.isascii _);
    [|right; split; [discriminate | reflexivity]].
  destruct (String.eqb_spec signature (Main.computed cfg (Main.body request)))
    as [->|_]; [|right; split; [discriminate | reflexivity]].
  destruct (Main.parse_raw (Main.body request)) as [e|P] eqn:EP;
    [right; split; [discriminate | reflexivity]|].
  unfold Storage.insert_message. cbn [Main.dict Storage.m_message_id].
  destruct (Storage.has_id (Main.message_id P) db) eqn:E.
  - right. split; [discriminate | reflexivity].
  - left. split; [reflexivity|]. exists P. now repeat split.
Qed.

End ValidatorFacts.

(** ** More on [POST /webhook] *)

Section RefusalFacts.

Context {D : Main.Decoder}.

(** The errors of a refused object: one entry for each failing field,
    none for a field that passes. *)
Lemma parse_raw_inl (raw_body : Py.bytes) (f : Main.raw_fields)
      (e : Main.ValidationError) :
  Main.decode raw_body = Main.Object f ->
  Main.parse_raw raw_body = inl e ->
  e <> [] /\ NoDup (map fst e)
  /\ forall loc,
      In loc (map fst e)
      <-> (loc = "message_id"
           /\ Spec.field_fails Main.id_not_empty (Main.raw_message_id f))
          \/ (loc = "from"
              /\ Spec.field_fails Main.validate_e164 (Main.raw_from f))
          \/ (loc = "to"
              /\ Spec.field_fails Main.validate_e164 (Main.raw_to f))
          \/ (loc = "ts"
              /\ Spec.field_fails Main.validate_ts (Main.raw_ts f))
          \/ (loc = "text"
              /\ Spec.field_fails Main.validate_text (Main.raw_text f)).
Proof.
  intros Hd He. unfold Main.parse_raw in He. rewrite Hd in He.
  destruct (validated_cases "message_id" Main.id_not_empty (Main.raw_message_id f))
    as [[F1 (i1 & E1)]|[F1 (v1 & E1)]];
    destruct (validated_cases "from" Main.validate_e164 (Main.raw_from f))
    as [[F2 (i2 & E2)]|[F2 (v2 & E2)]];
    destruct (validated_cases "to" Main.validate_e164 (Main.raw_to f))
    as [[F3 (i3 & E3)]|[F3 (v3 & E3)]];
    destruct (validated_cases "ts" Main.validate_ts (Main.raw_ts f))
    as [[F4 (i4 & E4)]|[F4 (v4 & E4)]];
    destruct (validated_cases "text" Main.validate_text (Main.raw_text f))
    as [[F5 (i5 & E5)]|[F5 (v5 & E5)]];
    rewrite E1, E2, E3, E4, E5 in He; cbn in He; try discriminate He;
    injection He as <-; cbn [map fst];
    (split; [discriminate|]);
    (split; [repeat constructor; cbn [In]; intuition discriminate|]);
    intros loc; cbn [In]; split;
    try (intros H; intuition (subst; auto 10));
    try (intros H; intuition (subst; auto 10; discriminate)).
Qed.

(** The answer to a request without the right signature. *)
Lemma webhook_unsigned_answer (cfg : Main.Config) (db : Storage.table)
      (utcnow : Py.str) (request : Main.Request) :
  Main.X_Signature request <> Some (Main.computed cfg (Main.body request)) ->
  Main.webhook cfg db utcnow request
  = (match Main.X_Signature request with
     | None => Main.HTTPException 401 (Main.Text "invalid signature")
     | Some signature =>
         if Py.isascii signature
         then Main.HTTPException 401 (Main.Text "invalid signature")
         else Main.Uncaught Py.TypeError
     end, db).
Proof.
  intros Hne. unfold Main.webhook, Main.invalid_signature.
  destruct (Main.X_Signature request) as [signature|]; [|reflexivity].
  destruct (Py.truthy signature) eqn:Et; cbn [negb].
  - unfold Hmac.compare_digest, Main.computed in *.
    rewrite hexdigest_ascii, andb_true_r.
    destruct (Py.isascii signature); [|reflexivity].
    destruct (String.eqb_spec signature
                (Hmac.hexdigest (Py.encode (Main.WEBHOOK_SECRET cfg))
                                (Main.body request))) as [E|_];
      [congruence | reflexivity].
  - apply negb_false_iff, String.eqb_eq in Et. now subst signature.
Qed.

End RefusalFacts.

(** X1.  A request that does not carry the hex HMAC-SHA256 of its body
    never changes the store.  It is answered 401 "invalid signature"
    when the header is missing or holds ASCII characters only (the empty
    string included), and ends in an uncaught [TypeError] otherwise. *)
Theorem X1_unsigned_request_is_turned_away
        (D : Main.Decoder) (cfg : Main.Config) (db : Storage.table)
        (utcnow : Py.str) (request : Main.Request) :
  Main.X_Signature request <> Some (Main.computed cfg (Main.body request)) ->
  Main.webhook cfg db utcnow request
  = (match Main.X_Signature request with
     | None => Main.HTTPException 401 (Main.Text "invalid signature")
     | Some signature =>
         if Py.isascii signature
         then Main.HTTPException 401 (Main.Text "invalid signature")
         else Main.Uncaught Py.TypeError
     end, db).
Proof. apply webhook_unsigned_answer. Qed.

(** The body of [m1] with a signature that is hex but not its own. *)
Lemma X1_scenario_wrong_signature :
  Main.X_Signature (Scenario.post Scenario.body_m1 (Some "deadbeef"))
  <> Some (Main.computed Scenario.cfg Scenario.body_m1)
  /\ @Main.webhook Scenario.flat_json Scenario.cfg [Scenario.row_m2] Scenario.t1
                   (Scenario.post Scenario.body_m1 (Some "deadbeef"))
     = (Main.HTTPException 401 (Main.Text "invalid signature"),
        [Scenario.row_m2]).
Proof.
  assert (Hb : ("deadbeef" =? Main.computed Scenario.cfg Scenario.body_m1)
               = false) by (vm_compute; reflexivity).
  apply String.eqb_neq in Hb.
  assert (H : Main.X_Signature (Scenario.post Scenario.body_m1 (Some "deadbeef"))
              <> Some (Main.computed Scenario.cfg Scenario.body_m1))
    by (intros E; apply Hb;
        exact (f_equal (fun o => match o with Some s => s | None => "" end) E)).
  split; [exact H|].
  exact (X1_unsigned_request_is_turned_away Scenario.flat_json Scenario.cfg
           [Scenario.row_m2] Scenario.t1
           (Scenario.post Scenario.body_m1 (Some "deadbeef")) H).
Defined.

(** X2.  The model accepts a body exactly when the body decodes to an
    object whose five fields have their types and [message_id] is not
    empty, [from] and [to] are a plus sign followed by one or more
    characters [str.isdigit] accepts, [ts] ends in "Z", and [text] is
    null or has at most 4096 characters; the payload then carries the
    five values as they were sent. *)
Theorem X2_accepted_payloads
        (D : Main.Decoder) (raw_body : Py.bytes) (P : Main.WebhookMessage) :
  Main.parse_raw raw_body = inr P
  <-> exists f,
      Main.decode raw_body = Main.Object f
      /\ (Main.raw_message_id f = Main.Typed (Main.message_id P)
          /\ Main.raw_from f = Main.Typed (Main.from_ P)
          /\ Main.raw_to f = Main.Typed (Main.to P)
          /\ Main.raw_ts f = Main.Typed (Main.ts P)
          /\ Main.raw_text f = Main.Typed (Main.text P))
      /\ Main.message_id P <> ""
      /\ Spec.plus_isdigit (Main.from_ P)
      /\ Spec.plus_isdigit (Main.to P)
      /\ Spec.ends_with (Main.ts P) "Z"
      /\ Spec.text_fits (Main.text P).
Proof.
  rewrite parse_raw_inr. split.
  - intros (f & Hd & H1 & H2 & H3 & H4 & H5). exists f.
    apply validated_inr in H1 as (v1 & R1 & H1), H2 as (v2 & R2 & H2),
      H3 as (v3 & R3 & H3), H4 as (v4 & R4 & H4), H5 as (v5 & R5 & H5).
    apply id_not_empty_spec in H1 as [E1 H1].
    apply validate_e164_spec in H2 as [E2 H2], H3 as [E3 H3].
    apply validate_ts_spec in H4 as [E4 H4].
    apply validate_text_spec in H5 as [E5 H5].
    rewrite E1, E2, E3, E4, E5, R1, R2, R3, R4, R5. now repeat split.
  - intros (f & Hd & (R1 & R2 & R3 & R4 & R5) & H1 & H2 & H3 & H4 & H5).
    exists f. split; [exact Hd|].
    repeat split; apply validated_inr; eexists; (split; [eassumption|]).
    + now apply id_not_empty_spec.
    + now apply validate_e164_spec.
    + now apply validate_e164_spec.
    + now apply validate_ts_spec.
    + now apply validate_text_spec.
Qed.

(** X3.  A signed request whose body is an object is either accepted
    or refused with 422 and the store left alone; the errors of the
    refusal are not empty and name exactly the fields that failed, each
    of them once. *)
Theorem X3_refusal_names_the_failing_fields
        (D : Main.Decoder) (cfg : Main.Config) (db : Storage.table)
        (utcnow : Py.str) (raw_body : Py.bytes) (f : Main.raw_fields) :
  Main.decode raw_body = Main.Object f ->
  (exists P, Main.parse_raw raw_body = inr P)
  \/ exists e,
      Main.webhook cfg db utcnow
        {| Main.body := raw_body;
           Main.X_Signature := Some (Main.computed cfg raw_body) |}
      = (Main.HTTPException 422 (Main.Errors e), db)
      /\ e <> [] /\ NoDup (map fst e)
      /\ forall loc,
          In loc (map fst e)
          <-> (loc = "message_id"
               /\ Spec.field_fails Main.id_not_empty (Main.raw_message_id f))
              \/ (loc = "from"
                  /\ Spec.field_fails Main.validate_e164 (Main.raw_from f))
              \/ (loc = "to"
                  /\ Spec.field_fails Main.validate_e164 (Main.raw_to f))
              \/ (loc = "ts"
                  /\ Spec.field_fails Main.validate_ts (Main.raw_ts f))
              \/ (loc = "text"
                  /\ Spec.field_fails Main.validate_text (Main.raw_text f)).
Proof.
  intros Hd. destruct (Main.parse_raw raw_body) as [e|P] eqn:E.
  - right. exists e. rewrite webhook_signed, E.
    split; [reflexivity|]. now apply (parse_raw_inl raw_body f).
  - left. now exists P.
Qed.

(** A body without an id, with a sender that lacks its plus sign and a
    timestamp that lacks its Z: three errors, in the order of the
    fields. *)
Lemma X3_scenario_three_wrong :
  @Main.decode Scenario.flat_json Scenario.body_three_wrong
  = Main.Object Scenario.fields_three_wrong
  /\ @Main.webhook Scenario.flat_json Scenario.cfg [] Scenario.t1
                   (Scenario.signed Scenario.body_three_wrong)
     = (Main.HTTPException 422
          (Main.Errors [("message_id", Main.TypeFailure "field required");
                        ("from", Main.ValueError "must be E.164-like (+digits)");
                        ("ts", Main.ValueError "ts must end with Z")]), [])
  /\ ((exists P, @Main.parse_raw Scenario.flat_json Scenario.body_three_wrong
                 = inr P)
      \/ exists e,
          @Main.webhook Scenario.flat_json Scenario.cfg [] Scenario.t1
                        (Scenario.signed Scenario.body_three_wrong)
          = (Main.HTTPException 422 (Main.Errors e), [])
          /\ e <> [] /\ NoDup (map fst e)
          /\ forall loc,
              In loc (map fst e)
              <-> (loc = "message_id"
                   /\ Spec.field_fails Main.id_not_empty
                        (Main.raw_message_id Scenario.fields_three_wrong))
                  \/ (loc = "from"
                      /\ Spec.field_fails Main.validate_e164
                           (Main.raw_from Scenario.fields_three_wrong))
                  \/ (loc = "to"
                      /\ Spec.field_fails Main.validate_e164
                           (Main.raw_to Scenario.fields_three_wrong))
                  \/ (loc = "ts"
                      /\ Spec.field_fails Main.validate_ts
                           (Main.raw_ts Scenario.fields_three_wrong))
                  \/ (loc = "text"
                      /\ Spec.field_fails Main.validate_text
                           (Main.raw_text Scenario.fields_three_wrong))).
Proof.
  assert (Hd : @Main.decode Scenario.flat_json Scenario.body_three_wrong
               = Main.Object Scenario.fields_three_wrong)
    by (vm_compute; reflexivity).
  split; [exact Hd|]. split; [vm_compute; reflexivity|].
  exact (X3_refusal_names_the_failing_fields Scenario.flat_json Scenario.cfg []
           Scenario.t1 Scenario.body_three_wrong Scenario.fields_three_wrong Hd).
Defined.

(** X4.  Whatever the request, [POST /webhook] either answers
    "created", and then the request was signed, its payload valid, its
    id not stored before, and the store is the old one with the row of
    the payload added at the end; or it answers anything else and the
    store is the one it found. *)
Theorem X4_store_changes_only_by_a_created_row
        (D : Main.Decoder) (cfg : Main.Config) (db : Storage.table)
        (utcnow : Py.str) (request : Main.Request) :
  (fst (Main.webhook cfg db utcnow request)
   = Main.OK {| Main.status := "ok"; Main.result := "created" |}
   /\ exists P,
       Main.X_Signature request
       = Some (Main.computed cfg (Main.body request))
       /\ Main.parse_raw (Main.body request) = inr P
       /\ Storage.has_id (Main.message_id P) db = false
       /\ snd (Main.webhook cfg db utcnow request)
          = (db ++ [Spec.row_of P utcnow])%list)
  \/ (fst (Main.webhook cfg db utcnow request)
      <> Main.OK {| Main.status := "ok"; Main.result := "created" |}
      /\ snd (Main.webhook cfg db utcnow request) = db).
Proof. apply webhook_outcome. Qed.

(** X5.  Over any sequence of requests the store only grows at its
    end, by at most one row for each request.  The rows added have ids
    that differ from one another and from every id the store held, and
    each of them is well formed; so a store that had a primary key keeps
    it, and a store of well-formed rows remains one. *)
Theorem X5_deliveries_keep_the_store_sound
        (D : Main.Decoder) (cfg : Main.Config)
        (requests : list (Py.str * Main.Request)) (db : Storage.table) :
  exists added,
    Spec.deliveries cfg db requests = (db ++ added)%list
    /\ (List.length added <= List.length requests)%nat
    /\ NoDup (map Storage.message_id added)
    /\ (forall r, In r added ->
                  ~ In (Storage.message_id r) (map Storage.message_id db))
    /\ Forall Spec.well_formed added
    /\ (Spec.unique_ids db -> Spec.unique_ids (Spec.deliveries cfg db requests))
    /\ (Forall Spec.well_formed db ->
        Forall Spec.well_formed (Spec.deliveries cfg db requests)).
Proof.
  revert db. induction requests as [|[utcnow request] rest IH]; intros db.
  - cbn [Spec.deliveries]. exists []. rewrite app_nil_r.
    split; [reflexivity|]. split; [simpl; lia|]. split; [constructor|].
    split; [intros r []|]. split; [constructor|]. split; auto.
  - cbn [Spec.deliveries].
    destruct (IH (snd (Main.webhook cfg db utcnow request)))
      as (added & H1 & H2 & H3 & H4 & H5 & H6 & H7).
    destruct (webhook_outcome cfg db utcnow request)
      as [[_ (P & _ & HP & Hfresh & E)]|[_ E]].
    + pose proof (webhook_unique_ids cfg db utcnow request) as Hu.
      rewrite E in *. apply has_id_false in Hfresh.
      assert (Hw : Spec.well_formed (Spec.row_of P utcnow))
        by exact (parse_raw_well_formed _ P utcnow HP).
      exists (Spec.row_of P utcnow :: added).
      split; [now rewrite H1, <- app_assoc|]. split; [simpl; lia|].
      split; [|split; [|split; [|split]]].
      * cbn [map]. constructor; [|exact H3]. intros Hin.
        apply in_map_iff in Hin as (r & Er & Hr). apply (H4 r Hr).
        rewrite map_app, in_app_iff. right. left. now rewrite Er.
      * intros r [<-|Hr]; [exact Hfresh|]. intros Hin. apply (H4 r Hr).
        rewrite map_app, in_app_iff. now left.
      * now constructor.
      * intros Hdb. apply H6. now apply Hu.
      * intros Hdb. apply H7. apply Forall_app. split; [exact Hdb|].
        now constructor.
    + rewrite E in *. exists added.
      split; [exact H1|]. split; [simpl; lia|]. now repeat split.
Qed.

(** Three requests to a store that holds [m1]: the same message again,
    one without a signature, and a new one. *)
Lemma X5_scenario_three_requests :
  @Spec.deliveries Scenario.flat_json Scenario.cfg [Scenario.row_m1]
    [(Scenario.t1, Scenario.signed Scenario.body_m1);
     (Scenario.t1, Scenario.post Scenario.body_spaced None);
     (Scenario.t2, Scenario.signed Scenario.body_superscript)]
  = [Scenario.row_m1;
     Storage.Row "m3" Scenario.from_superscript "+15557654321"
                 "2024-01-01T00:00:00Z" (Some "hi")
                 "2024-01-02T03:04:07.000008Z"]
  /\ exists added,
      @Spec.deliveries Scenario.flat_json Scenario.cfg [Scenario.row_m1]
        [(Scenario.t1, Scenario.signed Scenario.body_m1);
         (Scenario.t1, Scenario.post Scenario.body_spaced None);
         (Scenario.t2, Scenario.signed Scenario.body_superscript)]
      = ([Scenario.row_m1] ++ added)%list
      /\ (List.length added <= 3)%nat
      /\ NoDup (map Storage.message_id added)
      /\ (forall r, In r added -> ~ In (Storage.message_id r) ["m1"])
      /\ Forall Spec.well_formed added
      /\ (Spec.unique_ids [Scenario.row_m1] ->
          Spec.unique_ids
            (@Spec.deliveries Scenario.flat_json Scenario.cfg [Scenario.row_m1]
               [(Scenario.t1, Scenario.signed Scenario.body_m1);
                (Scenario.t1, Scenario.post Scenario.body_spaced None);
                (Scenario.t2, Scenario.signed Scenario.body_superscript)]))
      /\ (Forall Spec.well_formed [Scenario.row_m1] ->
          Forall Spec.well_formed
            (@Spec.deliveries Scenario.flat_json Scenario.cfg [Scenario.row_m1]
               [(Scenario.t1, Scenario.signed Scenario.body_m1);
                (Scenario.t1, Scenario.post Scenario.body_spaced None);
                (Scenario.t2, Scenario.signed Scenario.body_superscript)])).
Proof.
  split; [vm_compute; reflexivity|].
  exact (X5_deliveries_keep_the_store_sound Scenario.flat_json Scenario.cfg
           [(Scenario.t1, Scenario.signed Scenario.body_m1);
            (Scenario.t1, Scenario.post Scenario.body_spaced None);
            (Scenario.t2, Scenario.signed Scenario.body_superscript)]
           [Scenario.row_m1]).
Defined.

(** X6.  A signed, valid payload whose [message_id] is already stored
    never changes the store.  If its strings can be encoded as UTF-8 it
    is answered "duplicate", whatever they say: the row stored first is
    never overwritten.  If one of them holds a lone surrogate, binding
    the parameters raises before the key is looked at, and the answer
    is 500. *)
Theorem X6_stored_id_is_never_overwritten
        (U : Wide.Unicode) (D : Wide.Decoder) (cfg : Main.Config)
        (db : Wide.Storage.table) (utcnow : Py.str) (raw_body : Py.bytes)
        (P : Wide.WebhookMessage) :
  Wide.parse_raw raw_body = inr P ->
  In (Wide.message_id P) (Spec.wide_ids db) ->
  let answer := Wide.webhook cfg db utcnow
                  {| Main.body := raw_body;
                     Main.X_Signature := Some (Main.computed cfg raw_body) |} in
  snd answer = db
  /\ (Spec.utf8_payload P ->
      fst answer = Main.OK {| Main.status := "ok"; Main.result := "duplicate" |})
  /\ (~ Spec.utf8_payload P ->
      fst answer = Main.Uncaught Py.UnicodeEncodeError).
Proof.
  intros HP Hin answer. subst answer.
  destruct (Wide.Storage.binds (Wide.dict P)) eqn:Eb.
  - apply binds_spec, utf8_dict in Eb.
    rewrite (wide_webhook_duplicate cfg db utcnow raw_body P HP Eb Hin).
    split; [reflexivity|]. split; [reflexivity|]. now intros H.
  - assert (Hn : ~ Spec.utf8_payload P).
    { intros H. apply utf8_dict, binds_spec in H. congruence. }
    rewrite (wide_webhook_surrogate cfg db utcnow raw_body P HP Hn).
    split; [reflexivity|]. split; [now intros H | reflexivity].
Qed.

(** The id of [m1] again, once with another sender, receiver, time and
    text, and once with a lone surrogate for a text. *)
Lemma X6_scenario_other_content :
  (@Wide.parse_raw Scenario.unicode_14 Scenario.wide_json
                   Scenario.body_m1_surrogate
   = inr Scenario.payload_m1_surrogate
   /\ In (Wide.of_str "m1") (Spec.wide_ids [Spec.widen_row Scenario.row_m1]))
  /\ @Wide.webhook Scenario.unicode_14 Scenario.wide_json Scenario.cfg
                   [Spec.widen_row Scenario.row_m1] Scenario.t2
                   (Scenario.signed Scenario.body_m1_other)
     = (Main.OK {| Main.status := "ok"; Main.result := "duplicate" |},
        [Spec.widen_row Scenario.row_m1])
  /\ @Wide.webhook Scenario.unicode_14 Scenario.wide_json Scenario.cfg
                   [Spec.widen_row Scenario.row_m1] Scenario.t2
                   (Scenario.signed Scenario.body_m1_surrogate)
     = (Main.Uncaught Py.UnicodeEncodeError, [Spec.widen_row Scenario.row_m1])
  /\ snd (@Wide.webhook Scenario.unicode_14 Scenario.wide_json Scenario.cfg
                        [Spec.widen_row Scenario.row_m1] Scenario.t2
                        (Scenario.signed Scenario.body_m1_surrogate))
     = [Spec.widen_row Scenario.row_m1]
  /\ (Spec.utf8_payload Scenario.payload_m1_surrogate ->
      fst (@Wide.webhook Scenario.unicode_14 Scenario.wide_json Scenario.cfg
                         [Spec.widen_row Scenario.row_m1] Scenario.t2
                         (Scenario.signed Scenario.body_m1_surrogate))
      = Main.OK {| Main.status := "ok"; Main.result := "duplicate" |})
  /\ (~ Spec.utf8_payload Scenario.payload_m1_surrogate ->
      fst (@Wide.webhook Scenario.unicode_14 Scenario.wide_json Scenario.cfg
                         [Spec.widen_row Scenario.row_m1] Scenario.t2
                         (Scenario.signed Scenario.body_m1_surrogate))
      = Main.Uncaught Py.UnicodeEncodeError).
Proof.
  assert (HP : @Wide.parse_raw Scenario.unicode_14 Scenario.wide_json
                               Scenario.body_m1_surrogate
               = inr Scenario.payload_m1_surrogate) by (vm_compute; reflexivity).
  assert (Hin : In (Wide.message_id Scenario.payload_m1_surrogate)
                   (Spec.wide_ids [Spec.widen_row Scenario.row_m1]))
    by (left; reflexivity).
  split; [split; [exact HP | exact Hin]|].
  split; [vm_compute; reflexivity|]. split; [vm_compute; reflexivity|].
  exact (X6_stored_id_is_never_overwritten Scenario.unicode_14
           Scenario.wide_json Scenario.cfg [Spec.widen_row Scenario.row_m1]
           Scenario.t2 Scenario.body_m1_surrogate
           Scenario.payload_m1_surrogate HP Hin).
Defined.

(** X7.  On a sender made of ASCII characters the handler enforces the
    pattern plus-then-digits exactly: a signed request whose body is an
    object with such a [from] is refused with an error under "from" if
    and only if the value does not match, and the refusal is a 422 that
    leaves the store alone. *)
Theorem X7_ascii_sender_must_match
        (D : Main.Decoder) (cfg : Main.Config) (db : Storage.table)
        (utcnow : Py.str) (raw_body : Py.bytes) (f : Main.raw_fields)
        (v : Py.str) :
  Main.decode raw_body = Main.Object f ->
  Main.raw_from f = Main.Typed v ->
  Py.isascii v = true ->
  Spec.plus_digits v = false
  <-> exists e,
      In "from" (map fst e)
      /\ Main.webhook cfg db utcnow
           {| Main.body := raw_body;
              Main.X_Signature := Some (Main.computed cfg raw_body) |}
         = (Main.HTTPException 422 (Main.Errors e), db).
Proof.
  intros Hd Hf Ha. split.
  - intros Hp.
    destruct (webhook_field_error cfg db utcnow raw_body f "from"
                (Main.ValueError "must be E.164-like (+digits)") Hd)
      as (e & Hin & H).
    + rewrite Hf. cbn [Main.validated].
      assert (E : Main.validate_e164 v = inl "must be E.164-like (+digits)").
      { assert (Hv : Main.validate_e164 v <> inr v).
        { intros Hv. apply (validate_e164_ascii v Ha) in Hv. congruence. }
        revert Hv. unfold Main.validate_e164.
        destruct (negb _ || negb _); [reflexivity | congruence]. }
      rewrite E. cbn [Main.errors_of]. rewrite !in_app_iff. right. left.
      now left.
    + exists e. split; [|exact H]. now apply (in_map fst) in Hin.
  - intros (e & Hin & H). rewrite webhook_signed in H.
    destruct (Main.parse_raw raw_body) as [e'|P] eqn:E.
    + injection H as <-.
      destruct (parse_raw_inl raw_body f e' Hd E) as (_ & _ & Hloc).
      apply Hloc in Hin.
      destruct Hin as [[H _]|[[_ H]|[[H _]|[[H _]|[H _]]]]];
        try discriminate H.
      rewrite Hf in H. destruct H as (msg & H).
      destruct (Spec.plus_digits v) eqn:Ep; [|reflexivity].
      apply (validate_e164_ascii v Ha) in Ep. congruence.
    + destruct (Storage.insert_message db utcnow (Main.dict P)). discriminate H.
Qed.

(** A sender written with a space in it. *)
Lemma X7_scenario_spaced_sender :
  (@Main.decode Scenario.flat_json Scenario.body_spaced
   = Main.Object Scenario.fields_spaced
   /\ Py.isascii "+1555 1230000" = true
   /\ Spec.plus_digits "+1555 1230000" = false)
  /\ exists e,
      In "from" (map fst e)
      /\ @Main.webhook Scenario.flat_json Scenario.cfg [] Scenario.t1
                       (Scenario.signed Scenario.body_spaced)
         = (Main.HTTPException 422 (Main.Errors e), []).
Proof.
  assert (Hd : @Main.decode Scenario.flat_json Scenario.body_spaced
               = Main.Object Scenario.fields_spaced) by (vm_compute; reflexivity).
  assert (Ha : Py.isascii "+1555 1230000" = true) by reflexivity.
  assert (Hp : Spec.plus_digits "+1555 1230000" = false) by reflexivity.
  split; [split; [exact Hd | split; [exact Ha | exact Hp]]|].
  exact (proj1 (X7_ascii_sender_must_match Scenario.flat_json Scenario.cfg []
                  Scenario.t1 Scenario.body_spaced Scenario.fields_spaced
                  "+1555 1230000" Hd eq_refl Ha) Hp).
Defined.

(** X8.  [insert_message] raises [UnicodeEncodeError] exactly when one
    of the strings of the message holds a lone surrogate, whether or
    not the id is stored.  Otherwise it returns [True] exactly when no
    row had the id, and then the store is the old one with the row of
    the message at its end; and [False], with the store as it was, when
    a row had it.  Whenever it returns, a row has the id afterwards, the
    rows of every other id are what they were, and inserting a message
    of the same id again returns [False] and changes nothing. *)
Theorem X8_insert_message_by_id
        (db : Wide.Storage.table) (utcnow utcnow' : Py.str)
        (m m' : Wide.Storage.message) :
  let row := Wide.Storage.Row (Wide.Storage.m_message_id m)
               (Wide.Storage.m_from m) (Wide.Storage.m_to m)
               (Wide.Storage.m_ts m) (Wide.Storage.m_text m)
               (Wide.of_str (utcnow ++ "Z")) in
  (Wide.Storage.insert_message db utcnow m = inl Py.UnicodeEncodeError
   <-> ~ Spec.utf8_message m)
  /\ (Wide.Storage.insert_message db utcnow m = inr (true, (db ++ [row])%list)
      <-> Spec.utf8_message m
          /\ ~ In (Wide.Storage.m_message_id m) (Spec.wide_ids db))
  /\ (Wide.Storage.insert_message db utcnow m = inr (false, db)
      <-> Spec.utf8_message m
          /\ In (Wide.Storage.m_message_id m) (Spec.wide_ids db))
  /\ forall inserted db',
      Wide.Storage.insert_message db utcnow m = inr (inserted, db') ->
      In (Wide.Storage.m_message_id m) (Spec.wide_ids db')
      /\ (forall id, id <> Wide.Storage.m_message_id m ->
                     Spec.wide_rows_with_id id db'
                     = Spec.wide_rows_with_id id db)
      /\ (Wide.Storage.m_message_id m' = Wide.Storage.m_message_id m ->
          Spec.utf8_message m' ->
          Wide.Storage.insert_message db' utcnow' m' = inr (false, db')).
Proof.
  cbv zeta.
  assert (Hne : forall l (x : Wide.Storage.row), (l ++ [x])%list <> l).
  { intros l x E. apply (f_equal (@List.length _)) in E.
    rewrite length_app in E. simpl in E. lia. }
  destruct (wide_insert_message_cases db utcnow m)
    as [[Hn E]|[(Hu & Hin & E)|(Hu & Hin & E)]]; rewrite E.
  - split; [tauto|]. split; [split; [discriminate | tauto]|].
    split; [split; [discriminate | tauto]|]. discriminate.
  - split; [split; [discriminate | tauto]|].
    split; [split; [discriminate | tauto]|]. split; [tauto|].
    intros inserted db' [= <- <-]. split; [exact Hin|]. split; [reflexivity|].
    intros Hid Hu'.
    destruct (wide_insert_message_cases db utcnow' m')
      as [[Hn' _]|[(_ & _ & E')|(_ & Hin' & _)]]; [tauto | exact E' |].
    rewrite Hid in Hin'. tauto.
  - split; [split; [discriminate | tauto]|]. split; [tauto|].
    split; [split; [intros [= _ H]; now apply Hne in H | tauto]|].
    intros inserted db' [= <- <-].
    match goal with |- In _ (Spec.wide_ids ?d) /\ _ => set (db1 := d) end.
    assert (Hnow : In (Wide.Storage.m_message_id m) (Spec.wide_ids db1)).
    { unfold db1, Spec.wide_ids. rewrite map_app, in_app_iff. right. now left. }
    split; [exact Hnow|]. split.
    + intros id Hid. unfold db1, Spec.wide_rows_with_id. rewrite filter_app.
      cbn [filter Wide.Storage.message_id].
      destruct (list_eq_dec N.eq_dec (Wide.Storage.m_message_id m) id) as [E'|_];
        [congruence | apply app_nil_r].
    + intros Hid Hu'.
      destruct (wide_insert_message_cases db1 utcnow' m')
        as [[Hn' _]|[(_ & _ & E')|(_ & Hin' & _)]]; [tauto | exact E' |].
      rewrite Hid in Hin'. tauto.
Qed.

(** ** More on [GET /messages] *)

Section ListingFacts.

Lemma firstn_add_skipn {A : Type} (a b : nat) (l : list A) :
  firstn (a + b) l = (firstn a l ++ firstn b (skipn a l))%list.
Proof.
  revert l. induction a as [|a IH]; intros l; [reflexivity|].
  destruct l as [|x l]; [now destruct b|]. simpl. now rewrite IH.
Qed.

(** [LIMIT l OFFSET o] with a limit and an offset that are not
    negative. *)
Lemma limit_offset_window {A : Type} (l o : Z) (rows : list A) :
  (0 <= l)%Z ->
  Sqlite.limit_offset l o rows = firstn (Z.to_nat l) (skipn (Z.to_nat o) rows).
Proof.
  intros H. unfold Sqlite.limit_offset.
  destruct (Z.ltb_spec l 0); [lia | reflexivity].
Qed.

(** A selection of rows of a store with a primary key has one too. *)
Lemma unique_ids_filter (keep : Storage.row -> bool) (db : Storage.table) :
  Spec.unique_ids db -> Spec.unique_ids (filter keep db).
Proof.
  unfold Spec.unique_ids. induction db as [|r db IH]; [auto|].
  cbn [map filter]. intros Hu. inversion Hu as [|? ? Hnew Hrest]; subst.
  destruct (keep r); [|now apply IH]. cbn [map]. constructor; [|now apply IH].
  intros Hin. apply Hnew. apply in_map_iff in Hin as (r' & E & Hr').
  apply filter_In in Hr' as [Hr' _]. rewrite <- E. now apply in_map.
Qed.

Lemma nodup_firstn {A : Type} (n : nat) (l : list A) :
  NoDup l -> NoDup (firstn n l).
Proof.
  intros H. rewrite <- (firstn_skipn n l) in H.
  now apply NoDup_app_remove_r in H.
Qed.

Lemma nodup_skipn {A : Type} (n : nat) (l : list A) :
  NoDup l -> NoDup (skipn n l).
Proof.
  intros H. rewrite <- (firstn_skipn n l) in H.
  now apply NoDup_app_remove_l in H.
Qed.

Lemma filter_length_mono {A : Type} (p p' : A -> bool) (l : list A) :
  (forall x, In x l -> p x = true -> p' x = true) ->
  (List.length (filter p l) <= List.length (filter p' l))%nat.
Proof.
  induction l as [|x l IH]; simpl; [lia|]. intros H.
  assert (IH' : (List.length (filter p l) <= List.length (filter p' l))%nat)
    by (apply IH; intros y Hy; apply H; now right).
  destruct (p x) eqn:E.
  - rewrite (H x (or_introl eq_refl) E). simpl. lia.
  - destruct (p' x); simpl; lia.
Qed.

(** The rows the data query ranges over: the matching rows, sorted. *)
Lemma sorted_matching_length (db : Storage.table) (c : list Main.condition) :
  List.length (Sqlite.sort Main.by_ts_message_id (filter (Main.where_ c) db))
  = List.length (filter (Main.where_ c) db).
Proof. symmetry. apply Permutation_length, sort_perm. Qed.

Lemma in_page_data (db : Storage.table) (limit offset : option Z)
      (from_ since q : option Py.str) (m : Storage.message) :
  In m (Main.data (Spec.page db limit offset from_ since q)) ->
  exists r, In r db
            /\ Main.where_ (Main.conditions_of from_ since q) r = true
            /\ m = Main.row_dict r.
Proof.
  cbn [Spec.page Main.data]. intros Hm.
  apply in_map_iff in Hm as (r & <- & Hr). apply in_limit_offset in Hr.
  apply (Permutation_in _ (Permutation_sym (sort_perm _ _))) in Hr.
  apply filter_In in Hr as [Hr Hw]. now exists r.
Qed.

Lemma rows_with_id_unique (db : Storage.table) (r : Storage.row) :
  Spec.unique_ids db -> In r db ->
  Spec.rows_with_id (Storage.message_id r) db = [r].
Proof.
  unfold Spec.unique_ids, Spec.rows_with_id.
  induction db as [|x db IH]; [contradiction|]. cbn [map filter].
  intros Hu Hin. inversion Hu as [|? ? Hn Hu']; subst.
  destruct Hin as [->|Hin].
  - rewrite String.eqb_refl. f_equal.
    apply has_id_false in Hn. now apply rows_with_id_absent in Hn.
  - destruct (String.eqb_spec (Storage.message_id x) (Storage.message_id r))
      as [E|_]; [|now apply IH].
    exfalso. apply Hn. rewrite E. now apply in_map.
Qed.

(** Where the text filter is in force, a row without text fails it. *)
Lemma where_text (from_ since : option Py.str) (q : Py.str) (r : Storage.row) :
  q <> "" ->
  Main.where_ (Main.conditions_of from_ since (Some q)) r
  = Main.where_ (Main.conditions_of from_ since None) r
    && Sqlite.like (Storage.text r) ("%" ++ q ++ "%").
Proof.
  intros Hq. apply truthy_spec in Hq.
  unfold Main.where_, Main.conditions_of. rewrite !forallb_app.
  cbn [Main.when_truthy]. rewrite Hq. cbn [forallb Main.holds].
  now rewrite !andb_true_r, andb_assoc.
Qed.

Lemma c_string_nul_free (s : string) :
  Spec.nul_free s = true -> Sqlite.c_string s = s.
Proof.
  unfold Spec.nul_free. induction s as [|c s IH]; [reflexivity|].
  cbn [Py.all_chars Sqlite.c_string]. intros H.
  apply andb_true_iff in H as [Hc Hs]. apply negb_true_iff in Hc.
  now rewrite Hc, IH.
Qed.

Lemma nul_free_append (a b : string) :
  Spec.nul_free (a ++ b) = Spec.nul_free a && Spec.nul_free b.
Proof.
  unfold Spec.nul_free. induction a as [|c a IH]; [reflexivity|].
  cbn [String.append Py.all_chars]. now rewrite IH, andb_assoc.
Qed.

Lemma occurs_substring_of (q t : string) :
  Spec.occurs q t = true -> Spec.substring_of q t.
Proof.
  induction t as [|c t IH]; cbn [Spec.occurs]; intros H.
  - rewrite orb_false_r in H. apply prefix_spec in H as (b & ->).
    now exists "", b.
  - apply orb_true_iff in H as [H|H].
    + apply prefix_spec in H as (b & ->). now exists "", b.
    + destruct (IH H) as (a & b & ->). now exists (String c a), b.
Qed.

Lemma any_run_here (rest : string -> bool) (s : string) :
  rest s = true -> Sqlite.any_run rest s = true.
Proof. intros H. destruct s; simpl; now rewrite H. Qed.

Lemma any_run_later (rest : string -> bool) (a s : string) :
  Sqlite.any_run rest s = true -> Sqlite.any_run rest (a ++ s) = true.
Proof.
  intros H. induction a as [|c a IH]; [exact H|].
  cbn [String.append Sqlite.any_run]. rewrite IH. apply orb_true_r.
Qed.

(** A pattern matches its own text: a percent sign and an underscore
    stand for themselves too. *)
Lemma pattern_matches_itself (q p b : string) :
  Sqlite.pattern_compare p b = true ->
  Sqlite.pattern_compare (q ++ p) (q ++ b) = true.
Proof.
  intros H. induction q as [|c q IH]; [exact H|].
  cbn [String.append Sqlite.pattern_compare].
  destruct (c =? "%")%char.
  - apply (any_run_later _ (String c "")), any_run_here, IH.
  - now rewrite IH, Ascii.eqb_refl, orb_true_r.
Qed.

(** The text filter never misses a text that holds [q] as it is
    written. *)
Lemma like_contains (q t : string) :
  Spec.nul_free q = true ->
  Spec.occurs q (Sqlite.c_string t) = true ->
  Sqlite.like (Some t) ("%" ++ q ++ "%") = true.
Proof.
  intros Hq H. apply occurs_substring_of in H as (a & b & E).
  unfold Sqlite.like. rewrite E.
  rewrite c_string_nul_free
    by (change ("%" ++ q ++ "%")%string with (String "%" (q ++ "%"));
        change (Spec.nul_free (String "%" (q ++ "%")))
          with (Spec.nul_free (q ++ "%"));
        now rewrite nul_free_append, Hq).
  change ("%" ++ q ++ "%")%string with (String "%" (q ++ "%")).
  cbn [Sqlite.pattern_compare]. change ("%" =? "%")%char with true. cbv iota.
  apply any_run_later, any_run_here, pattern_matches_itself.
  cbn [Sqlite.pattern_compare]. change ("%" =? "%")%char with true. cbv iota.
  apply any_run_spec. exists b, "". now rewrite append_empty_r.
Qed.

End ListingFacts.

(** The parameters FastAPI reports are those that are out. *)
Lemma limit_errors_named (p : Main.int_param) :
  map fst (Main.param_errors "limit" 50 1 (Some 100%Z) p)
  = if Spec.limit_out p then ["limit"] else [].
Proof.
  destruct p as [|n|]; try reflexivity.
  unfold Main.param_errors, Main.given_int, Main.Query, Spec.limit_out.
  destruct (n <? 1)%Z; [reflexivity|]. destruct (100 <? n)%Z; reflexivity.
Qed.

Lemma offset_errors_named (p : Main.int_param) :
  map fst (Main.param_errors "offset" 0 0 None p)
  = if Spec.offset_out p then ["offset"] else [].
Proof.
  destruct p as [|n|]; try reflexivity.
  unfold Main.param_errors, Main.given_int, Main.Query, Spec.offset_out.
  destruct (n <? 0)%Z; reflexivity.
Qed.

(** With both parameters readable the route is the handler, and the
    handler refuses what is out of range. *)
Lemma get_messages_refused (db : Storage.table) (limit offset : Main.int_param)
      (from_ since q : option Py.str) :
  limit <> Main.NotInteger -> offset <> Main.NotInteger ->
  let answer := Main.get_messages db (Main.given_int limit)
                                  (Main.given_int offset) from_ since q in
  Main.messages_route db limit offset from_ since q = answer
  /\ if Spec.limit_out limit || Spec.offset_out offset
     then answer
          = Main.HTTPException 422
              (Main.Errors
                 (Main.param_errors "limit" 50 1 (Some 100%Z) limit
                  ++ Main.param_errors "offset" 0 0 None offset)%list)
     else forall status d, answer <> Main.HTTPException status d.
Proof.
  intros Hl Ho answer.
  split; [destruct limit, offset; try reflexivity; congruence|].
  unfold answer. rewrite get_messages_cases. cbv zeta.
  assert (El : ((1 <=? Spec.limit_of (Main.given_int limit))
                && (Spec.limit_of (Main.given_int limit) <=? 100))%Z
               = negb (Spec.limit_out limit)).
  { destruct limit as [|n|]; [reflexivity| |congruence].
    cbn [Main.given_int Spec.limit_of Spec.limit_out].
    destruct (Z.leb_spec 1 n), (Z.leb_spec n 100), (Z.ltb_spec n 1),
      (Z.ltb_spec 100 n); try reflexivity; lia. }
  assert (Eo : (0 <=? Spec.offset_of (Main.given_int offset))%Z
               = negb (Spec.offset_out offset)).
  { destruct offset as [|n|]; [reflexivity| |congruence].
    cbn [Main.given_int Spec.offset_of Spec.offset_out].
    destruct (Z.leb_spec 0 n), (Z.ltb_spec n 0); try reflexivity; lia. }
  rewrite El, Eo.
  destruct (Spec.limit_out limit) eqn:Ll, (Spec.offset_out offset) eqn:Lo;
    cbn [negb orb].
  - destruct limit as [|n|]; try discriminate Ll; [|congruence].
    destruct offset as [|m|]; try discriminate Lo; [|congruence].
    cbn [Spec.limit_out Spec.offset_out] in Ll, Lo.
    unfold Main.param_errors, Main.given_int, Main.Query, Spec.limit_of.
    rewrite Lo. destruct (n <? 1)%Z; [reflexivity|].
    cbn [orb] in Ll. now rewrite Ll.
  - destruct limit as [|n|]; try discriminate Ll; [|congruence].
    destruct offset as [|m|]; try discriminate Lo; try congruence;
      cbn [Spec.limit_out Spec.offset_out] in Ll, Lo;
      unfold Main.param_errors, Main.given_int, Main.Query, Spec.limit_of;
      rewrite ?Lo; (destruct (n <? 1)%Z; [reflexivity|]);
      cbn [orb] in Ll; now rewrite Ll.
  - destruct offset as [|m|]; try discriminate Lo; [|congruence].
    destruct limit as [|n|]; try discriminate Ll; try congruence;
      cbn [Spec.limit_out Spec.offset_out] in Ll, Lo;
      unfold Main.param_errors, Main.given_int, Main.Query;
      rewrite Lo; [reflexivity|].
    destruct (n <? 1)%Z; [discriminate Ll|]. cbn [orb] in Ll. now rewrite Ll.
  - intros status d.
    destruct (existsb _ db); [discriminate|].
    destruct (_ <? 2 ^ 63)%Z; discriminate.
Qed.

(** X9.  [GET /messages] refuses a request with 422 exactly when
    [limit] is not an integer or is outside [1, 100], or [offset] is
    not an integer or is negative, whatever the store and the filters;
    the errors then name the parameters that are refused, [limit]
    before [offset], and nothing else.  The route answers with no other
    [HTTPException]. *)
Theorem X9_page_parameters_out_of_range
        (db : Storage.table) (limit offset : Main.int_param)
        (from_ since q : option Py.str) :
  let refused := Spec.limit_out limit || Spec.offset_out offset in
  ((exists e, Main.messages_route db limit offset from_ since q
              = Main.HTTPException 422 (Main.Errors e)
              /\ map fst e
                 = ((if Spec.limit_out limit then ["limit"] else [])
                    ++ (if Spec.offset_out offset then ["offset"] else []))%list)
   <-> refused = true)
  /\ forall status d,
      Main.messages_route db limit offset from_ since q
      = Main.HTTPException status d ->
      status = 422%Z /\ refused = true.
Proof.
  cbv zeta.
  assert (Hn : forall e,
             e = (Main.param_errors "limit" 50 1 (Some 100%Z) limit
                  ++ Main.param_errors "offset" 0 0 None offset)%list ->
             map fst e
             = ((if Spec.limit_out limit then ["limit"] else [])
                ++ (if Spec.offset_out offset then ["offset"] else []))%list).
  { intros e ->. now rewrite map_app, limit_errors_named, offset_errors_named. }
  assert (Hr : (limit <> Main.NotInteger /\ offset <> Main.NotInteger)
               \/ (Spec.limit_out limit || Spec.offset_out offset = true
                   /\ Main.messages_route db limit offset from_ since q
                      = Main.HTTPException 422
                          (Main.Errors
                             (Main.param_errors "limit" 50 1 (Some 100%Z) limit
                              ++ Main.param_errors "offset" 0 0 None offset)%list))).
  { destruct limit as [|n|]; destruct offset as [|m|];
      try (left; split; congruence); right; split; try reflexivity;
      cbn [Spec.limit_out Spec.offset_out]; apply orb_true_r. }
  destruct Hr as [[Hl Ho]|[Ht E]].
  - destruct (get_messages_refused db limit offset from_ since q Hl Ho)
      as [-> H].
    destruct (Spec.limit_out limit || Spec.offset_out offset).
    + rewrite H. split.
      * split; [reflexivity|]. intros _. eexists. split; [reflexivity|].
        now apply Hn.
      * intros status d [= <- _]. now split.
    + split.
      * split; [|discriminate]. intros (e & He & _). now apply H in He.
      * intros status d He. now apply H in He.
  - rewrite E, Ht. split.
    + split; [reflexivity|]. intros _. eexists. split; [reflexivity|].
      now apply Hn.
    + intros status d [= <- _]. now split.
Qed.

(** X10.  In an answered request [data] holds as many messages as the
    page has room for and the matching rows provide: the smaller of
    [limit] and what is left of [total] after [offset]. *)
Theorem X10_page_size
        (db : Storage.table) (limit offset : option Z)
        (from_ since q : option Py.str) (content : Main.MessagesBody) :
  Main.get_messages db limit offset from_ since q = Main.OK content ->
  Z.of_nat (List.length (Main.data content))
  = Z.min (Main.limit content)
          (Z.max 0 (Main.total content - Main.offset content)).
Proof.
  intros H. apply get_messages_OK in H as [[[H1 H2] [H3 H4]] ->].
  cbn [Spec.page Main.data Main.total Main.limit Main.offset].
  rewrite length_map, limit_offset_window by lia.
  rewrite length_firstn, length_skipn, sorted_matching_length. lia.
Qed.

(** The second page of two, of the four messages of the scenario. *)
Lemma X10_scenario_second_page :
  Main.get_messages Scenario.inbox (Some 3%Z) (Some 3%Z) None None None
  = Scenario.answer [Scenario.row_m4] 4 3 3
  /\ Z.of_nat (List.length (map Main.row_dict [Scenario.row_m4]))
     = Z.min 3 (Z.max 0 (4 - 3)).
Proof.
  assert (H : Main.get_messages Scenario.inbox (Some 3%Z) (Some 3%Z)
                                None None None
              = Scenario.answer [Scenario.row_m4] 4 3 3) by reflexivity.
  split; [exact H|].
  exact (X10_page_size Scenario.inbox (Some 3%Z) (Some 3%Z) None None None _ H).
Defined.

(** X11.  Walking the pages of one listing with a fixed [limit], at the
    offsets 0, [limit], 2 [limit], ..., returns every matching message
    exactly once and in order: while every page is answered, the pages
    put end to end are the matching rows in the order of
    (ts, message_id), as soon as the pages cover [total]. *)
Theorem X11_pages_cover_the_listing
        (db : Storage.table) (limit : Z) (from_ since q : option Py.str)
        (pages : list Main.MessagesBody) :
  Forall2 (fun k content =>
             Main.get_messages db (Some limit) (Some (Z.of_nat k * limit)%Z)
                               from_ since q
             = Main.OK content)
          (seq 0 (List.length pages)) pages ->
  (Z.of_nat (List.length
               (filter (Main.where_ (Main.conditions_of from_ since q)) db))
   <= Z.of_nat (List.length pages) * limit)%Z ->
  flat_map Main.data pages
  = map Main.row_dict
        (Sqlite.sort Main.by_ts_message_id
           (filter (Main.where_ (Main.conditions_of from_ since q)) db)).
Proof.
  set (rows := Sqlite.sort Main.by_ts_message_id
                 (filter (Main.where_ (Main.conditions_of from_ since q)) db)).
  intros Hp Hn.
  assert (Hw : flat_map Main.data pages
               = map Main.row_dict
                     (firstn (List.length pages * Z.to_nat limit) rows)).
  { clear Hn. induction pages as [|content pages IH] using rev_ind;
      [reflexivity|].
    rewrite length_app, Nat.add_comm in Hp. cbn [List.length Nat.add] in Hp.
    rewrite seq_S in Hp. apply Forall2_app_inv_r in Hp
      as (ks & k1 & Hks & Hk1 & E).
    assert (Hlen : List.length ks = List.length pages)
      by (eapply Forall2_length; eauto).
    inversion Hk1 as [|k ? ? ? Hc Hnil]; subst. inversion Hnil; subst.
    apply app_inj_tail in E as [<- <-]. cbn [Nat.add] in Hc.
    apply get_messages_OK in Hc as [[[H1 H2] [H3 H4]] ->].
    cbn [Spec.limit_of Spec.offset_of] in *.
    rewrite flat_map_app, (IH Hks).
    cbn [flat_map Spec.page Main.data Spec.limit_of Spec.offset_of].
    fold rows. rewrite app_nil_r, <- map_app, limit_offset_window by lia.
    rewrite length_app. cbn [List.length].
    replace (Z.to_nat (Z.of_nat (List.length pages) * limit))
      with (List.length pages * Z.to_nat limit)%nat by nia.
    replace ((List.length pages + 1) * Z.to_nat limit)%nat
      with (List.length pages * Z.to_nat limit + Z.to_nat limit)%nat by nia.
    now rewrite firstn_add_skipn. }
  rewrite Hw. f_equal. apply firstn_all2.
  unfold rows. rewrite sorted_matching_length. nia.
Qed.

(** The four messages of the scenario in pages of three. *)
Lemma X11_scenario_two_pages :
  (Forall2 (fun k content =>
              Main.get_messages Scenario.inbox (Some 3%Z)
                                (Some (Z.of_nat k * 3)%Z) None None None
              = Main.OK content)
           [0%nat; 1%nat]
           [Spec.page Scenario.inbox (Some 3%Z) (Some 0%Z) None None None;
            Spec.page Scenario.inbox (Some 3%Z) (Some 3%Z) None None None]
   /\ (4 <= 2 * 3)%Z)
  /\ flat_map Main.data
       [Spec.page Scenario.inbox (Some 3%Z) (Some 0%Z) None None None;
        Spec.page Scenario.inbox (Some 3%Z) (Some 3%Z) None None None]
     = map Main.row_dict
           [Scenario.row_m1; Scenario.row_m2; Scenario.row_m3; Scenario.row_m4].
Proof.
  assert (Hp : Forall2 (fun k content =>
                          Main.get_messages Scenario.inbox (Some 3%Z)
                            (Some (Z.of_nat k * 3)%Z) None None None
                          = Main.OK content)
                 (seq 0 2)
                 [Spec.page Scenario.inbox (Some 3%Z) (Some 0%Z) None None None;
                  Spec.page Scenario.inbox (Some 3%Z) (Some 3%Z) None None None])
    by (repeat constructor).
  assert (Hn : (4 <= 2 * 3)%Z) by lia.
  split; [split; [exact Hp | exact Hn]|].
  exact (X11_pages_cover_the_listing Scenario.inbox 3 None None None
           [Spec.page Scenario.inbox (Some 3%Z) (Some 0%Z) None None None;
            Spec.page Scenario.inbox (Some 3%Z) (Some 3%Z) None None None]
           Hp Hn).
Defined.

(** X12.  Under the primary key, every entry of [data] in an answered
    request is a stored message as it was stored, the only row with its
    id, and no id comes twice in [data]. *)
Theorem X12_data_are_stored_messages
        (db : Storage.table) (limit offset : option Z)
        (from_ since q : option Py.str) (content : Main.MessagesBody) :
  Spec.unique_ids db ->
  Main.get_messages db limit offset from_ since q = Main.OK content ->
  NoDup (map Storage.m_message_id (Main.data content))
  /\ forall m, In m (Main.data content) ->
               exists r, Spec.rows_with_id (Storage.m_message_id m) db = [r]
                         /\ m = Main.row_dict r.
Proof.
  intros Hu H. apply get_messages_OK in H as [[[H1 H2] [H3 H4]] ->]. split.
  - cbn [Spec.page Main.data]. rewrite map_map.
    change (fun x => Storage.m_message_id (Main.row_dict x))
      with Storage.message_id.
    rewrite limit_offset_window by lia. rewrite <- firstn_map, <- skipn_map.
    apply nodup_firstn, nodup_skipn.
    apply (Permutation_NoDup (Permutation_map _ (sort_perm _ _))).
    exact (unique_ids_filter _ db Hu).
  - intros m Hm. apply in_page_data in Hm as (r & Hr & _ & ->).
    exists r. split; [|reflexivity]. now apply rows_with_id_unique.
Qed.

(** The four messages of the scenario, each under its own id. *)
Lemma X12_scenario_inbox :
  (Spec.unique_ids Scenario.inbox
   /\ Main.get_messages Scenario.inbox None None None None None
      = Scenario.answer [Scenario.row_m1; Scenario.row_m2; Scenario.row_m3;
                         Scenario.row_m4] 4 50 0)
  /\ NoDup ["m1"; "m2"; "m3"; "m4"]
  /\ forall m,
      In m (map Main.row_dict [Scenario.row_m1; Scenario.row_m2; Scenario.row_m3;
                               Scenario.row_m4]) ->
      exists r, Spec.rows_with_id (Storage.m_message_id m) Scenario.inbox = [r]
                /\ m = Main.row_dict r.
Proof.
  assert (Hu : Spec.unique_ids Scenario.inbox).
  { unfold Spec.unique_ids. cbn [map Scenario.inbox Storage.message_id
      Scenario.row_m1 Scenario.row_m2 Scenario.row_m3 Scenario.row_m4].
    repeat constructor; cbn [In]; intuition discriminate. }
  assert (H : Main.get_messages Scenario.inbox None None None None None
              = Scenario.answer [Scenario.row_m1; Scenario.row_m2;
                                 Scenario.row_m3; Scenario.row_m4] 4 50 0)
    by reflexivity.
  split; [split; [exact Hu | exact H]|].
  exact (X12_data_are_stored_messages Scenario.inbox None None None None None
           _ Hu H).
Defined.

(** X13.  With a [q] that is not empty, an answered request returns no
    message without text; and if [q] holds no NUL, every stored row that
    passes the other filters and whose text, read up to its first NUL,
    holds [q] as it is written is counted in [total], percent signs and
    underscores in [q] notwithstanding. *)
Theorem X13_text_filter_bounds
        (db : Storage.table) (limit offset : option Z)
        (from_ since : option Py.str) (q : Py.str)
        (content : Main.MessagesBody) :
  q <> "" ->
  Main.get_messages db limit offset from_ since (Some q) = Main.OK content ->
  (forall m, In m (Main.data content) -> Storage.m_text m <> None)
  /\ (Spec.nul_free q = true ->
      (Z.of_nat
         (List.length
            (filter (fun r =>
                       Main.where_ (Main.conditions_of from_ since None) r
                       && Spec.text_contains q r) db))
       <= Main.total content)%Z).
Proof.
  intros Hq H. apply get_messages_OK in H as [_ ->]. split.
  - intros m Hm. apply in_page_data in Hm as (r & _ & Hw & ->).
    rewrite (where_text from_ since q r Hq) in Hw.
    apply andb_true_iff in Hw as [_ Hl]. cbn [Main.row_dict Storage.m_text].
    now destruct (Storage.text r).
  - intros Hn. cbn [Spec.page Main.total]. apply inj_le, filter_length_mono.
    intros r _ Hr. apply andb_true_iff in Hr as [Hw Hc].
    rewrite (where_text from_ since q r Hq), Hw. cbn [andb].
    unfold Spec.text_contains in Hc.
    destruct (Storage.text r) as [t|]; [|discriminate].
    now apply like_contains.
Qed.

(** The inbox of the scenario and a message "fill_in", searched for
    "l_": the one text that holds it as written is counted, and so is
    "Hello world", which the pattern matches as well. *)
Lemma X13_scenario_underscore :
  ("l_" <> ""
   /\ Main.get_messages (Storage.Row "m9" "+1" "+2" "2024-01-05T00:00:00Z"
                                     (Some "fill_in") "2024-01-05T00:00:01Z"
                         :: Scenario.inbox) None None None None (Some "l_")
      = Scenario.answer
          [Scenario.row_m3;
           Storage.Row "m9" "+1" "+2" "2024-01-05T00:00:00Z"
                       (Some "fill_in") "2024-01-05T00:00:01Z"] 2 50 0)
  /\ (forall m,
         In m (map Main.row_dict
                   [Scenario.row_m3;
                    Storage.Row "m9" "+1" "+2" "2024-01-05T00:00:00Z"
                                (Some "fill_in") "2024-01-05T00:00:01Z"]) ->
         Storage.m_text m <> None)
  /\ (Spec.nul_free "l_" = true -> (1 <= 2)%Z).
Proof.
  assert (Hq : "l_" <> "") by discriminate.
  assert (H : Main.get_messages
                (Storage.Row "m9" "+1" "+2" "2024-01-05T00:00:00Z"
                             (Some "fill_in") "2024-01-05T00:00:01Z"
                 :: Scenario.inbox) None None None None (Some "l_")
              = Scenario.answer
                  [Scenario.row_m3;
                   Storage.Row "m9" "+1" "+2" "2024-01-05T00:00:00Z"
                               (Some "fill_in") "2024-01-05T00:00:01Z"] 2 50 0)
    by reflexivity.
  split; [split; [exact Hq | exact H]|].
  exact (X13_text_filter_bounds _ None None None None "l_" _ Hq H).
Defined.

(** ** More on [GET /stats] *)

Section CountFacts.

Lemma sum_counts_app (a b : list (Py.str * Z)) :
  Spec.sum_counts (a ++ b) = (Spec.sum_counts a + Spec.sum_counts b)%Z.
Proof.
  induction a as [|[s c] a IH]; cbn [app Spec.sum_counts]; [reflexivity|].
  rewrite IH. lia.
Qed.

Lemma sum_counts_perm (a b : list (Py.str * Z)) :
  Permutation a b -> Spec.sum_counts a = Spec.sum_counts b.
Proof.
  induction 1 as [|[s c] a b _ IH|[s c] [s' c'] a|a b c _ IH1 _ IH2];
    cbn [Spec.sum_counts]; lia.
Qed.

Lemma sum_counts_nonneg (l : list (Py.str * Z)) :
  (forall s c, In (s, c) l -> (0 <= c)%Z) -> (0 <= Spec.sum_counts l)%Z.
Proof.
  induction l as [|[s c] l IH]; cbn [Spec.sum_counts]; [lia|]. intros H.
  assert (0 <= c)%Z by (apply (H s); now left).
  assert (0 <= Spec.sum_counts l)%Z by (apply IH; intros s' c' Hin;
                                       apply (H s'); now right).
  lia.
Qed.

Lemma filter_split_length {A : Type} (p : A -> bool) (l : list A) :
  (List.length (filter p l) + List.length (filter (fun x => negb (p x)) l))%nat
  = List.length l.
Proof.
  induction l as [|x l IH]; [reflexivity|]. cbn [filter].
  destruct (p x); cbn [negb List.length]; lia.
Qed.

Lemma count_from_nonneg (sender : Py.str) (db : Storage.table) :
  (0 <= Main.count_from sender db)%Z.
Proof. unfold Main.count_from. lia. Qed.

(** Counting per sender over senders that cover the store, each once,
    counts every row once. *)
Lemma sum_counts_keys (keys : list Py.str) :
  NoDup keys ->
  forall db : Storage.table,
    (forall r, In r db -> In (Storage.from_msisdn r) keys) ->
    Spec.sum_counts (map (fun sender => (sender, Main.count_from sender db)) keys)
    = Z.of_nat (List.length db).
Proof.
  induction 1 as [|k keys Hk _ IH]; intros db Hdb.
  - destruct db as [|r db]; [reflexivity|]. destruct (Hdb r (or_introl eq_refl)).
  - cbn [map Spec.sum_counts].
    set (others := filter (fun r => negb (Sqlite.text_eq (Storage.from_msisdn r) k)) db).
    assert (E : map (fun sender => (sender, Main.count_from sender db)) keys
                = map (fun sender => (sender, Main.count_from sender others)) keys).
    { apply map_ext_in. intros s Hs. f_equal. unfold Main.count_from. f_equal.
      unfold others. clear -Hs Hk. induction db as [|r db IHdb]; [reflexivity|].
      cbn [filter]. unfold Sqlite.text_eq in *.
      destruct (String.eqb_spec (Storage.from_msisdn r) s) as [Es|Es];
        destruct (String.eqb_spec (Storage.from_msisdn r) k) as [Ek|Ek];
        cbn [negb filter List.length].
      - exfalso. apply Hk. now rewrite <- Ek, Es.
      - apply String.eqb_eq in Es. rewrite Es. cbn [List.length].
        now rewrite IHdb.
      - exact IHdb.
      - apply String.eqb_neq in Es. now rewrite Es. }
    rewrite E, (IH others).
    + unfold Main.count_from. rewrite <- (filter_split_length
        (fun r => Sqlite.text_eq (Storage.from_msisdn r) k) db).
      fold others. lia.
    + intros r Hr. apply filter_In in Hr as [Hr Hne].
      destruct (Hdb r Hr) as [E'|Hin]; [|exact Hin].
      unfold Sqlite.text_eq in Hne. rewrite <- E', String.eqb_refl in Hne.
      discriminate Hne.
Qed.

Lemma sum_counts_groups (db : Storage.table) :
  Spec.sum_counts (Main.group_by_sender db) = Z.of_nat (List.length db).
Proof.
  unfold Main.group_by_sender. apply sum_counts_keys.
  - apply NoDup_nodup.
  - intros r Hr. apply nodup_In. now apply in_map.
Qed.

Lemma nodup_length_le (l : list Py.str) :
  (List.length (nodup string_dec l) <= List.length l)%nat.
Proof.
  induction l as [|x l IH]; [reflexivity|]. cbn [nodup].
  destruct (in_dec string_dec x l); cbn [List.length]; lia.
Qed.

Lemma in_group_count (db : Storage.table) (s : Py.str) (c : Z) :
  In (s, c) (Main.group_by_sender db) ->
  c = Main.count_from s db /\ In s (map Storage.from_msisdn db).
Proof.
  unfold Main.group_by_sender, Main.senders. intros H.
  apply in_map_iff in H as (s' & [= <- <-] & Hs).
  split; [reflexivity | now apply nodup_In in Hs].
Qed.

(** In a list in descending order, a later part lies below an earlier
    one. *)
Lemma strongly_sorted_app_inv {A : Type} (R : A -> A -> Prop) (a b : list A) :
  StronglySorted R (a ++ b) ->
  forall x y, In x a -> In y b -> R x y.
Proof.
  induction a as [|z a IH]; intros H x y Hx Hy; [contradiction|].
  cbn [app] in H. inversion H as [|? ? Hs Hf]; subst.
  destruct Hx as [->|Hx]; [|now apply IH].
  rewrite Forall_forall in Hf. apply Hf, in_or_app. now right.
Qed.

End CountFacts.

(** X14.  In every answer of [GET /stats], [messages_per_sender] has 10
    entries or one for each sender, whichever is less; the store has no
    more senders than messages, and none exactly when it is empty; the
    listed counts never add up to more than [total_messages], and they
    add up to it when there are at most 10 senders. *)
Theorem X14_stats_counts_add_up (db : Storage.table) :
  forall r, Main.stats db r ->
    exists content,
      r = Main.OK content
      /\ Z.of_nat (List.length (Main.messages_per_sender content))
         = Z.min 10 (Main.senders_count content)
      /\ (0 <= Main.senders_count content <= Main.total_messages content)%Z
      /\ (Main.senders_count content = 0%Z
          <-> Main.total_messages content = 0%Z)
      /\ (Spec.sum_counts (Main.messages_per_sender content)
          <= Main.total_messages content)%Z
      /\ ((Main.senders_count content <= 10)%Z ->
          Spec.sum_counts (Main.messages_per_sender content)
          = Main.total_messages content).
Proof.
  intros r (per & earliest & latest & [P S] & _ & _ & ->).
  eexists. split; [reflexivity|].
  cbn [Main.stats_body Main.messages_per_sender Main.senders_count
       Main.total_messages].
  rewrite limit_offset_first by lia. change (Z.to_nat 10) with 10%nat.
  assert (Hlen : List.length per = List.length (Main.senders db)).
  { rewrite <- (Permutation_length P). unfold Main.group_by_sender.
    apply length_map. }
  assert (Hsum : Spec.sum_counts per = Z.of_nat (List.length db))
    by (rewrite <- (sum_counts_perm _ _ P); apply sum_counts_groups).
  assert (Hle : (List.length (Main.senders db) <= List.length db)%nat).
  { unfold Main.senders. rewrite <- (length_map Storage.from_msisdn db).
    apply nodup_length_le. }
  split; [rewrite length_firstn, Hlen; lia|].
  split; [lia|]. split.
  - split; [|lia]. intros H0.
    destruct db as [|r0 db]; [reflexivity|]. exfalso.
    assert (Hin : In (Storage.from_msisdn r0) (Main.senders (r0 :: db)))
      by (apply nodup_In; now left).
    destruct (Main.senders (r0 :: db)); [contradiction | discriminate H0].
  - split.
    + pose proof (sum_counts_app (firstn 10 per) (skipn 10 per)) as Happ.
      rewrite firstn_skipn in Happ.
      assert (0 <= Spec.sum_counts (skipn 10 per))%Z; [|lia].
      apply sum_counts_nonneg. intros s c Hin.
      assert (Hg : In (s, c) (Main.group_by_sender db)).
      { apply (Permutation_in _ (Permutation_sym P)).
        rewrite <- (firstn_skipn 10 per). apply in_or_app. now right. }
      apply in_group_count in Hg as [-> _]. apply count_from_nonneg.
    + intros H10. rewrite firstn_all2 by lia. exact Hsum.
Qed.

(** Thirteen messages of eleven senders. *)
Lemma X14_scenario_eleven_senders :
  Main.stats Scenario.eleven_senders (Main.stats_run Scenario.eleven_senders)
  /\ exists content,
      Main.stats_run Scenario.eleven_senders = Main.OK content
      /\ Z.of_nat (List.length (Main.messages_per_sender content))
         = Z.min 10 (Main.senders_count content)
      /\ (0 <= Main.senders_count content <= Main.total_messages content)%Z
      /\ (Main.senders_count content = 0%Z
          <-> Main.total_messages content = 0%Z)
      /\ (Spec.sum_counts (Main.messages_per_sender content)
          <= Main.total_messages content)%Z
      /\ ((Main.senders_count content <= 10)%Z ->
          Spec.sum_counts (Main.messages_per_sender content)
          = Main.total_messages content).
Proof.
  split; [apply stats_run_admissible|].
  exact (X14_stats_counts_add_up Scenario.eleven_senders _
           (stats_run_admissible Scenario.eleven_senders)).
Defined.

(** X15.  [messages_per_sender] is a list of top senders: in every
    answer of [GET /stats], a sender of the store that is not listed has
    no more messages than any sender that is, and then the list is
    full. *)
Theorem X15_unlisted_senders_have_fewer (db : Storage.table) :
  forall r, Main.stats db r ->
    exists content,
      r = Main.OK content
      /\ forall sender,
          In sender (map Storage.from_msisdn db) ->
          ~ In sender (map fst (Main.messages_per_sender content)) ->
          List.length (Main.messages_per_sender content) = 10%nat
          /\ forall listed count,
              In (listed, count) (Main.messages_per_sender content) ->
              (Z.of_nat (Spec.messages_of sender db) <= count)%Z.
Proof.
  intros r (per & earliest & latest & [P S] & _ & _ & ->).
  eexists. split; [reflexivity|].
  cbn [Main.stats_body Main.messages_per_sender].
  rewrite limit_offset_first by lia. change (Z.to_nat 10) with 10%nat.
  intros sender Hs Hn.
  assert (Hg : In (sender, Main.count_from sender db) per).
  { apply (Permutation_in _ P). unfold Main.group_by_sender.
    apply in_map_iff. exists sender. split; [reflexivity|].
    now apply nodup_In. }
  rewrite <- (firstn_skipn 10 per) in Hg. apply in_app_or in Hg as [Hg|Hg].
  { exfalso. apply Hn. now apply (in_map fst) in Hg. }
  split.
  - rewrite length_firstn. apply Nat.min_l.
    destruct (Nat.le_gt_cases 10 (List.length per)) as [H|H]; [exact H|].
    rewrite skipn_all2 in Hg by lia. contradiction.
  - intros listed count Hl. rewrite <- count_from_spec.
    apply (sorted_strongly _ by_count_desc_trans) in S.
    rewrite <- (firstn_skipn 10 per) in S.
    pose proof (strongly_sorted_app_inv _ _ _ S _ _ Hl Hg) as H.
    unfold Sqlite.le_of, Main.by_count_desc in H. cbn [snd] in H. lia.
Qed.

(** Thirteen messages of eleven senders: "+10", with one message, is
    left out. *)
Lemma X15_scenario_eleven_senders :
  (Main.stats Scenario.eleven_senders (Main.stats_run Scenario.eleven_senders)
   /\ In "+10" (map Storage.from_msisdn Scenario.eleven_senders)
   /\ Main.stats_run Scenario.eleven_senders
      = Main.OK {| Main.total_messages := 13; Main.senders_count := 11;
                   Main.messages_per_sender :=
                     [("+20", 2%Z); ("+15", 2%Z); ("+19", 1%Z); ("+18", 1%Z);
                      ("+17", 1%Z); ("+16", 1%Z); ("+14", 1%Z); ("+13", 1%Z);
                      ("+12", 1%Z); ("+11", 1%Z)];
                   Main.first_message_ts := Some "2024-01-01T00:00:00Z";
                   Main.last_message_ts := Some "2024-01-01T00:00:00Z" |})
  /\ exists content,
      Main.stats_run Scenario.eleven_senders = Main.OK content
      /\ forall sender,
          In sender (map Storage.from_msisdn Scenario.eleven_senders) ->
          ~ In sender (map fst (Main.messages_per_sender content)) ->
          List.length (Main.messages_per_sender content) = 10%nat
          /\ forall listed count,
              In (listed, count) (Main.messages_per_sender content) ->
              (Z.of_nat (Spec.messages_of sender Scenario.eleven_senders)
               <= count)%Z.
Proof.
  split.
  - split; [apply stats_run_admissible|].
    split; [cbn; tauto | reflexivity].
  - exact (X15_unlisted_senders_have_fewer Scenario.eleven_senders _
             (stats_run_admissible Scenario.eleven_senders)).
Defined.

(** X16.  The two read endpoints agree: [total_messages] of
    [GET /stats] is the [total] of an answered listing without filters,
    and the count listed for a sender, if the sender is not the empty
    string, is the [total] of an answered listing with that sender as
    [from]. *)
Theorem X16_stats_agree_with_listing
        (db : Storage.table) (limit offset : option Z)
        (content : Main.StatsBody) :
  Main.stats db (Main.OK content) ->
  (forall listing,
      Main.get_messages db limit offset None None None = Main.OK listing ->
      Main.total listing = Main.total_messages content)
  /\ forall sender count listing,
      In (sender, count) (Main.messages_per_sender content) ->
      sender <> "" ->
      Main.get_messages db limit offset (Some sender) None None
      = Main.OK listing ->
      Main.total listing = count.
Proof.
  intros (per & earliest & latest & [P S] & _ & _ & [= ->]). split.
  - intros listing H. apply get_messages_OK in H as [_ ->].
    cbn [Spec.page Main.total Main.stats_body Main.total_messages
         Main.conditions_of Main.when_truthy app].
    change (Main.where_ []) with (fun _ : Storage.row => true).
    now rewrite filter_all.
  - intros sender count listing Hin Hne H.
    apply get_messages_OK in H as [_ ->].
    cbn [Main.stats_body Main.messages_per_sender] in Hin.
    apply in_limit_offset in Hin.
    apply (Permutation_in _ (Permutation_sym P)) in Hin.
    apply in_group_count in Hin as [-> _].
    apply truthy_spec in Hne.
    cbn [Spec.page Main.total Main.conditions_of Main.when_truthy app].
    rewrite Hne. cbn [app]. unfold Main.count_from. do 2 f_equal.
    apply filter_ext. intros r. unfold Main.where_. cbn [forallb Main.holds].
    apply andb_true_r.
Qed.

(** The four messages of the scenario: three of them from one
    sender. *)
Lemma X16_scenario_inbox :
  Main.stats Scenario.inbox (Main.stats_run Scenario.inbox)
  /\ (forall listing,
         Main.get_messages Scenario.inbox None None None None None
         = Main.OK listing ->
         Main.total listing = 4%Z)
  /\ forall sender count listing,
      In (sender, count) [("+15551230000", 3%Z); ("+15550000000", 1%Z)] ->
      sender <> "" ->
      Main.get_messages Scenario.inbox None None (Some sender) None None
      = Main.OK listing ->
      Main.total listing = count.
Proof.
  split; [apply stats_run_admissible|].
  exact (X16_stats_agree_with_listing Scenario.inbox None None _
           (stats_run_admissible Scenario.inbox)).
Defined.

(** ** From one endpoint to the other *)

Section SignatureFacts.

Lemma hex_length (bs : list N) :
  String.length (Hmac.hex bs) = (2 * List.length bs)%nat.
Proof.
  induction bs as [|b bs IH]; [reflexivity|].
  cbn [Hmac.hex String.length List.length]. rewrite IH. lia.
Qed.

Lemma hex_digit_in (d : N) : In (Hmac.hex_digit d) Hmac.hex_digits.
Proof.
  unfold Hmac.hex_digit.
  destruct (nth_in_or_default (N.to_nat d) Hmac.hex_digits "0"%char) as [H | ->];
    [exact H | now left].
Qed.

Lemma hex_chars (bs : list N) :
  Forall (fun c => In c Hmac.hex_digits) (list_ascii_of_string (Hmac.hex bs)).
Proof.
  induction bs as [|b bs IH]; [constructor|].
  cbn [Hmac.hex list_ascii_of_string].
  constructor; [apply hex_digit_in|]. constructor; [apply hex_digit_in|].
  exact IH.
Qed.

(** The signature the handler computes: 64 characters out of
    [0-9a-f]. *)
Lemma computed_format (cfg : Main.Config) (raw_body : Py.bytes) :
  String.length (Main.computed cfg raw_body) = 64%nat
  /\ Forall (fun c => In c Hmac.hex_digits)
            (list_ascii_of_string (Main.computed cfg raw_body)).
Proof.
  unfold Main.computed, Hmac.hexdigest. split; [|apply hex_chars].
  rewrite hex_length. unfold Hmac.hmac_sha256. cbv zeta.
  now rewrite digest_length.
Qed.

End SignatureFacts.

(** X17.  Only a request with the exact signature gets past the check:
    whenever [POST /webhook] answers 200 or 422, the X-Signature header
    was the hex HMAC-SHA256 of the body under the secret, which is 64
    characters out of [0-9a-f]; so a header of another length, or with
    an upper-case letter in it, never gets that far. *)
Theorem X17_only_the_exact_signature_passes
        (D : Main.Decoder) (cfg : Main.Config) (db : Storage.table)
        (utcnow : Py.str) (request : Main.Request) :
  Main.status_code (fst (Main.webhook cfg db utcnow request)) = 200%Z
  \/ Main.status_code (fst (Main.webhook cfg db utcnow request)) = 422%Z ->
  exists signature,
    Main.X_Signature request = Some signature
    /\ signature = Main.computed cfg (Main.body request)
    /\ String.length signature = 64%nat
    /\ Forall (fun c => In c Hmac.hex_digits) (list_ascii_of_string signature).
Proof.
  intros H.
  assert (Hs : Main.X_Signature request
               = Some (Main.computed cfg (Main.body request))).
  { destruct (Main.X_Signature request) as [signature|] eqn:E.
    - destruct (string_dec signature (Main.computed cfg (Main.body request)))
        as [->|Hne]; [reflexivity|]. exfalso.
      rewrite (webhook_unsigned_answer cfg db utcnow request) in H
        by (rewrite E; congruence).
      rewrite E in H. cbn [fst] in H.
      destruct (Py.isascii signature); cbn [Main.status_code] in H;
        destruct H; discriminate.
    - exfalso.
      rewrite (webhook_unsigned_answer cfg db utcnow request) in H
        by (rewrite E; discriminate).
      rewrite E in H. cbn [fst Main.status_code] in H. destruct H; discriminate. }
  exists (Main.computed cfg (Main.body request)).
  split; [exact Hs|]. split; [reflexivity|]. apply computed_format.
Qed.

(** The first delivery of [m1], which is answered 200. *)
Lemma X17_scenario_m1 :
  (Main.status_code
     (fst (@Main.webhook Scenario.flat_json Scenario.cfg [] Scenario.t1
                         (Scenario.signed Scenario.body_m1))) = 200%Z
   \/ Main.status_code
        (fst (@Main.webhook Scenario.flat_json Scenario.cfg [] Scenario.t1
                            (Scenario.signed Scenario.body_m1))) = 422%Z)
  /\ exists signature,
      Main.X_Signature (Scenario.signed Scenario.body_m1) = Some signature
      /\ signature = Main.computed Scenario.cfg
                                   (Main.body (Scenario.signed Scenario.body_m1))
      /\ String.length signature = 64%nat
      /\ Forall (fun c => In c Hmac.hex_digits) (list_ascii_of_string signature).
Proof.
  assert (H : Main.status_code
                (fst (@Main.webhook Scenario.flat_json Scenario.cfg [] Scenario.t1
                                    (Scenario.signed Scenario.body_m1))) = 200%Z
              \/ Main.status_code
                   (fst (@Main.webhook Scenario.flat_json Scenario.cfg []
                                       Scenario.t1
                                       (Scenario.signed Scenario.body_m1)))
                 = 422%Z)
    by (left; vm_compute; reflexivity).
  split; [exact H|].
  exact (X17_only_the_exact_signature_passes Scenario.flat_json Scenario.cfg []
           Scenario.t1 (Scenario.signed Scenario.body_m1) H).
Defined.

(** X18.  What [POST /webhook] answers "created" for can be read back:
    the listing of the sender of the payload, when it fits on the page,
    holds the payload field for field, and [GET /stats] counts one
    message more than were stored before. *)
Theorem X18_created_message_is_listed
        (D : Main.Decoder) (cfg : Main.Config) (db : Storage.table)
        (utcnow : Py.str) (request : Main.Request) :
  fst (Main.webhook cfg db utcnow request)
  = Main.OK {| Main.status := "ok"; Main.result := "created" |} ->
  exists P,
    Main.parse_raw (Main.body request) = inr P
    /\ (forall limit content,
           Main.get_messages (snd (Main.webhook cfg db utcnow request))
                             limit None (Some (Main.from_ P)) None None
           = Main.OK content ->
           (Main.total content <= Main.limit content)%Z ->
           In (Main.dict P) (Main.data content))
    /\ forall r,
        Main.stats (snd (Main.webhook cfg db utcnow request)) r ->
        exists content,
          r = Main.OK content
          /\ Main.total_messages content = (Z.of_nat (List.length db) + 1)%Z.
Proof.
  intros Hc.
  destruct (webhook_outcome cfg db utcnow request)
    as [[_ (P & _ & HP & _ & E)]|[Hne _]]; [|contradiction].
  exists P. split; [exact HP|]. rewrite E. split.
  - intros limit content H Hle.
    apply get_messages_OK in H as [[[H1 H2] _] ->].
    cbn [Spec.page Main.data Main.total Main.limit Spec.offset_of] in *.
    rewrite limit_offset_window by lia. change (Z.to_nat 0) with 0%nat.
    cbn [skipn]. rewrite firstn_all2 by (rewrite sorted_matching_length; lia).
    apply in_map_iff. exists (Spec.row_of P utcnow). split; [reflexivity|].
    apply (Permutation_in _ (sort_perm _ _)). apply filter_In.
    split; [apply in_or_app; right; now left|].
    destruct (parse_raw_well_formed _ P utcnow HP) as (_ & (ds & Hf & _) & _).
    cbn [Spec.row_of Storage.from_msisdn] in Hf.
    unfold Main.where_, Main.conditions_of. rewrite Hf.
    cbn [Main.when_truthy Py.truthy String.eqb negb app forallb Main.holds
         Spec.row_of Storage.from_msisdn].
    rewrite Hf. unfold Sqlite.text_eq. now rewrite String.eqb_refl.
  - intros r (per & earliest & latest & _ & _ & _ & ->).
    eexists. split; [reflexivity|].
    cbn [Main.stats_body Main.total_messages]. rewrite length_app.
    cbn [List.length]. lia.
Qed.

(** The first delivery of [m1] to an empty store, and its listing. *)
Lemma X18_scenario_m1 :
  fst (@Main.webhook Scenario.flat_json Scenario.cfg [] Scenario.t1
                     (Scenario.signed Scenario.body_m1))
  = Main.OK {| Main.status := "ok"; Main.result := "created" |}
  /\ Main.get_messages [Scenario.row_m1] None None (Some "+15551230000")
                       None None
     = Scenario.answer [Scenario.row_m1] 1 50 0
  /\ exists P,
      @Main.parse_raw Scenario.flat_json
                      (Main.body (Scenario.signed Scenario.body_m1)) = inr P
      /\ (forall limit content,
             Main.get_messages
               (snd (@Main.webhook Scenario.flat_json Scenario.cfg [] Scenario.t1
                                   (Scenario.signed Scenario.body_m1)))
               limit None (Some (Main.from_ P)) None None
             = Main.OK content ->
             (Main.total content <= Main.limit content)%Z ->
             In (Main.dict P) (Main.data content))
      /\ forall r,
          Main.stats
            (snd (@Main.webhook Scenario.flat_json Scenario.cfg [] Scenario.t1
                                (Scenario.signed Scenario.body_m1))) r ->
          exists content,
            r = Main.OK content /\ Main.total_messages content = (0 + 1)%Z.
Proof.
  assert (H : fst (@Main.webhook Scenario.flat_json Scenario.cfg [] Scenario.t1
                                 (Scenario.signed Scenario.body_m1))
              = Main.OK {| Main.status := "ok"; Main.result := "created" |})
    by (vm_compute; reflexivity).
  split; [exact H|]. split; [reflexivity|].
  exact (X18_created_message_is_listed Scenario.flat_json Scenario.cfg []
           Scenario.t1 (Scenario.signed Scenario.body_m1) H).
Defined.

(** ** Start-up *)

Section StartupFacts.

Lemma replace_from_skip (old new a rest : string) :
  Py.replace_from old new (String.length a) (a ++ rest)
  = Py.replace_from old new 0 rest.
Proof.
  induction a as [|c a IH]; [reflexivity|].
  cbn [String.length String.append Py.replace_from]. exact IH.
Qed.

(** An occurrence at the head is replaced and the scan goes on behind
    it. *)
Lemma replace_head (old new rest : string) :
  old <> "" ->
  Py.replace (old ++ rest) old new = (new ++ Py.replace rest old new)%string.
Proof.
  intros Hne. unfold Py.replace. apply String.eqb_neq in Hne. rewrite Hne.
  destruct old as [|c old]; [discriminate|].
  change (String c old ++ rest)%string with (String c (old ++ rest)).
  cbn [Py.replace_from].
  change (String c (old ++ rest)) with (String c old ++ rest)%string.
  rewrite prefix_append. cbn [String.length Nat.sub].
  now rewrite Nat.sub_0_r, replace_from_skip.
Qed.

(** Where there is no occurrence nothing changes. *)
Lemma replace_absent (old new s : string) :
  Spec.occurs old s = false -> Py.replace s old new = s.
Proof.
  intros H. unfold Py.replace.
  destruct (String.eqb_spec old "") as [->|_].
  - destruct s; discriminate H.
  - induction s as [|c s IH]; [reflexivity|].
    cbn [Spec.occurs] in H. apply orb_false_iff in H as [Hp Hs].
    cbn [Py.replace_from]. now rewrite Hp, IH.
Qed.

Lemma db_path_sqlite (root rest : Py.str) :
  Startup.db_path root ("sqlite:///" ++ rest)
  = inr (Py.path_join root (Py.replace rest "sqlite:///" "")).
Proof.
  unfold Startup.db_path, Py.startswith. rewrite prefix_append.
  now rewrite replace_head by discriminate.
Qed.

Lemma startup_inr (root : Py.str) (getenv : Startup.environ)
      (settings : Startup.Settings) (path : Py.str) :
  Startup.startup root getenv = inr (settings, path)
  <-> getenv "WEBHOOK_SECRET" = Some (Startup.WEBHOOK_SECRET settings)
      /\ Startup.WEBHOOK_SECRET settings <> ""
      /\ getenv "DATABASE_URL" = Some (Startup.DATABASE_URL settings)
      /\ Startup.LOG_LEVEL settings
         = match getenv "LOG_LEVEL" with Some v => v | None => "INFO" end
      /\ Startup.db_path root (Startup.DATABASE_URL settings) = inr path.
Proof.
  unfold Startup.startup, Startup.config.
  destruct (getenv "WEBHOOK_SECRET") as [s|]; cbn [Py.truthy_opt negb].
  - destruct (Py.truthy s) eqn:Es; cbn [negb].
    + apply truthy_spec in Es.
      destruct (getenv "DATABASE_URL") as [u|]; cbn [Py.truthy_opt negb].
      * destruct (Py.truthy u) eqn:Eu; cbn [negb].
        -- cbn [Startup.DATABASE_URL].
           destruct (Startup.db_path root u) as [e|p] eqn:Ep.
           ++ split; [discriminate|].
              intros ([= ->] & _ & [= ->] & _ & H). congruence.
           ++ split.
              ** intros [= <- <-]. cbn. now repeat split.
              ** intros ([= E1] & _ & [= E2] & E3 & E4).
                 destruct settings as [s' u' l']. cbn in *. subst.
                 congruence.
        -- split; [discriminate|].
           intros (_ & _ & [= ->] & _ & H). unfold Startup.db_path in H.
           apply negb_false_iff, String.eqb_eq in Eu. rewrite Eu in H.
           discriminate H.
      * split; [discriminate|]. now intros (_ & _ & H & _).
    + split; [discriminate|]. intros ([= ->] & H & _).
      apply truthy_spec in H. congruence.
  - split; [discriminate|]. now intros (H & _).
Qed.

End StartupFacts.

(** X19.  The database file is found by cutting "sqlite:///" off the
    URL and joining the rest to the project root: an absolute path is
    taken as it is, a relative one lies under the root.  Any further
    "sqlite:///" inside the URL is cut out as well, and a URL that does
    not start with "sqlite:///" is refused. *)
Theorem X19_database_path (root rest : Py.str) :
  Startup.db_path root ("sqlite:///" ++ rest)
  = inr (Py.path_join root (Py.replace rest "sqlite:///" ""))
  /\ (Spec.occurs "sqlite:///" rest = false ->
      (Py.startswith rest "/" = true ->
       Startup.db_path root ("sqlite:///" ++ rest) = inr rest)
      /\ (Py.startswith rest "/" = false ->
          root <> "" -> Py.endswith root "/" = false ->
          Startup.db_path root ("sqlite:///" ++ rest)
          = inr (root ++ "/" ++ rest)%string))
  /\ forall url,
      (forall tail, url <> ("sqlite:///" ++ tail)%string) ->
      Startup.db_path root url = inl "Only sqlite is supported".
Proof.
  pose proof (db_path_sqlite root rest) as H.
  split; [exact H|]. split.
  - intros Ho. rewrite H, (replace_absent _ _ _ Ho). unfold Py.path_join. split.
    + now intros ->.
    + intros -> Hr He. apply truthy_spec in Hr. now rewrite Hr, He.
  - intros url Hu. unfold Startup.db_path, Py.startswith.
    destruct (String.prefix "sqlite:///" url) eqn:E; [|reflexivity].
    apply prefix_spec in E as (tail & E). now destruct (Hu tail).
Qed.

(** X20.  [app.config] loads and [app.storage] finds its [db_path]
    exactly when WEBHOOK_SECRET is set and not empty and DATABASE_URL
    is set and starts with "sqlite:///"; the settings are then the
    values of the environment, with "INFO" for a LOG_LEVEL that is not
    set.  The secret of a loaded configuration is not empty, so
    [GET /health/ready] answers 200 whenever the database can be opened
    and queried and 503 "not ready" otherwise: its own check of the
    secret never decides. *)
Theorem X20_startup_and_readiness (root : Py.str) (getenv : Startup.environ) :
  ((exists settings path, Startup.startup root getenv = inr (settings, path))
   <-> exists secret tail,
       getenv "WEBHOOK_SECRET" = Some secret /\ secret <> ""
       /\ getenv "DATABASE_URL" = Some ("sqlite:///" ++ tail)%string)
  /\ forall settings path,
      Startup.startup root getenv = inr (settings, path) ->
      getenv "WEBHOOK_SECRET" = Some (Startup.WEBHOOK_SECRET settings)
      /\ getenv "DATABASE_URL" = Some (Startup.DATABASE_URL settings)
      /\ Startup.LOG_LEVEL settings
         = match getenv "LOG_LEVEL" with Some v => v | None => "INFO" end
      /\ forall probe,
          Main.ready {| Main.WEBHOOK_SECRET := Startup.WEBHOOK_SECRET settings |}
                     probe
          = if probe then Main.OK {| Main.health_status := "ready" |}
            else Main.HTTPException 503 (Main.Text "not ready").
Proof.
  split.
  - split.
    + intros (settings & path & H).
      apply startup_inr in H as (H1 & H2 & H3 & _ & H5).
      exists (Startup.WEBHOOK_SECRET settings).
      unfold Startup.db_path, Py.startswith in H5.
      destruct (String.prefix "sqlite:///" (Startup.DATABASE_URL settings))
        eqn:E; [|discriminate H5].
      apply prefix_spec in E as (tail & E). exists tail. now rewrite <- E.
    + intros (secret & tail & H1 & H2 & H3).
      exists {| Startup.WEBHOOK_SECRET := secret;
                Startup.DATABASE_URL := ("sqlite:///" ++ tail)%string;
                Startup.LOG_LEVEL := match getenv "LOG_LEVEL" with
                                     | Some v => v
                                     | None => "INFO"
                                     end |}.
      eexists. apply startup_inr.
      cbn [Startup.WEBHOOK_SECRET Startup.DATABASE_URL Startup.LOG_LEVEL].
      repeat split; try assumption.
      apply db_path_sqlite.
  - intros settings path H.
    apply startup_inr in H as (H1 & H2 & H3 & H4 & _).
    repeat split; try assumption.
    intros probe. unfold Main.ready. cbn [Main.WEBHOOK_SECRET].
    apply truthy_spec in H2. now rewrite H2.
Qed.

(** A deployment with the secret "s3cr3t" and the database under
    the project root. *)
Lemma X20_scenario_deployment :
  Startup.startup Scenario.root Scenario.getenv
  = inr ({| Startup.WEBHOOK_SECRET := "s3cr3t";
            Startup.DATABASE_URL := "sqlite:///data/app.db";
            Startup.LOG_LEVEL := "INFO" |}, "/srv/lyftr/data/app.db")
  /\ forall probe,
      Main.ready {| Main.WEBHOOK_SECRET := "s3cr3t" |} probe
      = if probe then Main.OK {| Main.health_status := "ready" |}
        else Main.HTTPException 503 (Main.Text "not ready").
Proof.
  assert (H : Startup.startup Scenario.root Scenario.getenv
              = inr ({| Startup.WEBHOOK_SECRET := "s3cr3t";
                        Startup.DATABASE_URL := "sqlite:///data/app.db";
                        Startup.LOG_LEVEL := "INFO" |},
                     "/srv/lyftr/data/app.db")) by reflexivity.
  split; [exact H|].
  exact (proj2 (proj2 (proj2 (proj2 (X20_startup_and_readiness Scenario.root
                                       Scenario.getenv) _ _ H)))).
Defined.

(** X21.  Under the primary key the ORDER BY of the data query leaves
    the engine no choice: whatever order it returns the matching rows
    in, as long as it is ascending in (ts, message_id), an answered
    request shows the window of that order that [limit] and [offset]
    cut out. *)
Theorem X21_listing_order_is_forced
        (db : Storage.table) (limit offset : option Z)
        (from_ since q : option Py.str) (out : list Storage.row)
        (content : Main.MessagesBody) :
  Spec.unique_ids db ->
  Sqlite.ordered_by Main.by_ts_message_id
    (filter (Main.where_ (Main.conditions_of from_ since q)) db) out ->
  Main.get_messages db limit offset from_ since q = Main.OK content ->
  Main.data content
  = map Main.row_dict
        (firstn (Z.to_nat (Main.limit content))
                (skipn (Z.to_nat (Main.offset content)) out)).
Proof.
  intros Hu Ho H. apply get_messages_OK in H as [[[H1 H2] _] ->].
  rewrite (data_order_forced db _ out Hu Ho).
  cbn [Spec.page Main.data Main.limit Main.offset].
  now rewrite limit_offset_window by lia.
Qed.

(** The inbox of the scenario, its rows given in order by hand. *)
Lemma X21_scenario_second_page :
  (Spec.unique_ids Scenario.inbox
   /\ Sqlite.ordered_by Main.by_ts_message_id
        (filter (Main.where_ (Main.conditions_of None None None)) Scenario.inbox)
        [Scenario.row_m1; Scenario.row_m2; Scenario.row_m3; Scenario.row_m4]
   /\ Main.get_messages Scenario.inbox (Some 2%Z) (Some 1%Z) None None None
      = Scenario.answer [Scenario.row_m2; Scenario.row_m3] 4 2 1)
  /\ map Main.row_dict [Scenario.row_m2; Scenario.row_m3]
     = map Main.row_dict
           (firstn 2 (skipn 1 [Scenario.row_m1; Scenario.row_m2;
                               Scenario.row_m3; Scenario.row_m4])).
Proof.
  assert (Hu : Spec.unique_ids Scenario.inbox).
  { unfold Spec.unique_ids. cbn [map Scenario.inbox Storage.message_id
      Scenario.row_m1 Scenario.row_m2 Scenario.row_m3 Scenario.row_m4].
    repeat constructor; cbn [In]; intuition discriminate. }
  assert (Ho : Sqlite.ordered_by Main.by_ts_message_id
                 (filter (Main.where_ (Main.conditions_of None None None))
                         Scenario.inbox)
                 [Scenario.row_m1; Scenario.row_m2; Scenario.row_m3;
                  Scenario.row_m4]).
  { change [Scenario.row_m1; Scenario.row_m2; Scenario.row_m3; Scenario.row_m4]
      with (Sqlite.sort Main.by_ts_message_id
              (filter (Main.where_ (Main.conditions_of None None None))
                      Scenario.inbox)).
    apply sort_ordered_by, by_ts_message_id_total. }
  assert (H : Main.get_messages Scenario.inbox (Some 2%Z) (Some 1%Z)
                                None None None
              = Scenario.answer [Scenario.row_m2; Scenario.row_m3] 4 2 1)
    by reflexivity.
  split; [split; [exact Hu | split; [exact Ho | exact H]]|].
  exact (X21_listing_order_is_forced Scenario.inbox (Some 2%Z) (Some 1%Z)
           None None None _ _ Hu Ho H).
Defined.

(** X22.  Filters only narrow a listing: an answered request never
    counts more rows than the store holds, adding a [q] or a [from] to a
    request never raises [total], and neither does moving [since] to a
    later value. *)
Theorem X22_filters_only_narrow
        (db : Storage.table) (limit offset : option Z)
        (from_ since q : option Py.str) (content : Main.MessagesBody) :
  Main.get_messages db limit offset from_ since q = Main.OK content ->
  (0 <= Main.total content <= Z.of_nat (List.length db))%Z
  /\ (forall plain,
         Main.get_messages db limit offset from_ since None = Main.OK plain ->
         (Main.total content <= Main.total plain)%Z)
  /\ (forall anyone,
         Main.get_messages db limit offset None since q = Main.OK anyone ->
         (Main.total content <= Main.total anyone)%Z)
  /\ forall earlier later sooner,
      since = Some later -> later <> "" ->
      Spec.str_le earlier later ->
      Main.get_messages db limit offset from_ (Some earlier) q = Main.OK sooner ->
      (Main.total content <= Main.total sooner)%Z.
Proof.
  intros H. apply get_messages_OK in H as [_ ->]. cbn [Spec.page Main.total].
  split; [split; [lia | apply inj_le, List.filter_length_le]|].
  split; [|split].
  - intros plain H. apply get_messages_OK in H as [_ ->].
    cbn [Spec.page Main.total]. apply inj_le, filter_length_mono.
    intros r _. unfold Main.where_, Main.conditions_of.
    rewrite !forallb_app, !andb_true_iff. cbn [Main.when_truthy forallb]. tauto.
  - intros anyone H. apply get_messages_OK in H as [_ ->].
    cbn [Spec.page Main.total]. apply inj_le, filter_length_mono.
    intros r _. unfold Main.where_, Main.conditions_of.
    rewrite !forallb_app, !andb_true_iff. cbn [Main.when_truthy forallb app].
    tauto.
  - intros earlier later sooner -> Hne Hle H.
    apply get_messages_OK in H as [_ ->].
    cbn [Spec.page Main.total]. apply inj_le, filter_length_mono.
    intros r _. unfold Main.where_, Main.conditions_of.
    rewrite !forallb_app, !andb_true_iff.
    intros (H1 & H2 & H3). split; [exact H1|]. split; [|exact H3].
    apply truthy_spec in Hne. cbn [Main.when_truthy] in *. rewrite Hne in H2.
    cbn [forallb Main.holds] in H2. rewrite andb_true_r in H2.
    destruct (Py.truthy earlier); [|reflexivity].
    cbn [forallb Main.holds]. rewrite andb_true_r.
    unfold Sqlite.text_ge in *. apply text_le_spec in Hle.
    exact (text_le_trans _ _ _ Hle H2).
Qed.

(** The sender of [m1] from the third of January on, against the same
    sender from new year on. *)
Lemma X22_scenario_since :
  Main.get_messages Scenario.inbox None None (Some "+15551230000")
                    (Some "2024-01-03") None
  = Scenario.answer [Scenario.row_m3; Scenario.row_m4] 2 50 0
  /\ Main.get_messages Scenario.inbox None None (Some "+15551230000")
                       (Some "2024-01-01") None
     = Scenario.answer [Scenario.row_m1; Scenario.row_m3; Scenario.row_m4] 3 50 0
  /\ Spec.str_le "2024-01-01" "2024-01-03"
  /\ (0 <= 2 <= 4)%Z
  /\ (forall plain,
         Main.get_messages Scenario.inbox None None (Some "+15551230000")
                           (Some "2024-01-03") None = Main.OK plain ->
         (2 <= Main.total plain)%Z)
  /\ (forall anyone,
         Main.get_messages Scenario.inbox None None None
                           (Some "2024-01-03") None = Main.OK anyone ->
         (2 <= Main.total anyone)%Z)
  /\ forall earlier later sooner,
      Some "2024-01-03" = Some later -> later <> "" ->
      Spec.str_le earlier later ->
      Main.get_messages Scenario.inbox None None (Some "+15551230000")
                        (Some earlier) None = Main.OK sooner ->
      (2 <= Main.total sooner)%Z.
Proof.
  assert (H : Main.get_messages Scenario.inbox None None (Some "+15551230000")
                                (Some "2024-01-03") None
              = Scenario.answer [Scenario.row_m3; Scenario.row_m4] 2 50 0)
    by reflexivity.
  split; [exact H|]. split; [reflexivity|]. split; [discriminate|].
  exact (X22_filters_only_narrow Scenario.inbox None None (Some "+15551230000")
           (Some "2024-01-03") None _ H).
Defined.
